(** * G-code move state of klippy/extras/gcode_move.py

    A shallow embedding of the [GCodeMove] class: the coordinate frames
    (last / base / homing position), the mode flags, the speed and extrude
    factors, the named saved states, and the command handlers that mutate
    them.

    Conventions of the embedding.
    - Python floats are idealised as exact rationals ([Q]).  Where the
      source computes a new value by arithmetic the theorems compare with
      [==] ([Qeq]); where the source leaves a value alone they use [=].
    - A method of the class is a function [state -> res A * state]: the
      result is a returned value or a raised Python exception, and the state
      that comes back is the object as the method left it (also when it
      raised).
    - Python's built-ins [float] and [int] on strings are parameters of the
      development ([pyfloat], [pyint]): [None] stands for [ValueError]. *)

From Stdlib Require Import QArith Lqa Ascii String.
From stdpp Require Import gmap strings list fin_maps.

Open Scope string_scope.

(** ** Exceptions and results *)

(** The exceptions the handlers can raise.  [CommandError] is [gcmd.error],
    [ConfigError] is [printer.config_error]; the others are Python's own. *)
Inductive exn : Type :=
| CommandError (msg : string)
| ConfigError (msg : string)
| ValueError
| TypeError
| AttributeError
| IndexError
| ZeroDivisionError
| ConfigParserError.

Inductive res (A : Type) : Type :=
| Ok (a : A)
| Raise (e : exn).
Arguments Ok {A} a.
Arguments Raise {A} e.

(** ** The object state *)

(** A bound move / position provider: the toolhead, or a transform object
    installed through [set_move_transform]. *)
Inductive provider : Type :=
| Toolhead
| Transform (id : nat).

(** The attribute [self.v_sd]: absent until [_handle_ready] ran, then the
    result of [lookup_object('virtual_sdcard', None)]. *)
Inductive v_sd_attr : Type :=
| VsdUnset
| VsdNone
| VsdObject (cmd_from_sd : bool).

(** One entry of [self.saved_states]. *)
Record saved_state : Type := mk_saved {
  sv_absolute_coord : bool;
  sv_absolute_extrude : bool;
  sv_base_position : list Q;
  sv_last_position : list Q;
  sv_homing_position : list Q;
  sv_speed : Q;
  sv_speed_factor : Q;
  sv_extrude_factor : Q
}.

(** The content written to /home/sovol/sovol_plr_height. *)
Record plr_height : Type := mk_plr {
  plr_commandline : string;
  plr_Z : string;
  plr_extrude_type : string
}.

(** The fields of [GCodeMove], followed by the part of the outside world
    the handlers touch: the position the bound provider reports, the moves
    handed to it, and the two files of the power-loss hook of [cmd_G1]. *)
Record state : Type := mk_state {
  is_printer_ready : bool;
  absolute_coord : bool;
  absolute_extrude : bool;
  base_position : list Q;
  last_position : list Q;
  homing_position : list Q;
  speed : Q;
  speed_factor : Q;
  extrude_factor : Q;
  saved_states : gmap string saved_state;
  move_transform : option nat;
  move_with_transform : option provider;
  position_with_transform : option provider;
  v_sd : v_sd_attr;
  (* outside world *)
  executor_position : list Q;
  issued_moves : list (provider * list Q * Q);
  saved_variables : option (gmap string string);
  sovol_plr_height : option plr_height
}.

(** A parsed command: the command line and its parameter dictionary. *)
Record gcmd : Type := mk_gcmd {
  commandline : string;
  params : gmap string string
}.

(** Field updates. *)
Definition set_is_printer_ready (b : bool) (s : state) : state :=
  mk_state b (absolute_coord s) (absolute_extrude s) (base_position s)
    (last_position s) (homing_position s) (speed s) (speed_factor s)
    (extrude_factor s) (saved_states s) (move_transform s)
    (move_with_transform s) (position_with_transform s) (v_sd s)
    (executor_position s) (issued_moves s) (saved_variables s)
    (sovol_plr_height s).

Definition set_absolute_coord (b : bool) (s : state) : state :=
  mk_state (is_printer_ready s) b (absolute_extrude s) (base_position s)
    (last_position s) (homing_position s) (speed s) (speed_factor s)
    (extrude_factor s) (saved_states s) (move_transform s)
    (move_with_transform s) (position_with_transform s) (v_sd s)
    (executor_position s) (issued_moves s) (saved_variables s)
    (sovol_plr_height s).

Definition set_absolute_extrude (b : bool) (s : state) : state :=
  mk_state (is_printer_ready s) (absolute_coord s) b (base_position s)
    (last_position s) (homing_position s) (speed s) (speed_factor s)
    (extrude_factor s) (saved_states s) (move_transform s)
    (move_with_transform s) (position_with_transform s) (v_sd s)
    (executor_position s) (issued_moves s) (saved_variables s)
    (sovol_plr_height s).

Definition set_base_position (l : list Q) (s : state) : state :=
  mk_state (is_printer_ready s) (absolute_coord s) (absolute_extrude s) l
    (last_position s) (homing_position s) (speed s) (speed_factor s)
    (extrude_factor s) (saved_states s) (move_transform s)
    (move_with_transform s) (position_with_transform s) (v_sd s)
    (executor_position s) (issued_moves s) (saved_variables s)
    (sovol_plr_height s).

Definition set_last_position (l : list Q) (s : state) : state :=
  mk_state (is_printer_ready s) (absolute_coord s) (absolute_extrude s)
    (base_position s) l (homing_position s) (speed s) (speed_factor s)
    (extrude_factor s) (saved_states s) (move_transform s)
    (move_with_transform s) (position_with_transform s) (v_sd s)
    (executor_position s) (issued_moves s) (saved_variables s)
    (sovol_plr_height s).

Definition set_homing_position (l : list Q) (s : state) : state :=
  mk_state (is_printer_ready s) (absolute_coord s) (absolute_extrude s)
    (base_position s) (last_position s) l (speed s) (speed_factor s)
    (extrude_factor s) (saved_states s) (move_transform s)
    (move_with_transform s) (position_with_transform s) (v_sd s)
    (executor_position s) (issued_moves s) (saved_variables s)
    (sovol_plr_height s).

Definition set_speed (q : Q) (s : state) : state :=
  mk_state (is_printer_ready s) (absolute_coord s) (absolute_extrude s)
    (base_position s) (last_position s) (homing_position s) q
    (speed_factor s) (extrude_factor s) (saved_states s) (move_transform s)
    (move_with_transform s) (position_with_transform s) (v_sd s)
    (executor_position s) (issued_moves s) (saved_variables s)
    (sovol_plr_height s).

Definition set_speed_factor (q : Q) (s : state) : state :=
  mk_state (is_printer_ready s) (absolute_coord s) (absolute_extrude s)
    (base_position s) (last_position s) (homing_position s) (speed s) q
    (extrude_factor s) (saved_states s) (move_transform s)
    (move_with_transform s) (position_with_transform s) (v_sd s)
    (executor_position s) (issued_moves s) (saved_variables s)
    (sovol_plr_height s).

Definition set_extrude_factor (q : Q) (s : state) : state :=
  mk_state (is_printer_ready s) (absolute_coord s) (absolute_extrude s)
    (base_position s) (last_position s) (homing_position s) (speed s)
    (speed_factor s) q (saved_states s) (move_transform s)
    (move_with_transform s) (position_with_transform s) (v_sd s)
    (executor_position s) (issued_moves s) (saved_variables s)
    (sovol_plr_height s).

Definition set_saved_states (m : gmap string saved_state) (s : state) : state :=
  mk_state (is_printer_ready s) (absolute_coord s) (absolute_extrude s)
    (base_position s) (last_position s) (homing_position s) (speed s)
    (speed_factor s) (extrude_factor s) m (move_transform s)
    (move_with_transform s) (position_with_transform s) (v_sd s)
    (executor_position s) (issued_moves s) (saved_variables s)
    (sovol_plr_height s).

Definition set_providers (t : option nat) (mv qp : option provider)
    (s : state) : state :=
  mk_state (is_printer_ready s) (absolute_coord s) (absolute_extrude s)
    (base_position s) (last_position s) (homing_position s) (speed s)
    (speed_factor s) (extrude_factor s) (saved_states s) t mv qp (v_sd s)
    (executor_position s) (issued_moves s) (saved_variables s)
    (sovol_plr_height s).

Definition set_v_sd (v : v_sd_attr) (s : state) : state :=
  mk_state (is_printer_ready s) (absolute_coord s) (absolute_extrude s)
    (base_position s) (last_position s) (homing_position s) (speed s)
    (speed_factor s) (extrude_factor s) (saved_states s) (move_transform s)
    (move_with_transform s) (position_with_transform s) v
    (executor_position s) (issued_moves s) (saved_variables s)
    (sovol_plr_height s).

Definition set_issued_moves (l : list (provider * list Q * Q)) (s : state)
    : state :=
  mk_state (is_printer_ready s) (absolute_coord s) (absolute_extrude s)
    (base_position s) (last_position s) (homing_position s) (speed s)
    (speed_factor s) (extrude_factor s) (saved_states s) (move_transform s)
    (move_with_transform s) (position_with_transform s) (v_sd s)
    (executor_position s) l (saved_variables s) (sovol_plr_height s).

Definition set_files (v : option (gmap string string))
    (h : option plr_height) (s : state) : state :=
  mk_state (is_printer_ready s) (absolute_coord s) (absolute_extrude s)
    (base_position s) (last_position s) (homing_position s) (speed s)
    (speed_factor s) (extrude_factor s) (saved_states s) (move_transform s)
    (move_with_transform s) (position_with_transform s) (v_sd s)
    (executor_position s) (issued_moves s) v h.

(** ** The method monad *)

Definition M (A : Type) : Type := state -> res A * state.

Definition ret {A} (a : A) : M A := fun s => (Ok a, s).

Definition bind {A B} (m : M A) (k : A -> M B) : M B :=
  fun s => match m s with
           | (Ok a, s') => k a s'
           | (Raise e, s') => (Raise e, s')
           end.

Definition raise {A} (e : exn) : M A := fun s => (Raise e, s).

Definition gets {A} (f : state -> A) : M A := fun s => (Ok (f s), s).

Definition modify (f : state -> state) : M unit := fun s => (Ok tt, f s).

Definition lift {A} (r : res A) : M A := fun s => (r, s).

Declare Scope py_scope.
Delimit Scope py_scope with py.
Notation "'let!' x ':=' m 'in' k" := (bind m (fun x => k))
  (at level 10, x name, m at level 100, k at level 200) : py_scope.
Notation "m '>>>' k" := (bind m (fun _ => k))
  (at level 100, k at level 200, right associativity) : py_scope.
Open Scope py_scope.

(** [try: m  except ValueError: h] *)
Definition try_except_ValueError {A} (m h : M A) : M A :=
  fun s => match m s with
           | (Raise ValueError, s') => h s'
           | r => r
           end.

(** [for x in l: f x] *)
Fixpoint for_each {A} (l : list A) (f : A -> M unit) : M unit :=
  match l with
  | [] => ret tt
  | x :: l' => f x >>> for_each l' f
  end.

(** [enumerate] *)
Fixpoint enumerate_from {A} (n : nat) (l : list A) : list (nat * A) :=
  match l with
  | [] => []
  | x :: l' => (n, x) :: enumerate_from (S n) l'
  end.
Definition enumerate {A} (l : list A) : list (nat * A) := enumerate_from 0 l.

(** [l[i]] and [l[i] = v] on a Python list: [IndexError] out of range. *)
Definition getitem (l : list Q) (i : nat) : res Q :=
  match l !! i with
  | Some x => Ok x
  | None => Raise IndexError
  end.

Definition setitem (l : list Q) (i : nat) (v : Q) : res (list Q) :=
  if (i <? length l)%nat then Ok (<[i:=v]> l) else Raise IndexError.

(** [a / b] on floats: [ZeroDivisionError] when [b] is zero. *)
Definition truediv (a b : Q) : res Q :=
  if Qeq_bool b 0 then Raise ZeroDivisionError else Ok (a / b)%Q.

(** [needle in hay] on strings. *)
Fixpoint starts_with (needle hay : string) : bool :=
  match needle, hay with
  | EmptyString, _ => true
  | String a n', String b h' => if Ascii.eqb a b then starts_with n' h' else false
  | String _ _, EmptyString => false
  end.

Fixpoint str_contains (needle hay : string) : bool :=
  starts_with needle hay ||
  match hay with
  | EmptyString => false
  | String _ h' => str_contains needle h'
  end.

(** ** A concrete reading of numeric literals

    An instance of the [float] / [int] parameters below, used to run the
    handlers on concrete commands: an optional sign, decimal digits and, for
    [decimal_float], an optional fraction.  On these literals it agrees with
    Python; every other string is rejected. *)

Definition digit_of (c : Ascii.ascii) : option Z :=
  let n := Z.of_nat (Ascii.nat_of_ascii c) in
  if (48 <=? n)%Z && (n <=? 57)%Z then Some (n - 48)%Z else None.

Fixpoint digits_value (s : string) (acc : Z) : option Z :=
  match s with
  | EmptyString => Some acc
  | String c s' =>
      match digit_of c with
      | Some d => digits_value s' (10 * acc + d)%Z
      | None => None
      end
  end.

Definition nat_literal (s : string) : option Z :=
  match s with
  | EmptyString => None
  | _ => digits_value s 0
  end.

Fixpoint split_dot (s : string) : string * option string :=
  match s with
  | EmptyString => (EmptyString, None)
  | String c s' =>
      if Ascii.eqb c "." then (EmptyString, Some s')
      else let (a, b) := split_dot s' in (String c a, b)
  end.

Definition unsigned_decimal (s : string) : option Q :=
  match split_dot s with
  | (i, None) =>
      match nat_literal i with
      | Some a => Some (inject_Z a)
      | None => None
      end
  | (i, Some f) =>
      match nat_literal i, nat_literal f with
      | Some a, Some b =>
          let k := (10 ^ Z.of_nat (String.length f))%Z in
          Some (Qmake (a * k + b) (Z.to_pos k))
      | _, _ => None
      end
  end.

Definition decimal_float (s : string) : option Q :=
  match s with
  | String c s' =>
      if Ascii.eqb c "-" then
        match unsigned_decimal s' with
        | Some q => Some (- q)%Q
        | None => None
        end
      else if Ascii.eqb c "+" then unsigned_decimal s'
      else unsigned_decimal s
  | EmptyString => None
  end.

Definition decimal_int (s : string) : option Z :=
  match s with
  | String c s' =>
      if Ascii.eqb c "-" then
        match nat_literal s' with
        | Some n => Some (- n)%Z
        | None => None
        end
      else if Ascii.eqb c "+" then nat_literal s'
      else nat_literal s
  | EmptyString => None
  end.

(** ** The class *)

Section GCodeMove.

(** Python's [float(s)] and [int(s)]: [None] when they raise [ValueError]. *)
Variable pyfloat : string -> option Q.
Variable pyint : string -> option Z.

Definition py_float (s : string) : M Q :=
  match pyfloat s with
  | Some v => ret v
  | None => raise ValueError
  end.

(** Modelled from the spec: the accessors of the command object
    ([gcmd.get], [gcmd.get_float], [gcmd.get_int] of klippy/gcode.py, which
    is not part of the sources).  An absent parameter yields the default; a
    present one is parsed, a value that does not parse is a command error
    naming the command line, and with [above=0.] a parsed value [<= 0] is a
    command error as well. *)
Definition unable_to_parse (g : gcmd) (s : string) : exn :=
  CommandError ("Error on '" +:+ commandline g +:+ "': unable to parse " +:+ s).

Definition must_be_above (g : gcmd) (name : string) : exn :=
  CommandError ("Error on '" +:+ commandline g +:+ "': " +:+ name
                +:+ " must be above 0.0").

Definition get (g : gcmd) (name default : string) : M string :=
  match params g !! name with
  | Some s => ret s
  | None => ret default
  end.

Definition get_float (g : gcmd) (name : string) (default : option Q)
    (above_zero : bool) : M (option Q) :=
  match params g !! name with
  | None => ret default
  | Some s =>
      match pyfloat s with
      | None => raise (unable_to_parse g s)
      | Some v =>
          if above_zero && Qle_bool v 0 then raise (must_be_above g name)
          else ret (Some v)
      end
  end.

Definition get_int (g : gcmd) (name : string) (default : Z) : M Z :=
  match params g !! name with
  | None => ret default
  | Some s =>
      match pyint s with
      | None => raise (unable_to_parse g s)
      | Some v => ret v
      end
  end.

(** [get_float(name, d, above=0.)] with a float default never returns
    [None]. *)
Definition get_float_above (g : gcmd) (name : string) (default : Q) : M Q :=
  let! o := get_float g name (Some default) true in
  match o with
  | Some v => ret v
  | None => raise TypeError
  end.

(** [__init__]: the object as the constructor leaves it, in a given outside
    world. *)
Definition GCodeMove_init (exec_pos : list Q)
    (vars : option (gmap string string)) (plr : option plr_height) : state :=
  {| is_printer_ready := false;
     absolute_coord := true;
     absolute_extrude := true;
     base_position := [0; 0; 0; 0]%Q;
     last_position := [0; 0; 0; 0]%Q;
     homing_position := [0; 0; 0; 0]%Q;
     speed := 25;
     speed_factor := 1 / 60;
     extrude_factor := 1;
     saved_states := ∅;
     move_transform := None;
     move_with_transform := None;
     position_with_transform := None;
     v_sd := VsdUnset;
     executor_position := exec_pos;
     issued_moves := [];
     saved_variables := vars;
     sovol_plr_height := plr |}.

(** [self.position_with_transform()]: the lambda of [__init__] while nothing
    is bound, else the bound provider's report. *)
Definition call_position_with_transform : M (list Q) :=
  let! q := gets position_with_transform in
  match q with
  | None => ret [0; 0; 0; 0]%Q
  | Some _ => gets executor_position
  end.

(** [self.move_with_transform(pos, speed)]: calling [None] is a
    [TypeError]; a bound provider receives the move. *)
Definition call_move_with_transform (pos : list Q) (spd : Q) : M unit :=
  let! mv := gets move_with_transform in
  match mv with
  | None => raise TypeError
  | Some p =>
      let! l := gets issued_moves in
      modify (set_issued_moves (l ++ [(p, pos, spd)]))
  end.

Definition reset_last_position : M unit :=
  let! ready := gets is_printer_ready in
  if ready then
    let! p := call_position_with_transform in
    modify (set_last_position p)
  else ret tt.

(** [vsd] is what [lookup_object('virtual_sdcard', None)] returns. *)
Definition _handle_ready (vsd : v_sd_attr) : M unit :=
  modify (set_is_printer_ready true) >>>
  (let! mt := gets move_transform in
   match mt with
   | None => modify (set_providers None (Some Toolhead) (Some Toolhead))
   | Some _ => ret tt
   end) >>>
  reset_last_position >>>
  modify (set_v_sd vsd).

Definition _handle_shutdown : M unit :=
  let! ready := gets is_printer_ready in
  if negb ready then ret tt
  else modify (set_is_printer_ready false).

Definition set_base_item (i : nat) (v : Q) : M unit :=
  let! b := gets base_position in
  let! b' := lift (setitem b i v) in
  modify (set_base_position b').

Definition set_last_item (i : nat) (v : Q) : M unit :=
  let! l := gets last_position in
  let! l' := lift (setitem l i v) in
  modify (set_last_position l').

Definition set_homing_item (i : nat) (v : Q) : M unit :=
  let! h := gets homing_position in
  let! h' := lift (setitem h i v) in
  modify (set_homing_position h').

Definition base_item (i : nat) : M Q :=
  let! b := gets base_position in lift (getitem b i).

Definition last_item (i : nat) : M Q :=
  let! l := gets last_position in lift (getitem l i).

Definition homing_item (i : nat) : M Q :=
  let! h := gets homing_position in lift (getitem h i).

Definition _handle_activate_extruder : M unit :=
  reset_last_position >>>
  modify (set_extrude_factor 1) >>>
  let! e := last_item 3 in
  set_base_item 3 e.

Definition _handle_home_rails_end (axes : list nat) : M unit :=
  reset_last_position >>>
  for_each axes (fun axis =>
    let! h := homing_item axis in
    set_base_item axis h).

(** Returns the transform installed before; [None] stands for the toolhead
    object the source looks up in that case. *)
Definition set_move_transform (transform : nat) (force : bool)
    : M (option nat) :=
  let! mt := gets move_transform in
  if bool_decide (mt <> None) && negb force then
    raise (ConfigError "G-Code move transform already specified")
  else
    modify (set_providers (Some transform) (Some (Transform transform))
              (Some (Transform transform))) >>>
    ret mt.

Definition _get_gcode_position : M (list Q) :=
  let! lp := gets last_position in
  let! bp := gets base_position in
  let p := zip_with Qminus lp bp in
  let! e := lift (getitem p 3) in
  let! ef := gets extrude_factor in
  let! q := lift (truediv e ef) in
  lift (setitem p 3 q).

Definition _get_gcode_speed : M Q :=
  let! s := gets speed in
  let! f := gets speed_factor in
  lift (truediv s f).

Definition _get_gcode_speed_override : M Q :=
  let! f := gets speed_factor in ret (f * 60)%Q.

(** Modelled from the spec: [gcode.Coord], the named tuple of the four
    components x, y, z, e that [__init__] takes from the gcode object
    (klippy/gcode.py is not part of the sources).  [Coord( *l)] takes
    exactly four arguments; any other number is a [TypeError]. *)
Record Coord : Type := mk_Coord {
  coord_x : Q;
  coord_y : Q;
  coord_z : Q;
  coord_e : Q
}.

Definition Coord_of (l : list Q) : res Coord :=
  match l with
  | [x; y; z; e] => Ok (mk_Coord x y z e)
  | _ => Raise TypeError
  end.

(** The dictionary [get_status] returns, one field per key. *)
Record status : Type := mk_status {
  status_speed_factor : Q;
  status_speed : Q;
  status_extrude_factor : Q;
  status_absolute_coordinates : bool;
  status_absolute_extrude : bool;
  status_homing_origin : Coord;
  status_position : Coord;
  status_gcode_position : Coord
}.

Definition get_status : M status :=
  let! move_position := _get_gcode_position in
  let! sf := _get_gcode_speed_override in
  let! sp := _get_gcode_speed in
  let! ef := gets extrude_factor in
  let! ac := gets absolute_coord in
  let! ae := gets absolute_extrude in
  let! ho := (let! h := gets homing_position in lift (Coord_of h)) in
  let! po := (let! l := gets last_position in lift (Coord_of l)) in
  let! gp := lift (Coord_of move_position) in
  ret (mk_status sf sp ef ac ae ho po gp).

(** *** G-Code movement commands *)

Definition cfg_get (option : string) : M string :=
  let! f := gets saved_variables in
  match f with
  | None => raise ConfigParserError
  | Some vars =>
      match vars !! option with
      | Some v => ret v
      | None => raise ConfigParserError
      end
  end.

Definition modify_cfg_value (option new_value : string) : M unit :=
  let! f := gets saved_variables in
  match f with
  | None => raise ConfigParserError
  | Some vars =>
      let! h := gets sovol_plr_height in
      modify (set_files (Some (<[option := new_value]> vars)) h)
  end.

Definition has_key (g : gcmd) (k : string) : bool :=
  match params g !! k with Some _ => true | None => false end.

(** Lines 135-158 of [cmd_G1]: the power-loss bookkeeping done before the
    move is parsed.  It reads [self.v_sd] and parses [params['Z']] outside
    the [try] block. *)
Definition g1_power_loss_hook (g : gcmd) : M unit :=
  if has_key g "G" && has_key g "X" && has_key g "Y" && has_key g "Z" then
    let! vsd := gets v_sd in
    match vsd with
    | VsdUnset | VsdNone => raise AttributeError
    | VsdObject false => ret tt
    | VsdObject true =>
        let! was_inter := cfg_get "was_interrupted" in
        let! last_file := cfg_get "last_file" in
        let! z := py_float (default "" (params g !! "Z")) in
        (if negb (Qle_bool z (2 # 10)) && bool_decide (was_inter = "False")
            && negb (str_contains "zoffset_test.gcode" last_file)
         then modify_cfg_value "was_interrupted" "True"
         else ret tt) >>>
        let! ae := gets absolute_extrude in
        let! vars := gets saved_variables in
        modify (set_files vars
                  (Some (mk_plr (commandline g)
                           (default "" (params g !! "Z"))
                           (if ae then "M82" else "M83"))))
    end
  else ret tt.

(** One turn of [for pos, axis in enumerate('XYZ')]. *)
Definition g1_axis (g : gcmd) (pa : nat * string) : M unit :=
  let (pos, axis) := pa in
  match params g !! axis with
  | None => ret tt
  | Some s =>
      let! v := py_float s in
      let! ac := gets absolute_coord in
      if negb ac then
        let! l := last_item pos in
        set_last_item pos (l + v)%Q
      else
        let! b := base_item pos in
        set_last_item pos (v + b)%Q
  end.

Definition g1_extrude (g : gcmd) : M unit :=
  match params g !! "E" with
  | None => ret tt
  | Some s =>
      let! f := py_float s in
      let! ef := gets extrude_factor in
      let v := (f * ef)%Q in
      let! ac := gets absolute_coord in
      let! ae := gets absolute_extrude in
      if negb ac || negb ae then
        let! l := last_item 3 in
        set_last_item 3 (l + v)%Q
      else
        let! b := base_item 3 in
        set_last_item 3 (v + b)%Q
  end.

Definition invalid_speed (g : gcmd) : exn :=
  CommandError ("Invalid speed in '" +:+ commandline g +:+ "'").

Definition unable_to_parse_move (g : gcmd) : exn :=
  CommandError ("Unable to parse move '" +:+ commandline g +:+ "'").

Definition g1_feed (g : gcmd) : M unit :=
  match params g !! "F" with
  | None => ret tt
  | Some s =>
      let! gcode_speed := py_float s in
      if Qle_bool gcode_speed 0 then raise (invalid_speed g)
      else
        let! sf := gets speed_factor in
        modify (set_speed (gcode_speed * sf)%Q)
  end.

(** The body of the [try] block, lines 160-182. *)
Definition g1_try_body (g : gcmd) : M unit :=
  for_each (enumerate ["X"; "Y"; "Z"]) (g1_axis g) >>>
  g1_extrude g >>>
  g1_feed g.

(** Lines 159-186: parse the parameters, then hand the move over. *)
Definition g1_parse_and_move (g : gcmd) : M unit :=
  try_except_ValueError (g1_try_body g) (raise (unable_to_parse_move g)) >>>
  let! lp := gets last_position in
  let! spd := gets speed in
  call_move_with_transform lp spd.

Definition cmd_G1 (g : gcmd) : M unit :=
  g1_power_loss_hook g >>>
  g1_parse_and_move g.

(** *** G-Code coordinate manipulation *)

Definition cmd_G20 (g : gcmd) : M unit :=
  raise (CommandError "Machine does not support G20 (inches) command").

Definition cmd_G21 (g : gcmd) : M unit := ret tt.

Definition cmd_M82 (g : gcmd) : M unit := modify (set_absolute_extrude true).
Definition cmd_M83 (g : gcmd) : M unit := modify (set_absolute_extrude false).
Definition cmd_G90 (g : gcmd) : M unit := modify (set_absolute_coord true).
Definition cmd_G91 (g : gcmd) : M unit := modify (set_absolute_coord false).

(** [[f x for x in l]] *)
Fixpoint map_M {A B} (f : A -> M B) (l : list A) : M (list B) :=
  match l with
  | [] => ret []
  | x :: l' =>
      let! y := f x in
      let! ys := map_M f l' in
      ret (y :: ys)
  end.

Definition g92_axis (io : nat * option Q) : M unit :=
  let (i, offset) := io in
  match offset with
  | None => ret tt
  | Some o =>
      let! o' := (if (i =? 3)%nat
                  then let! ef := gets extrude_factor in ret (o * ef)%Q
                  else ret o) in
      let! l := last_item i in
      set_base_item i (l - o')%Q
  end.

Definition cmd_G92 (g : gcmd) : M unit :=
  let! offsets := map_M (fun a => get_float g a None false)
                    ["X"; "Y"; "Z"; "E"] in
  for_each (enumerate offsets) g92_axis >>>
  if forallb (fun o => match o with None => true | Some _ => false end)
       offsets
     && (length offsets =? 4)%nat
  then
    let! l := gets last_position in
    modify (set_base_position l)
  else ret tt.

Definition cmd_M220 (g : gcmd) : M unit :=
  let! s := get_float_above g "S" 100 in
  let value := (s / (60 * 100))%Q in
  let! gs := _get_gcode_speed in
  modify (set_speed (gs * value)%Q) >>>
  modify (set_speed_factor value).

Definition cmd_M221 (g : gcmd) : M unit :=
  let! s := get_float_above g "S" 100 in
  let new_extrude_factor := (s / 100)%Q in
  let! last_e_pos := last_item 3 in
  let! b := base_item 3 in
  let! ef := gets extrude_factor in
  let! e_value := lift (truediv (last_e_pos - b) ef) in
  set_base_item 3 (last_e_pos - e_value * new_extrude_factor)%Q >>>
  modify (set_extrude_factor new_extrude_factor).

(** One turn of [for pos, axis in enumerate('XYZE')] in
    [cmd_SET_GCODE_OFFSET]; [move_delta] is the local list, threaded
    through.  [None] is the [continue]. *)
Definition offset_value (g : gcmd) (pos : nat) (axis : string)
    : M (option Q) :=
  let! offset := get_float g axis None false in
  match offset with
  | Some o => ret (Some o)
  | None =>
      let! adj := get_float g (axis +:+ "_ADJUST") None false in
      match adj with
      | None => ret None
      | Some a =>
          let! h := homing_item pos in
          ret (Some (a + h)%Q)
      end
  end.

Definition offset_axis (g : gcmd) (move_delta : list Q) (pa : nat * string)
    : M (list Q) :=
  let (pos, axis) := pa in
  let! offset := offset_value g pos axis in
  match offset with
  | None => ret move_delta
  | Some o =>
      let! h := homing_item pos in
      let delta := (o - h)%Q in
      let! md := lift (setitem move_delta pos delta) in
      let! b := base_item pos in
      set_base_item pos (b + delta)%Q >>>
      set_homing_item pos o >>>
      ret md
  end.

(** A [for] loop that updates a local variable. *)
Fixpoint fold_M {A B} (f : B -> A -> M B) (acc : B) (l : list A) : M B :=
  match l with
  | [] => ret acc
  | x :: l' => let! acc' := f acc x in fold_M f acc' l'
  end.

Definition add_delta (pd : nat * Q) : M unit :=
  let (pos, delta) := pd in
  let! l := last_item pos in
  set_last_item pos (l + delta)%Q.

Definition cmd_SET_GCODE_OFFSET (g : gcmd) : M unit :=
  let! move_delta := fold_M (offset_axis g) [0; 0; 0; 0]%Q
                       (enumerate ["X"; "Y"; "Z"; "E"]) in
  let! mv := get_int g "MOVE" 0 in
  if negb (mv =? 0)%Z then
    let! cur := gets speed in
    let! spd := get_float_above g "MOVE_SPEED" cur in
    for_each (enumerate move_delta) add_delta >>>
    let! lp := gets last_position in
    call_move_with_transform lp spd
  else ret tt.

Definition snapshot (s : state) : saved_state :=
  {| sv_absolute_coord := absolute_coord s;
     sv_absolute_extrude := absolute_extrude s;
     sv_base_position := base_position s;
     sv_last_position := last_position s;
     sv_homing_position := homing_position s;
     sv_speed := speed s;
     sv_speed_factor := speed_factor s;
     sv_extrude_factor := extrude_factor s |}.

Definition cmd_SAVE_GCODE_STATE (g : gcmd) : M unit :=
  let! state_name := get g "NAME" "default" in
  let! snap := gets snapshot in
  let! m := gets saved_states in
  modify (set_saved_states (<[state_name := snap]> m)).

Definition unknown_state (state_name : string) : exn :=
  CommandError ("Unknown g-code state: " +:+ state_name).

(** Lines 282-285: move the toolhead back if requested. *)
Definition restore_move (g : gcmd) (st : saved_state) : M unit :=
  let! mv := get_int g "MOVE" 0 in
  if negb (mv =? 0)%Z then
    let! cur := gets speed in
    let! spd := get_float_above g "MOVE_SPEED" cur in
    let! l := gets last_position in
    modify (set_last_position (take 3 (sv_last_position st) ++ drop 3 l)) >>>
    let! lp := gets last_position in
    call_move_with_transform lp spd
  else ret tt.

Definition cmd_RESTORE_GCODE_STATE (g : gcmd) : M unit :=
  let! state_name := get g "NAME" "default" in
  let! m := gets saved_states in
  match m !! state_name with
  | None => raise (unknown_state state_name)
  | Some st =>
      modify (set_absolute_coord (sv_absolute_coord st)) >>>
      modify (set_absolute_extrude (sv_absolute_extrude st)) >>>
      modify (set_base_position (sv_base_position st)) >>>
      modify (set_homing_position (sv_homing_position st)) >>>
      modify (set_speed (sv_speed st)) >>>
      modify (set_speed_factor (sv_speed_factor st)) >>>
      modify (set_extrude_factor (sv_extrude_factor st)) >>>
      let! cur_e := last_item 3 in
      let! old_e := lift (getitem (sv_last_position st) 3) in
      let e_diff := (cur_e - old_e)%Q in
      let! b := base_item 3 in
      set_base_item 3 (b + e_diff)%Q >>>
      restore_move g st
  end.

(** A parameter is absent, or present with a value [float] accepts. *)
Definition numeric_or_absent (g : gcmd) (a : string) : bool :=
  match params g !! a with
  | Some s => match pyfloat s with Some _ => true | None => false end
  | None => true
  end.

(** The value a present parameter parses to. *)
Definition float_param (g : gcmd) (a : string) : option Q :=
  match params g !! a with
  | Some s => pyfloat s
  | None => None
  end.

(** The offset parameter [cmd_SET_GCODE_OFFSET] consults for an axis (the
    explicit one if present, else the [_ADJUST] one) is absent or numeric. *)
Definition offset_param_ok (g : gcmd) (a : string) : bool :=
  match params g !! a with
  | Some s => match pyfloat s with Some _ => true | None => false end
  | None => numeric_or_absent g (a +:+ "_ADJUST")
  end.

(** [MOVE] is absent or parses to [0]. *)
Definition no_move (g : gcmd) : bool :=
  match params g !! "MOVE" with
  | None => true
  | Some s => match pyint s with Some 0%Z => true | _ => false end
  end.

(** The name a save or restore command refers to. *)
Definition state_name (g : gcmd) : string :=
  default "default" (params g !! "NAME").

(** The position and mode state apart from [last_position]. *)
Definition modes_and_offsets (s : state)
    : bool * bool * list Q * list Q * Q * Q * Q :=
  (absolute_coord s, absolute_extrude s, base_position s, homing_position s,
   speed s, speed_factor s, extrude_factor s).

(** *** Notions used in the statements and in the proofs *)

(** The three position lists have the four components X, Y, Z, E and both
    factors are positive: true of the constructed object and kept by the
    handlers. *)
Definition wf (s : state) : Prop :=
  length (base_position s) = 4%nat /\
  length (last_position s) = 4%nat /\
  length (homing_position s) = 4%nat /\
  (0 < speed_factor s)%Q /\
  (0 < extrude_factor s)%Q.

(** The value a move leaves in [last_position] for a positional axis and
    for the extrusion axis, given the old entry [l] and the base entry [b]:
    a short name for what [g1_axis_ok] and [g1_extrude_ok] write. *)
Definition axis_value (g : gcmd) (a : string) (st : state) (l b : Q) : Q :=
  match float_param g a with
  | Some v => if absolute_coord st then (v + b)%Q else (l + v)%Q
  | None => l
  end.

Definition extrude_value (g : gcmd) (st : state) (l b : Q) : Q :=
  match float_param g "E" with
  | Some f =>
      if negb (absolute_coord st) || negb (absolute_extrude st)
      then (l + f * extrude_factor st)%Q
      else (f * extrude_factor st + b)%Q
  | None => l
  end.

(** [keeps p m]: running [m] leaves the component [p] of the state as it
    was, whether [m] returns or raises. *)
Definition keeps {A B} (p : state -> B) (m : M A) : Prop :=
  forall st, p (snd (m st)) = p st.

(** The offset an axis is given: the explicit value, else the adjustment
    added to the current [homing_position] entry [h], else none. *)
Definition new_offset (g : gcmd) (a : string) (h : Q) : option Q :=
  match float_param g a with
  | Some v => Some v
  | None =>
      match float_param g (a +:+ "_ADJUST") with
      | Some d => Some (d + h)%Q
      | None => None
      end
  end.

(** The command without the [_ADJUST] parameter of an axis. *)
Definition without_adjust (g : gcmd) (a : string) : gcmd :=
  mk_gcmd (commandline g) (delete (a +:+ "_ADJUST") (params g)).

(** The state a restore builds before it looks at [MOVE]. *)
Definition restored (sv : saved_state) (base : list Q) (st : state) : state :=
  set_base_position base
    (set_extrude_factor (sv_extrude_factor sv)
       (set_speed_factor (sv_speed_factor sv)
          (set_speed (sv_speed sv)
             (set_homing_position (sv_homing_position sv)
                (set_absolute_extrude (sv_absolute_extrude sv)
                   (set_absolute_coord (sv_absolute_coord sv) st)))))).

(** A parameter is absent, or present with a value [float] accepts that is
    above zero. *)
Definition positive_or_absent (g : gcmd) (a : string) : bool :=
  match params g !! a with
  | Some s =>
      match pyfloat s with
      | Some v => negb (Qle_bool v 0)
      | None => false
      end
  | None => true
  end.

(** What a move has no business with: the modes, the offsets, the factors,
    the snapshots, the ready flag and the bindings. *)
Definition apart_from_the_move (s : state)
    : bool * bool * list Q * list Q * Q * Q * gmap string saved_state
      * bool * option nat * option provider * option provider * v_sd_attr :=
  (absolute_coord s, absolute_extrude s, base_position s, homing_position s,
   speed_factor s, extrude_factor s, saved_states s, is_printer_ready s,
   move_transform s, move_with_transform s, position_with_transform s,
   v_sd s).

(** The command is one that the power-loss bookkeeping of [cmd_G1] looks
    at: it names G, X, Y and Z. *)
Definition names_GXYZ (g : gcmd) : bool :=
  has_key g "G" && has_key g "X" && has_key g "Y" && has_key g "Z".

(** The position [reset_last_position] leaves in [last_position]: the
    bound provider's report once the printer is ready (the zero vector of
    the constructor's lambda while nothing is bound), else what was
    there. *)
Definition resynced (s : state) : list Q :=
  if is_printer_ready s then
    match position_with_transform s with
    | Some _ => executor_position s
    | None => [0; 0; 0; 0]%Q
    end
  else last_position s.


(** *** The object over its life *)

(** The commands of [__init__]'s registration that are embedded here, each
    with the handler it is registered for ([G0] is registered for
    [cmd_G1]).  The commands that only answer ([M114], [GET_POSITION],
    [GET_GCODE_STATE]) and [SOVOL_GET_STATE], which evaluates the content
    of files, are not among them. *)
Inductive gcode_command : Type :=
| Cmd_G0 | Cmd_G1 | Cmd_G20 | Cmd_G21
| Cmd_M82 | Cmd_M83 | Cmd_G90 | Cmd_G91 | Cmd_G92
| Cmd_M220 | Cmd_M221
| Cmd_SET_GCODE_OFFSET | Cmd_SAVE_GCODE_STATE | Cmd_RESTORE_GCODE_STATE.

Definition handler (c : gcode_command) : gcmd -> M unit :=
  match c with
  | Cmd_G0 | Cmd_G1 => cmd_G1
  | Cmd_G20 => cmd_G20
  | Cmd_G21 => cmd_G21
  | Cmd_M82 => cmd_M82
  | Cmd_M83 => cmd_M83
  | Cmd_G90 => cmd_G90
  | Cmd_G91 => cmd_G91
  | Cmd_G92 => cmd_G92
  | Cmd_M220 => cmd_M220
  | Cmd_M221 => cmd_M221
  | Cmd_SET_GCODE_OFFSET => cmd_SET_GCODE_OFFSET
  | Cmd_SAVE_GCODE_STATE => cmd_SAVE_GCODE_STATE
  | Cmd_RESTORE_GCODE_STATE => cmd_RESTORE_GCODE_STATE
  end.

(** The events [__init__] registers a handler for. *)
Inductive event : Type :=
| Klippy_ready (vsd : v_sd_attr)
| Klippy_shutdown
| Toolhead_set_position
| Toolhead_manual_move
| Gcode_command_error
| Extruder_activate_extruder
| Homing_home_rails_end (axes : list nat).

Definition event_handler (e : event) : M unit :=
  match e with
  | Klippy_ready vsd => _handle_ready vsd
  | Klippy_shutdown => _handle_shutdown
  | Toolhead_set_position | Toolhead_manual_move | Gcode_command_error =>
      reset_last_position
  | Extruder_activate_extruder => _handle_activate_extruder
  | Homing_home_rails_end axes => _handle_home_rails_end axes
  end.

Definition set_executor_position (l : list Q) (s : state) : state :=
  mk_state (is_printer_ready s) (absolute_coord s) (absolute_extrude s)
    (base_position s) (last_position s) (homing_position s) (speed s)
    (speed_factor s) (extrude_factor s) (saved_states s) (move_transform s)
    (move_with_transform s) (position_with_transform s) (v_sd s)
    l (issued_moves s) (saved_variables s) (sovol_plr_height s).

(** One step in the life of the object: a command or an event is handled
    (whatever its outcome), a transform is installed, or the outside world
    changes - the provider reports another position, of four components,
    or the files are rewritten. *)
Inductive step : state -> state -> Prop :=
| step_command (c : gcode_command) (g : gcmd) (st : state) :
    step st (snd (handler c g st))
| step_event (e : event) (st : state) :
    step st (snd (event_handler e st))
| step_set_move_transform (t : nat) (force : bool) (st : state) :
    step st (snd (set_move_transform t force st))
| step_provider (pos : list Q) (st : state) :
    length pos = 4%nat -> step st (set_executor_position pos st)
| step_files (v : option (gmap string string)) (h : option plr_height)
    (st : state) :
    step st (set_files v h st).

(** The states the object can be in: from the constructor on, any number
    of steps. *)
Inductive reachable : state -> Prop :=
| reachable_init (exec_pos : list Q) (vars : option (gmap string string))
    (plr : option plr_height) :
    length exec_pos = 4%nat -> reachable (GCodeMove_init exec_pos vars plr)
| reachable_step (st st' : state) :
    reachable st -> step st st' -> reachable st'.


(** The mover and the position query are always bound to the same
    provider: the installed transform if there is one, else the toolhead -
    or nothing, which is possible only while the printer is not ready. *)
Definition bound_ok (s : state) : Prop :=
  match move_transform s with
  | Some t =>
      move_with_transform s = Some (Transform t) /\
      position_with_transform s = Some (Transform t)
  | None =>
      (move_with_transform s = None /\ position_with_transform s = None /\
       is_printer_ready s = false) \/
      (move_with_transform s = Some Toolhead /\
       position_with_transform s = Some Toolhead)
  end.

(** [preserves I m]: when [I] holds before [m] runs it holds after,
    whether [m] returns or raises. *)
Definition preserves {A} (I : state -> Prop) (m : M A) : Prop :=
  forall st, I st -> I (snd (m st)).


(** The part of the state the bindings are read from. *)
Definition binding (s : state)
    : bool * option nat * option provider * option provider :=
  (is_printer_ready s, move_transform s, move_with_transform s,
   position_with_transform s).




(** *** Concrete objects and commands *)

Definition command (cl : string) (l : list (string * string)) : gcmd :=
  mk_gcmd cl (list_to_map l).

(** The object as constructed, and after the [klippy:ready] event with no
    transform installed and no print from the SD card going on. *)
Definition fresh_object : state := GCodeMove_init [0; 0; 0; 0]%Q None None.

Definition ready_object : state :=
  snd (_handle_ready (VsdObject false) fresh_object).

Definition G1_X10_Yabc : gcmd :=
  command "G1 X10 Yabc" [("G", "1"); ("X", "10"); ("Y", "abc")].


Definition G1_E5 : gcmd := command "G1 E5" [("G", "1"); ("E", "5")].

Definition M83 : gcmd := command "M83" [("M", "83")].

Definition G92 : gcmd := command "G92" [("G", "92")].




Definition SET_GCODE_OFFSET_X1 : gcmd :=
  command "SET_GCODE_OFFSET X=1" [("X", "1")].

Definition SET_GCODE_OFFSET_X1_ADJUST : gcmd :=
  command "SET_GCODE_OFFSET X=1 X_ADJUST=2" [("X", "1"); ("X_ADJUST", "2")].

Definition SAVE_GCODE_STATE_T : gcmd :=
  command "SAVE_GCODE_STATE NAME=T" [("NAME", "T")].

Definition RESTORE_GCODE_STATE_T : gcmd :=
  command "RESTORE_GCODE_STATE NAME=T" [("NAME", "T")].

(** The ready object in relative extrusion mode, and with a move and a
    snapshot behind it. *)
Definition relative_extrude_object : state := snd (cmd_M83 M83 ready_object).

(** The ready object after [SAVE_GCODE_STATE NAME=T]. *)
Definition saved_object : state :=
  snd (cmd_SAVE_GCODE_STATE SAVE_GCODE_STATE_T ready_object).

(** Further commands and objects the theorems are run on. *)
Definition G1_X10_F600 : gcmd :=
  command "G1 X10 F600" [("G", "1"); ("X", "10"); ("F", "600")].



Definition M220_plain : gcmd := command "M220" [("M", "220")].

Definition G92_X5 : gcmd := command "G92 X5" [("G", "92"); ("X", "5")].

Definition G92_X5_Yabc : gcmd :=
  command "G92 X5 Yabc" [("G", "92"); ("X", "5"); ("Y", "abc")].

Definition SET_GCODE_OFFSET_X1_MOVE : gcmd :=
  command "SET_GCODE_OFFSET X=1 MOVE=1" [("X", "1"); ("MOVE", "1")].

Definition SET_GCODE_OFFSET_X1_MOVE_yes : gcmd :=
  command "SET_GCODE_OFFSET X=1 MOVE=yes" [("X", "1"); ("MOVE", "yes")].

Definition RESTORE_GCODE_STATE_T_MOVE : gcmd :=
  command "RESTORE_GCODE_STATE NAME=T MOVE=1" [("NAME", "T"); ("MOVE", "1")].

(** The variables file of a print that has not been interrupted. *)
Definition print_variables : gmap string string :=
  list_to_map [("was_interrupted", "False"); ("last_file", "cube.gcode")].

(** The ready object during a print from the SD card, and the ready
    object of a printer without a virtual_sdcard section. *)
Definition sd_print_object : state :=
  snd (_handle_ready (VsdObject true)
         (GCodeMove_init [0; 0; 0; 0]%Q (Some print_variables) None)).



(** ** Properties *)

(** *** Arithmetic and list primitives *)

Lemma Qle_bool_pos_false (q : Q) : (0 < q)%Q -> Qle_bool q 0 = false.
Proof.
  intros H. destruct (Qle_bool q 0) eqn:E; [|reflexivity].
  apply Qle_bool_iff in E. lra.
Qed.


Lemma Qeq_bool_pos_false (q : Q) : (0 < q)%Q -> Qeq_bool q 0 = false.
Proof.
  intros H. destruct (Qeq_bool q 0) eqn:E; [|reflexivity].
  apply Qeq_bool_iff in E. lra.
Qed.

Lemma truediv_pos (a b : Q) : (0 < b)%Q -> truediv a b = Ok (a / b)%Q.
Proof. intros H. unfold truediv. now rewrite Qeq_bool_pos_false. Qed.

Lemma getitem_Some (l : list Q) (i : nat) (x : Q) :
  l !! i = Some x -> getitem l i = Ok x.
Proof. intros H. unfold getitem. now rewrite H. Qed.

Lemma setitem_lt (l : list Q) (i : nat) (v : Q) :
  (i < length l)%nat -> setitem l i v = Ok (<[i:=v]> l).
Proof.
  intros H. unfold setitem. apply Nat.ltb_lt in H. now rewrite H.
Qed.

(** *** Running a handler step by step *)

Lemma bind_ok {A B} (m : M A) (k : A -> M B) (st st1 : state) (a : A) :
  m st = (Ok a, st1) -> bind m k st = k a st1.
Proof. intros H. unfold bind. now rewrite H. Qed.

Lemma bind_raise {A B} (m : M A) (k : A -> M B) (st st1 : state) (e : exn) :
  m st = (Raise e, st1) -> bind m k st = (Raise e, st1).
Proof. intros H. unfold bind. now rewrite H. Qed.

Lemma try_ok {A} (m h : M A) (st st1 : state) (a : A) :
  m st = (Ok a, st1) -> try_except_ValueError m h st = (Ok a, st1).
Proof. intros H. unfold try_except_ValueError. now rewrite H. Qed.

Lemma try_ValueError {A} (m h : M A) (st st1 : state) :
  m st = (Raise ValueError, st1) -> try_except_ValueError m h st = h st1.
Proof. intros H. unfold try_except_ValueError. now rewrite H. Qed.


(** A state with its own [last_position] written back is the same state. *)
Lemma set_last_position_id (st : state) :
  set_last_position (last_position st) st = st.
Proof. now destruct st. Qed.

Lemma set_base_position_id (st : state) :
  set_base_position (base_position st) st = st.
Proof. now destruct st. Qed.

Ltac unfold_M :=
  unfold bind, gets, modify, lift, ret, raise,
    base_item, last_item, homing_item,
    set_base_item, set_last_item, set_homing_item in *.

(** Membership in a literal list, one case per element. *)
Ltac cases_elem H :=
  first [ apply elem_of_nil in H; destruct H
        | apply elem_of_cons in H; destruct H as [H|H]; [ | cases_elem H ] ].

(** *** What is known of a parameter *)

Lemma float_param_absent (g : gcmd) (a : string) :
  params g !! a = None -> float_param g a = None.
Proof. intros H. unfold float_param. now rewrite H. Qed.

Lemma float_param_numeric (g : gcmd) (a : string) (v : Q) :
  float_param g a = Some v -> numeric_or_absent g a = true.
Proof.
  unfold float_param, numeric_or_absent.
  destruct (params g !! a); [|discriminate]. now intros ->.
Qed.

Lemma get_float_ok (g : gcmd) (a : string) (st : state) :
  numeric_or_absent g a = true ->
  get_float g a None false st = (Ok (float_param g a), st).
Proof.
  unfold get_float, float_param, numeric_or_absent.
  destruct (params g !! a) as [s|]; [|reflexivity].
  destruct (pyfloat s); [reflexivity|discriminate].
Qed.

(** *** The steps of [cmd_G1] *)

Lemma g1_axis_ok (g : gcmd) (pos : nat) (a : string) (st : state) (l b : Q) :
  numeric_or_absent g a = true ->
  last_position st !! pos = Some l ->
  base_position st !! pos = Some b ->
  g1_axis g (pos, a) st =
    (Ok tt,
     set_last_position
       (<[pos := match float_param g a with
                 | Some v => if absolute_coord st then (v + b)%Q else (l + v)%Q
                 | None => l
                 end]> (last_position st)) st).
Proof.
  intros Hn Hl Hb. unfold g1_axis, float_param, numeric_or_absent in *.
  destruct (params g !! a) as [s|].
  - unfold py_float. destruct (pyfloat s) as [v|]; [|discriminate].
    unfold_M. cbn.
    destruct (absolute_coord st); cbn;
      rewrite ?(getitem_Some _ _ _ Hl), ?(getitem_Some _ _ _ Hb);
      rewrite setitem_lt by (eapply lookup_lt_Some; eassumption);
      reflexivity.
  - rewrite list_insert_id by assumption.
    now rewrite set_last_position_id.
Qed.

Lemma g1_axis_bad (g : gcmd) (pos : nat) (a : string) (st : state) :
  numeric_or_absent g a = false ->
  g1_axis g (pos, a) st = (Raise ValueError, st).
Proof.
  intros Hn. unfold g1_axis, numeric_or_absent, py_float in *.
  destruct (params g !! a) as [s|]; [|discriminate].
  destruct (pyfloat s); [discriminate|reflexivity].
Qed.

Lemma g1_extrude_ok (g : gcmd) (st : state) (l b : Q) :
  numeric_or_absent g "E" = true ->
  last_position st !! 3%nat = Some l ->
  base_position st !! 3%nat = Some b ->
  g1_extrude g st =
    (Ok tt,
     set_last_position
       (<[3%nat := match float_param g "E" with
                   | Some f =>
                       if negb (absolute_coord st) || negb (absolute_extrude st)
                       then (l + f * extrude_factor st)%Q
                       else (f * extrude_factor st + b)%Q
                   | None => l
                   end]> (last_position st)) st).
Proof.
  intros Hn Hl Hb. unfold g1_extrude, float_param, numeric_or_absent in *.
  destruct (params g !! "E") as [s|].
  - unfold py_float. destruct (pyfloat s) as [v|]; [|discriminate].
    unfold_M. cbn.
    destruct (negb (absolute_coord st) || negb (absolute_extrude st)); cbn;
      rewrite ?(getitem_Some _ _ _ Hl), ?(getitem_Some _ _ _ Hb);
      rewrite setitem_lt by (eapply lookup_lt_Some; eassumption);
      reflexivity.
  - rewrite list_insert_id by assumption.
    now rewrite set_last_position_id.
Qed.

Lemma g1_extrude_bad (g : gcmd) (st : state) :
  numeric_or_absent g "E" = false ->
  g1_extrude g st = (Raise ValueError, st).
Proof.
  intros Hn. unfold g1_extrude, numeric_or_absent, py_float in *.
  destruct (params g !! "E") as [s|]; [|discriminate].
  destruct (pyfloat s); [discriminate|reflexivity].
Qed.

Lemma g1_feed_absent (g : gcmd) (st : state) :
  params g !! "F" = None -> g1_feed g st = (Ok tt, st).
Proof. intros H. unfold g1_feed. now rewrite H. Qed.

Lemma g1_feed_bad (g : gcmd) (st : state) :
  numeric_or_absent g "F" = false ->
  g1_feed g st = (Raise ValueError, st).
Proof.
  intros Hn. unfold g1_feed, numeric_or_absent, py_float in *.
  destruct (params g !! "F") as [s|]; [|discriminate].
  destruct (pyfloat s); [discriminate|reflexivity].
Qed.


Lemma g1_feed_positive (g : gcmd) (st : state) (s : string) (f : Q) :
  params g !! "F" = Some s -> pyfloat s = Some f -> (0 < f)%Q ->
  g1_feed g st = (Ok tt, set_speed (f * speed_factor st)%Q st).
Proof.
  intros HF Hf Hlt. unfold g1_feed, py_float. rewrite HF, Hf.
  unfold_M. now rewrite (Qle_bool_pos_false f Hlt).
Qed.

(** The power-loss hook only ever touches the two files. *)
Lemma g1_power_loss_hook_frame (g : gcmd) (st : state) :
  exists v h, snd (g1_power_loss_hook g st) = set_files v h st.
Proof.
  destruct st as [? ? ? ? ? ? ? ? ? ? ? ? ? vsd ? ? vars plr].
  unfold g1_power_loss_hook, cfg_get, modify_cfg_value, py_float.
  destruct (has_key g "G" && has_key g "X" && has_key g "Y" && has_key g "Z");
    [|eexists _, _; reflexivity].
  unfold_M. cbn.
  destruct vsd as [| |[|]]; try (eexists _, _; reflexivity).
  destruct vars as [vars|]; [|eexists _, _; reflexivity]. cbn.
  destruct (vars !! "was_interrupted"); [|eexists _, _; reflexivity]. cbn.
  destruct (vars !! "last_file"); [|eexists _, _; reflexivity]. cbn.
  destruct (pyfloat _); [|eexists _, _; reflexivity]. cbn.
  destruct (_ && _ && _); cbn; eexists _, _; reflexivity.
Qed.

(** During a print from the SD card, a move naming G, X, Y and Z has its Z
    value parsed by the hook, outside the [try] block: a non-numeric Z then
    leaves [cmd_G1] as a bare [ValueError], before anything is written. *)
Lemma cmd_G1_hook_ValueError (g : gcmd) (st : state) (z : string)
    (vars : gmap string string) (w f : string) :
  has_key g "G" && has_key g "X" && has_key g "Y" = true ->
  params g !! "Z" = Some z -> pyfloat z = None ->
  v_sd st = VsdObject true ->
  saved_variables st = Some vars ->
  vars !! "was_interrupted" = Some w -> vars !! "last_file" = Some f ->
  cmd_G1 g st = (Raise ValueError, st).
Proof.
  intros Hk Hz Hf Hv Hs Hw Hl.
  unfold cmd_G1, g1_power_loss_hook, cfg_get, py_float, has_key in *.
  rewrite Hk, Hz. unfold_M. cbn. rewrite Hv, Hs, Hw. cbn.
  rewrite Hs, Hl. cbn. now rewrite Hf.
Qed.

Lemma cmd_G1_after_hook (g : gcmd) (st : state) :
  fst (g1_power_loss_hook g st) = Ok tt ->
  exists v h, cmd_G1 g st = g1_parse_and_move g (set_files v h st).
Proof.
  intros H. destruct (g1_power_loss_hook_frame g st) as (v & h & E).
  exists v, h. unfold cmd_G1, bind.
  destruct (g1_power_loss_hook g st) as [r st1]. simpl in *. subst.
  reflexivity.
Qed.

Lemma axis_value_absent (g : gcmd) (a : string) (st : state) (l b : Q) :
  float_param g a = None -> axis_value g a st l b = l.
Proof. intros H. unfold axis_value. now rewrite H. Qed.

Lemma extrude_value_absent (g : gcmd) (st : state) (l b : Q) :
  float_param g "E" = None -> extrude_value g st l b = l.
Proof. intros H. unfold extrude_value. now rewrite H. Qed.

(** The [try] body of [cmd_G1], axis by axis: it stops with [ValueError] at
    the first parameter that is not numeric, with the axes before it
    already written. *)
Lemma g1_try_body_run (g : gcmd) (st : state) (l0 l1 l2 l3 b0 b1 b2 b3 : Q) :
  last_position st = [l0; l1; l2; l3] ->
  base_position st = [b0; b1; b2; b3] ->
  let tx := axis_value g "X" st l0 b0 in
  let ty := axis_value g "Y" st l1 b1 in
  let tz := axis_value g "Z" st l2 b2 in
  let te := extrude_value g st l3 b3 in
  g1_try_body g st =
    if negb (numeric_or_absent g "X") then (Raise ValueError, st)
    else if negb (numeric_or_absent g "Y") then
      (Raise ValueError, set_last_position [tx; l1; l2; l3] st)
    else if negb (numeric_or_absent g "Z") then
      (Raise ValueError, set_last_position [tx; ty; l2; l3] st)
    else if negb (numeric_or_absent g "E") then
      (Raise ValueError, set_last_position [tx; ty; tz; l3] st)
    else g1_feed g (set_last_position [tx; ty; tz; te] st).
Proof.
  intros Hl Hb tx ty tz te. unfold g1_try_body.
  cbn [for_each enumerate enumerate_from].
  destruct (numeric_or_absent g "X") eqn:HX; cbn [negb].
  2:{ now rewrite (bind_raise _ _ _ _ _
                     (bind_raise _ _ _ _ _ (g1_axis_bad g 0 "X" st HX))). }
  pose proof (g1_axis_ok g 0 "X" st l0 b0 HX) as EX.
  rewrite Hl, Hb in EX. specialize (EX eq_refl eq_refl).
  cbn [list_insert] in EX. fold tx in EX.
  set (s1 := set_last_position [tx; l1; l2; l3] st) in *.
  destruct (numeric_or_absent g "Y") eqn:HY; cbn [negb].
  2:{ erewrite bind_raise; [reflexivity|].
      erewrite bind_ok by exact EX.
      now rewrite (bind_raise _ _ _ _ _ (g1_axis_bad g 1 "Y" s1 HY)). }
  pose proof (g1_axis_ok g 1 "Y" s1 l1 b1 HY eq_refl) as EY.
  cbn [base_position set_last_position s1] in EY.
  rewrite Hb in EY. specialize (EY eq_refl).
  cbn [list_insert last_position] in EY. fold ty in EY.
  set (s2 := set_last_position [tx; ty; l2; l3] st) in *.
  destruct (numeric_or_absent g "Z") eqn:HZ; cbn [negb].
  2:{ erewrite bind_raise; [reflexivity|].
      erewrite bind_ok by exact EX. erewrite bind_ok by exact EY.
      now rewrite (bind_raise _ _ _ _ _ (g1_axis_bad g 2 "Z" s2 HZ)). }
  pose proof (g1_axis_ok g 2 "Z" s2 l2 b2 HZ eq_refl) as EZ.
  cbn [base_position set_last_position s2] in EZ.
  rewrite Hb in EZ. specialize (EZ eq_refl).
  cbn [list_insert last_position] in EZ. fold tz in EZ.
  set (s3 := set_last_position [tx; ty; tz; l3] st) in *.
  assert (Eaxes : for_each [(0%nat, "X"); (1%nat, "Y"); (2%nat, "Z")]
                    (g1_axis g) st = (Ok tt, s3)).
  { cbn [for_each]. erewrite bind_ok by exact EX.
    erewrite bind_ok by exact EY. erewrite bind_ok by exact EZ.
    reflexivity. }
  cbn [for_each] in Eaxes. erewrite bind_ok by exact Eaxes.
  destruct (numeric_or_absent g "E") eqn:HE; cbn [negb].
  2:{ now rewrite (bind_raise _ _ _ _ _ (g1_extrude_bad g s3 HE)). }
  pose proof (g1_extrude_ok g s3 l3 b3 HE eq_refl) as EE.
  cbn [base_position set_last_position s3] in EE.
  rewrite Hb in EE. specialize (EE eq_refl).
  cbn [list_insert last_position] in EE.
  erewrite bind_ok by exact EE. reflexivity.
Qed.

Lemma length4 (l : list Q) :
  length l = 4%nat -> exists a b c d, l = [a; b; c; d].
Proof.
  destruct l as [|a [|b [|c [|d [|? ?]]]]]; try discriminate. eauto.
Qed.

(** Name the components of the three position lists of a well-formed
    state. *)
Ltac name_positions st H :=
  let Hb := fresh "Hbase" in let Hl := fresh "Hlast" in
  let Hh := fresh "Hhoming" in
  let Hsf := fresh "Hsf" in let Hef := fresh "Hef" in
  destruct H as (Hb & Hl & Hh & Hsf & Hef);
  apply length4 in Hb as (?b0 & ?b1 & ?b2 & ?b3 & Hb);
  apply length4 in Hl as (?l0 & ?l1 & ?l2 & ?l3 & Hl);
  apply length4 in Hh as (?h0 & ?h1 & ?h2 & ?h3 & Hh).

(** One case per axis of an [enumerate]d literal list. *)
Ltac cases_enum H :=
  cbn [enumerate enumerate_from] in H; cases_elem H;
  injection H as -> ->.

(** Bring a hypothesis on the parameters to what the case analysis knows. *)
Ltac know_params H :=
  cbn [forallb take andb] in H;
  repeat match type of H with
    | context [numeric_or_absent ?g ?a] =>
        match goal with
        | E : numeric_or_absent g a = _ |- _ => rewrite E in H
        end
    end;
  cbn [andb negb] in H.

(** Read a position list of a state rebuilt from [st]. *)
Ltac read_positions :=
  cbn [last_position base_position homing_position extrude_factor
       absolute_coord absolute_extrude speed speed_factor
       set_last_position set_base_position set_homing_position set_files
       set_speed set_speed_factor set_extrude_factor set_issued_moves
       set_absolute_coord set_absolute_extrude] in *.

Lemma g1_parse_and_move_ValueError (g : gcmd) (st st1 : state) :
  g1_try_body g st = (Raise ValueError, st1) ->
  g1_parse_and_move g st = (Raise (unable_to_parse_move g), st1).
Proof.
  intros H. unfold g1_parse_and_move.
  erewrite bind_raise; [reflexivity|].
  now rewrite (try_ValueError _ _ _ _ H).
Qed.


Lemma g1_parse_and_move_ok (g : gcmd) (st st1 : state) :
  g1_try_body g st = (Ok tt, st1) ->
  g1_parse_and_move g st =
    call_move_with_transform (last_position st1) (speed st1) st1.
Proof.
  intros H. unfold g1_parse_and_move.
  erewrite bind_ok by (now rewrite (try_ok _ _ _ _ _ H)).
  reflexivity.
Qed.

(** C1 (as the code has it). A move with a non-numeric value for a present
    X, Y, Z, E or F parameter fails with the command error "Unable to parse
    move '<command line>'" and issues no move.  [base_position],
    [homing_position], [speed], the factors and the mode flags are as
    before.  [last_position] is as before on every axis that is absent from
    the command or that comes at or after the first non-numeric axis
    parameter (in the order X, Y, Z, E); the numeric X, Y, Z parameters in
    front of the first non-numeric one have already been written to it. *)
Theorem C1_parse_failure_touches_only_last_position (g : gcmd) (st : state) :
  wf st ->
  fst (g1_power_loss_hook g st) = Ok tt ->
  forallb (numeric_or_absent g) ["X"; "Y"; "Z"; "E"; "F"] = false ->
  exists st',
    cmd_G1 g st = (Raise (unable_to_parse_move g), st') /\
    modes_and_offsets st' = modes_and_offsets st /\
    saved_states st' = saved_states st /\
    issued_moves st' = issued_moves st /\
    length (last_position st') = 4%nat /\
    (forall i a,
       (i, a) ∈ enumerate ["X"; "Y"; "Z"; "E"] ->
       params g !! a = None \/
       forallb (numeric_or_absent g) (take (S i) ["X"; "Y"; "Z"; "E"]) = false ->
       last_position st' !! i = last_position st !! i) /\
    (forall i a v l b,
       (i, a) ∈ enumerate ["X"; "Y"; "Z"] ->
       forallb (numeric_or_absent g) (take i ["X"; "Y"; "Z"]) = true ->
       float_param g a = Some v ->
       last_position st !! i = Some l ->
       base_position st !! i = Some b ->
       last_position st' !! i =
         Some (if absolute_coord st then v + b else l + v)%Q).
Proof.
  intros Hwf Hhook Hbad.
  destruct (cmd_G1_after_hook g st Hhook) as (vars & plr & ->).
  name_positions st Hwf.
  pose proof (g1_try_body_run g (set_files vars plr st) _ _ _ _ _ _ _ _
                Hlast Hbase) as Hbody.
  cbv zeta in Hbody.
  destruct (numeric_or_absent g "X") eqn:HX;
    [destruct (numeric_or_absent g "Y") eqn:HY;
      [destruct (numeric_or_absent g "Z") eqn:HZ;
        [destruct (numeric_or_absent g "E") eqn:HE;
          [destruct (numeric_or_absent g "F") eqn:HF;
            [know_params Hbad; discriminate Hbad|] | ] | ] | ] | ];
  cbn [negb] in Hbody;
  try rewrite (g1_feed_bad _ _ HF) in Hbody;
  (eexists; split; [exact (g1_parse_and_move_ValueError _ _ _ Hbody)|]);
  read_positions; rewrite ?Hlast, ?Hbase;
  (do 4 (split; [reflexivity|])); split.
  all: try (intros i a Hin Hc; cases_enum Hin;
            (destruct Hc as [Hc|Hc];
             [ apply float_param_absent in Hc;
               cbn [lookup list_lookup];
               rewrite ?(axis_value_absent _ _ _ _ _ Hc),
                       ?(extrude_value_absent _ _ _ _ Hc); reflexivity
             | know_params Hc; try discriminate Hc; reflexivity ])).
  all: intros i a v l b Hin Hok Hf Hl Hb; cases_enum Hin;
       know_params Hok; try discriminate Hok;
       try (apply float_param_numeric in Hf; congruence);
       cbn [lookup list_lookup] in *; unfold axis_value; rewrite Hf;
       read_positions; injection Hl as <-; injection Hb as <-; reflexivity.
Qed.

Lemma call_move_last_position (p : list Q) (spd : Q) (st : state) :
  last_position (snd (call_move_with_transform p spd st)) = last_position st.
Proof.
  unfold call_move_with_transform. unfold_M.
  now destruct (move_with_transform st).
Qed.

(** [g1_feed] leaves [last_position] alone whatever it does, and so does
    the rest of [cmd_G1] after it. *)
Lemma g1_feed_last_position (g : gcmd) (st : state) :
  last_position (snd (g1_feed g st)) = last_position st.
Proof.
  unfold g1_feed, py_float. unfold_M.
  destruct (params g !! "F") as [s|]; [|reflexivity].
  destruct (pyfloat s) as [f|]; [|reflexivity].
  now destruct (Qle_bool f 0).
Qed.

Lemma g1_parse_and_move_last_position (g : gcmd) (st st1 : state) :
  g1_try_body g st = g1_feed g st1 ->
  last_position (snd (g1_parse_and_move g st)) = last_position st1.
Proof.
  intros H. pose proof (g1_feed_last_position g st1) as Hl.
  rewrite <- H in Hl.
  destruct (g1_try_body g st) as [[[]|e] st2] eqn:Hbody; cbn [snd] in Hl.
  - rewrite (g1_parse_and_move_ok _ _ _ Hbody).
    now rewrite call_move_last_position.
  - unfold g1_parse_and_move, bind, try_except_ValueError.
    rewrite Hbody. now destruct e.
Qed.

(** C2. In a move whose E parameter parses to [v] (the X, Y, Z parameters
    before it being absent or numeric), [last_position[3]] is advanced by
    [v * extrude_factor] whenever [absolute_coord] is false or
    [absolute_extrude] is false, and is set to
    [v * extrude_factor + base_position[3]] only when both are true; in
    particular [absolute_coord = true] with [absolute_extrude = false]
    accumulates. *)
Theorem C2_extrude_relative_unless_both_absolute (g : gcmd) (st : state)
    (str : string) (v last_e base_e : Q) :
  wf st ->
  fst (g1_power_loss_hook g st) = Ok tt ->
  forallb (numeric_or_absent g) ["X"; "Y"; "Z"] = true ->
  params g !! "E" = Some str -> pyfloat str = Some v ->
  last_position st !! 3%nat = Some last_e ->
  base_position st !! 3%nat = Some base_e ->
  let st' := snd (cmd_G1 g st) in
  (absolute_coord st = false \/ absolute_extrude st = false ->
     last_position st' !! 3%nat = Some (last_e + v * extrude_factor st)%Q) /\
  (absolute_coord st = true /\ absolute_extrude st = true ->
     last_position st' !! 3%nat = Some (v * extrude_factor st + base_e)%Q) /\
  (absolute_coord st = true -> absolute_extrude st = false ->
     last_position st' !! 3%nat = Some (last_e + v * extrude_factor st)%Q).
Proof.
  clear pyint. intros Hwf Hhook Hnum HE Hv Hl Hb st'. subst st'.
  destruct (cmd_G1_after_hook g st Hhook) as (vars & plr & ->).
  name_positions st Hwf.
  rewrite Hlast in Hl. rewrite Hbase in Hb.
  cbn [lookup list_lookup] in Hl, Hb.
  injection Hl as ->. injection Hb as ->.
  assert (Hf : float_param g "E" = Some v)
    by (unfold float_param; now rewrite HE).
  pose proof (float_param_numeric _ _ _ Hf) as HnE.
  cbn [forallb] in Hnum.
  apply andb_prop in Hnum as [HX Hnum].
  apply andb_prop in Hnum as [HY Hnum].
  apply andb_prop in Hnum as [HZ _].
  pose proof (g1_try_body_run g (set_files vars plr st) _ _ _ _ _ _ _ _
                Hlast Hbase) as Hbody.
  cbv zeta in Hbody. rewrite HX, HY, HZ, HnE in Hbody. cbn [negb] in Hbody.
  rewrite (g1_parse_and_move_last_position _ _ _ Hbody).
  read_positions. cbn [lookup list_lookup].
  unfold extrude_value. rewrite Hf. read_positions.
  destruct (absolute_coord st), (absolute_extrude st); cbn [negb orb];
    repeat split; intros; try reflexivity; intuition discriminate.
Qed.


(** *** [cmd_M220], [cmd_M221], [cmd_G92] *)


(** [_get_gcode_position()] on named components. *)
Lemma _get_gcode_position_run (st : state) (l0 l1 l2 l3 b0 b1 b2 b3 : Q) :
  last_position st = [l0; l1; l2; l3] ->
  base_position st = [b0; b1; b2; b3] ->
  (0 < extrude_factor st)%Q ->
  _get_gcode_position st =
    (Ok [l0 - b0; l1 - b1; l2 - b2; (l3 - b3) / extrude_factor st]%Q, st).
Proof.
  intros Hl Hb Hef. unfold _get_gcode_position. unfold_M.
  rewrite Hl, Hb. cbn [zip_with getitem lookup list_lookup].
  now rewrite (truediv_pos _ _ Hef).
Qed.


(** C7 (as the code has it). In the state the constructor builds,
    [position_with_transform()] returns [[0, 0, 0, 0]] and changes nothing;
    [move_with_transform] is [None], so invoking it performs nothing (no
    move is issued, the state is unchanged) and raises [TypeError]. *)
Theorem C7_initial_binding (exec_pos : list Q)
    (vars : option (gmap string string)) (plr : option plr_height)
    (pos : list Q) (spd : Q) :
  let st := GCodeMove_init exec_pos vars plr in
  call_position_with_transform st = (Ok [0; 0; 0; 0]%Q, st) /\
  call_move_with_transform pos spd st = (Raise TypeError, st) /\
  move_with_transform st = None /\
  is_printer_ready st = false.
Proof. repeat split. Qed.

Lemma g92_axis_ok (i : nat) (o : option Q) (st : state) (l b : Q) :
  last_position st !! i = Some l ->
  base_position st !! i = Some b ->
  g92_axis (i, o) st =
    (Ok tt,
     set_base_position
       (<[i := match o with
               | Some v =>
                   (l - (if (i =? 3)%nat then v * extrude_factor st else v))%Q
               | None => b
               end]> (base_position st)) st).
Proof.
  intros Hl Hb. unfold g92_axis. destruct o as [v|].
  - unfold_M. destruct (i =? 3)%nat; cbn;
      rewrite (getitem_Some _ _ _ Hl);
      rewrite setitem_lt by (eapply lookup_lt_Some; eassumption);
      reflexivity.
  - rewrite list_insert_id by assumption.
    now rewrite set_base_position_id.
Qed.

Lemma g92_offsets (g : gcmd) (st : state) :
  forallb (numeric_or_absent g) ["X"; "Y"; "Z"; "E"] = true ->
  map_M (fun a => get_float g a None false) ["X"; "Y"; "Z"; "E"] st =
    (Ok [float_param g "X"; float_param g "Y"; float_param g "Z";
         float_param g "E"], st).
Proof.
  intros Hnum. cbn [forallb] in Hnum.
  apply andb_prop in Hnum as [HX Hnum].
  apply andb_prop in Hnum as [HY Hnum].
  apply andb_prop in Hnum as [HZ Hnum].
  apply andb_prop in Hnum as [HE _].
  cbn [map_M]. unfold bind.
  rewrite !get_float_ok by assumption. reflexivity.
Qed.

(** [cmd_G92] on named components. *)
Lemma cmd_G92_run (g : gcmd) (st : state) (l0 l1 l2 l3 b0 b1 b2 b3 : Q) :
  last_position st = [l0; l1; l2; l3] ->
  base_position st = [b0; b1; b2; b3] ->
  forallb (numeric_or_absent g) ["X"; "Y"; "Z"; "E"] = true ->
  cmd_G92 g st =
    (Ok tt,
     set_base_position
       (match float_param g "X", float_param g "Y", float_param g "Z",
              float_param g "E" with
        | None, None, None, None => [l0; l1; l2; l3]
        | fx, fy, fz, fe =>
            [match fx with Some v => l0 - v | None => b0 end;
             match fy with Some v => l1 - v | None => b1 end;
             match fz with Some v => l2 - v | None => b2 end;
             match fe with
             | Some v => l3 - v * extrude_factor st
             | None => b3
             end]%Q
        end) st).
Proof.
  intros Hl Hb Hnum. unfold cmd_G92.
  rewrite (bind_ok _ _ _ _ _ (g92_offsets g st Hnum)).
  cbn [enumerate enumerate_from for_each].
  pose proof (g92_axis_ok 0 (float_param g "X") st l0 b0) as E0.
  rewrite Hl, Hb in E0. specialize (E0 eq_refl eq_refl).
  cbn [list_insert Nat.eqb] in E0.
  set (s1 := set_base_position _ st) in E0.
  pose proof (g92_axis_ok 1 (float_param g "Y") s1 l1 b1) as E1.
  cbn [last_position base_position set_base_position s1] in E1.
  rewrite Hl in E1. specialize (E1 eq_refl eq_refl).
  cbn [list_insert Nat.eqb] in E1.
  set (s2 := set_base_position _ s1) in E1.
  pose proof (g92_axis_ok 2 (float_param g "Z") s2 l2 b2) as E2.
  cbn [last_position base_position set_base_position s1 s2] in E2.
  rewrite Hl in E2. specialize (E2 eq_refl eq_refl).
  cbn [list_insert Nat.eqb] in E2.
  set (s3 := set_base_position _ s2) in E2.
  pose proof (g92_axis_ok 3 (float_param g "E") s3 l3 b3) as E3.
  cbn [last_position base_position set_base_position s1 s2 s3] in E3.
  rewrite Hl in E3. specialize (E3 eq_refl eq_refl).
  cbn [list_insert Nat.eqb extrude_factor set_base_position s1 s2 s3] in E3.
  set (s4 := set_base_position _ s3) in E3.
  erewrite bind_ok.
  2:{ erewrite bind_ok by exact E0. erewrite bind_ok by exact E1.
      erewrite bind_ok by exact E2. erewrite bind_ok by exact E3.
      reflexivity. }
  subst s1 s2 s3 s4.
  destruct (float_param g "X"), (float_param g "Y"), (float_param g "Z"),
    (float_param g "E"); cbn [forallb andb length Nat.eqb];
    unfold_M; cbn [last_position set_base_position]; try rewrite Hl;
    reflexivity.
Qed.

(** C8. For a well-formed state and a [G92] whose present axis parameters
    are numeric, [cmd_G92] succeeds and leaves [last_position] alone; each
    axis given a value [v] gets [base_position[axis] = last_position[axis]
    - v] (with [v * extrude_factor] for E), an axis without a value keeps
    its base while some other axis has one, and with no axis value at all
    [base_position] becomes [last_position] and [_get_gcode_position()] is
    the zero vector. *)
Theorem C8_G92_sets_origin (g : gcmd) (st : state) :
  wf st ->
  forallb (numeric_or_absent g) ["X"; "Y"; "Z"; "E"] = true ->
  exists st',
    cmd_G92 g st = (Ok tt, st') /\
    last_position st' = last_position st /\
    extrude_factor st' = extrude_factor st /\
    (forall i a v l,
       (i, a) ∈ enumerate ["X"; "Y"; "Z"; "E"] ->
       float_param g a = Some v ->
       last_position st !! i = Some l ->
       base_position st' !! i =
         Some (l - (if (i =? 3)%nat
                    then v * extrude_factor st else v))%Q) /\
    (forall i a,
       (i, a) ∈ enumerate ["X"; "Y"; "Z"; "E"] ->
       params g !! a = None ->
       (exists b, is_Some (params g !! b) /\ b ∈ ["X"; "Y"; "Z"; "E"]) ->
       base_position st' !! i = base_position st !! i) /\
    ((forall a, a ∈ ["X"; "Y"; "Z"; "E"] -> params g !! a = None) ->
       base_position st' = last_position st /\
       exists p, _get_gcode_position st' = (Ok p, st') /\
                 Forall2 Qeq p [0; 0; 0; 0]%Q).
Proof.
  intros Hwf Hnum. name_positions st Hwf.
  eexists. split; [exact (cmd_G92_run g st _ _ _ _ _ _ _ _ Hlast Hbase Hnum)|].
  do 2 (split; [reflexivity|]).
  cbn [base_position set_base_position]. rewrite Hlast, Hbase.
  assert (Hpresent : forall b, is_Some (params g !! b) ->
            b ∈ ["X"; "Y"; "Z"; "E"] -> is_Some (float_param g b)).
  { intros b [s Hs] Hb.
    assert (Hn : numeric_or_absent g b = true)
      by (apply (proj1 (forallb_forall _ _) Hnum), list_elem_of_In, Hb).
    unfold numeric_or_absent, float_param in *. rewrite Hs in *.
    destruct (pyfloat s); [eauto|discriminate]. }
  split; [|split].
  - intros i a v l Hin Hf Hl.
    cases_enum Hin; cbn [lookup list_lookup] in Hl; injection Hl as <-;
      rewrite Hf; cbn [Nat.eqb];
      destruct (float_param g "X"), (float_param g "Y"),
        (float_param g "Z"), (float_param g "E");
      try discriminate Hf; injection Hf as ->; reflexivity.
  - intros i a Hin Hnone (b & Hsome & Hb).
    apply float_param_absent in Hnone.
    apply Hpresent in Hsome as [w Hw]; [|exact Hb].
    cases_elem Hb; subst b; cases_enum Hin; rewrite ?Hnone, ?Hw;
      try congruence;
      destruct (float_param g "X"), (float_param g "Y"),
        (float_param g "Z"), (float_param g "E");
      try discriminate; reflexivity.
  - intros Hall.
    rewrite !float_param_absent by (apply Hall; set_solver).
    split; [reflexivity|].
    eexists. split.
    + apply _get_gcode_position_run; [exact Hlast | reflexivity | exact Hef].
    + repeat constructor; cbn [extrude_factor set_base_position];
        field; lra.
Qed.

(** *** Frames: what a handler does not touch *)

Lemma keeps_ret {A B} (p : state -> B) (a : A) : keeps p (ret a).
Proof. now intros st. Qed.

Lemma keeps_raise {A B} (p : state -> B) (e : exn) : keeps p (@raise A e).
Proof. now intros st. Qed.

Lemma keeps_gets {A B} (p : state -> B) (f : state -> A) : keeps p (gets f).
Proof. now intros st. Qed.

Lemma keeps_lift {A B} (p : state -> B) (r : res A) : keeps p (lift r).
Proof. now intros st. Qed.

Lemma keeps_modify {B} (p : state -> B) (f : state -> state) :
  (forall st, p (f st) = p st) -> keeps p (modify f).
Proof. intros H st. apply H. Qed.

Lemma keeps_bind {A B C} (p : state -> C) (m : M A) (k : A -> M B) :
  keeps p m -> (forall a, keeps p (k a)) -> keeps p (bind m k).
Proof.
  intros Hm Hk st. unfold bind. specialize (Hm st).
  destruct (m st) as [[a|e] st1]; cbn [snd] in *; [|exact Hm].
  now rewrite Hk.
Qed.

Lemma keeps_for_each {A B} (p : state -> B) (l : list A) (f : A -> M unit) :
  (forall x, keeps p (f x)) -> keeps p (for_each l f).
Proof.
  intros Hf. induction l as [|x l IH]; cbn [for_each].
  - apply keeps_ret.
  - apply keeps_bind; [apply Hf | intros _; exact IH].
Qed.

Lemma keeps_get_float {B} (p : state -> B) (g : gcmd) (name : string)
    (d : option Q) (above : bool) : keeps p (get_float g name d above).
Proof.
  intros st. unfold get_float.
  destruct (params g !! name) as [s|]; [|reflexivity].
  destruct (pyfloat s) as [v|]; [|reflexivity].
  now destruct (above && Qle_bool v 0).
Qed.

Lemma keeps_get_float_above {B} (p : state -> B) (g : gcmd) (name : string)
    (d : Q) : keeps p (get_float_above g name d).
Proof.
  apply keeps_bind; [apply keeps_get_float|].
  intros [v|]; [apply keeps_ret | apply keeps_raise].
Qed.

Lemma keeps_get_int {B} (p : state -> B) (g : gcmd) (name : string) (d : Z) :
  keeps p (get_int g name d).
Proof.
  intros st. unfold get_int.
  destruct (params g !! name) as [s|]; [|reflexivity].
  now destruct (pyint s).
Qed.

Lemma keeps_call_move {B} (p : state -> B) (pos : list Q) (spd : Q) :
  (forall l st, p (set_issued_moves l st) = p st) ->
  keeps p (call_move_with_transform pos spd).
Proof.
  intros H. unfold call_move_with_transform.
  apply keeps_bind; [apply keeps_gets|].
  intros [pr|]; [|apply keeps_raise].
  apply keeps_bind; [apply keeps_gets|].
  intros l. apply keeps_modify. intros st. apply H.
Qed.

(** Break a frame goal down along the structure of the handler. *)
Ltac keeps_tac :=
  repeat first
    [ apply keeps_ret | apply keeps_raise | apply keeps_gets
    | apply keeps_lift | apply keeps_get_int | apply keeps_get_float
    | apply keeps_get_float_above
    | apply keeps_call_move; intros ? ?; reflexivity
    | apply keeps_modify; intros ?; reflexivity
    | apply keeps_for_each; intros ?
    | apply keeps_bind; [|intros ?]
    | match goal with
      | |- keeps _ (if ?b then _ else _) => destruct b
      | |- keeps _ (match ?x with _ => _ end) => destruct x
      | |- keeps _ (let (_, _) := ?x in _) => destruct x
      end ].


(** *** [cmd_SET_GCODE_OFFSET] *)

Lemma set_offsets_id (st : state) :
  set_homing_position (homing_position st)
    (set_base_position (base_position st) st) = st.
Proof. now destruct st. Qed.

Lemma offset_value_ok (g : gcmd) (pos : nat) (a : string) (st : state)
    (h : Q) :
  offset_param_ok g a = true ->
  homing_position st !! pos = Some h ->
  offset_value g pos a st = (Ok (new_offset g a h), st).
Proof.
  intros Hok Hh.
  unfold offset_value, offset_param_ok, new_offset, get_float in *.
  unfold numeric_or_absent, float_param, homing_item in *. unfold_M.
  destruct (params g !! a) as [s|].
  - destruct (pyfloat s); [reflexivity|discriminate].
  - destruct (params g !! (a +:+ "_ADJUST")) as [s|]; [|reflexivity].
    destruct (pyfloat s); [|discriminate].
    cbn. now rewrite (getitem_Some _ _ _ Hh).
Qed.

Lemma offset_axis_ok (g : gcmd) (md : list Q) (pos : nat) (a : string)
    (st : state) (h b m0 : Q) :
  offset_param_ok g a = true ->
  homing_position st !! pos = Some h ->
  base_position st !! pos = Some b ->
  md !! pos = Some m0 ->
  let o := new_offset g a h in
  offset_axis g md (pos, a) st =
    (Ok (<[pos := match o with Some x => (x - h)%Q | None => m0 end]> md),
     set_homing_position
       (<[pos := match o with Some x => x | None => h end]>
          (homing_position st))
       (set_base_position
          (<[pos := match o with Some x => (b + (x - h))%Q | None => b end]>
             (base_position st)) st)).
Proof.
  intros Hok Hh Hb Hm o. unfold offset_axis.
  rewrite (bind_ok _ _ _ _ _ (offset_value_ok g pos a st h Hok Hh)).
  fold o. destruct o as [x|].
  - unfold_M. cbn.
    rewrite (getitem_Some _ _ _ Hh), (getitem_Some _ _ _ Hb).
    rewrite !setitem_lt by (eapply lookup_lt_Some; eassumption).
    unfold modify. cbn.
    rewrite setitem_lt by (eapply lookup_lt_Some; eassumption).
    reflexivity.
  - rewrite !list_insert_id by assumption.
    now rewrite set_offsets_id.
Qed.

(** The loop of [cmd_SET_GCODE_OFFSET] on named components. *)
Lemma offsets_loop_run (g : gcmd) (st : state)
    (b0 b1 b2 b3 h0 h1 h2 h3 : Q) :
  base_position st = [b0; b1; b2; b3] ->
  homing_position st = [h0; h1; h2; h3] ->
  forallb (offset_param_ok g) ["X"; "Y"; "Z"; "E"] = true ->
  let ox := new_offset g "X" h0 in
  let oy := new_offset g "Y" h1 in
  let oz := new_offset g "Z" h2 in
  let oe := new_offset g "E" h3 in
  fold_M (offset_axis g) [0; 0; 0; 0]%Q (enumerate ["X"; "Y"; "Z"; "E"]) st =
    (Ok [match ox with Some x => x - h0 | None => 0 end;
         match oy with Some x => x - h1 | None => 0 end;
         match oz with Some x => x - h2 | None => 0 end;
         match oe with Some x => x - h3 | None => 0 end]%Q,
     set_homing_position
       [match ox with Some x => x | None => h0 end;
        match oy with Some x => x | None => h1 end;
        match oz with Some x => x | None => h2 end;
        match oe with Some x => x | None => h3 end]
       (set_base_position
          [match ox with Some x => b0 + (x - h0) | None => b0 end;
           match oy with Some x => b1 + (x - h1) | None => b1 end;
           match oz with Some x => b2 + (x - h2) | None => b2 end;
           match oe with Some x => b3 + (x - h3) | None => b3 end]%Q st)).
Proof.
  intros Hb Hh Hok ox oy oz oe. cbn [forallb] in Hok.
  apply andb_prop in Hok as [HX Hok].
  apply andb_prop in Hok as [HY Hok].
  apply andb_prop in Hok as [HZ Hok].
  apply andb_prop in Hok as [HE _].
  cbn [enumerate enumerate_from fold_M].
  pose proof (offset_axis_ok g [0; 0; 0; 0]%Q 0 "X" st h0 b0 0 HX) as E0.
  rewrite Hh, Hb in E0. specialize (E0 eq_refl eq_refl eq_refl).
  cbv zeta in E0. fold ox in E0. cbn [insert list_insert] in E0.
  rewrite (bind_ok _ _ _ _ _ E0). clear E0. cbv beta.
  match goal with |- context [bind (offset_axis g ?md (1%nat, "Y")) _ ?s] =>
    pose proof (offset_axis_ok g md 1 "Y" s h1 b1 0 HY
                  eq_refl eq_refl eq_refl) as E1 end.
  cbv zeta in E1. fold oy in E1.
  cbn [insert list_insert homing_position base_position
       set_homing_position set_base_position] in E1.
  rewrite (bind_ok _ _ _ _ _ E1). clear E1. cbv beta.
  match goal with |- context [bind (offset_axis g ?md (2%nat, "Z")) _ ?s] =>
    pose proof (offset_axis_ok g md 2 "Z" s h2 b2 0 HZ
                  eq_refl eq_refl eq_refl) as E2 end.
  cbv zeta in E2. fold oz in E2.
  cbn [insert list_insert homing_position base_position
       set_homing_position set_base_position] in E2.
  rewrite (bind_ok _ _ _ _ _ E2). clear E2. cbv beta.
  match goal with |- context [bind (offset_axis g ?md (3%nat, "E")) _ ?s] =>
    pose proof (offset_axis_ok g md 3 "E" s h3 b3 0 HE
                  eq_refl eq_refl eq_refl) as E3 end.
  cbv zeta in E3. fold oe in E3.
  cbn [insert list_insert homing_position base_position
       set_homing_position set_base_position] in E3.
  rewrite (bind_ok _ _ _ _ _ E3). reflexivity.
Qed.

Lemma get_int_no_move (g : gcmd) (st : state) :
  no_move g = true -> get_int g "MOVE" 0 st = (Ok 0%Z, st).
Proof.
  unfold no_move, get_int.
  destruct (params g !! "MOVE") as [s|]; [|reflexivity].
  destruct (pyint s) as [[| |]|]; try discriminate. reflexivity.
Qed.

(** C3 (as the code has it). A set-offset without the MOVE flag, its
    parameters being numeric, succeeds and leaves [last_position] alone; an
    axis given an explicit value gets that value as [homing_position], and
    on every axis [_get_gcode_position()] goes down by the change of
    [homing_position] (divided by [extrude_factor] on E).  The g-code
    position is therefore kept only on the axes whose offset does not
    change. *)
Theorem C3_offset_without_move_shifts_gcode_position (g : gcmd) (st : state) :
  wf st ->
  forallb (offset_param_ok g) ["X"; "Y"; "Z"; "E"] = true ->
  no_move g = true ->
  exists st' before after,
    cmd_SET_GCODE_OFFSET g st = (Ok tt, st') /\
    last_position st' = last_position st /\
    _get_gcode_position st = (Ok before, st) /\
    _get_gcode_position st' = (Ok after, st') /\
    (forall i a v,
       (i, a) ∈ enumerate ["X"; "Y"; "Z"; "E"] ->
       float_param g a = Some v ->
       homing_position st' !! i = Some v) /\
    (forall i a h h' p p',
       (i, a) ∈ enumerate ["X"; "Y"; "Z"; "E"] ->
       homing_position st !! i = Some h ->
       homing_position st' !! i = Some h' ->
       before !! i = Some p ->
       after !! i = Some p' ->
       (p' == p - (h' - h) /
                 (if (i =? 3)%nat then extrude_factor st else 1))%Q).
Proof.
  intros Hwf Hok Hmv. name_positions st Hwf.
  pose proof (offsets_loop_run g st _ _ _ _ _ _ _ _ Hbase Hhoming Hok)
    as Hloop.
  cbv zeta in Hloop.
  eexists _, _, _. split.
  { unfold cmd_SET_GCODE_OFFSET.
    rewrite (bind_ok _ _ _ _ _ Hloop). cbv beta.
    rewrite (bind_ok _ _ _ _ _ (get_int_no_move g _ Hmv)). reflexivity. }
  split; [reflexivity|].
  split; [exact (_get_gcode_position_run st _ _ _ _ _ _ _ _
                   Hlast Hbase Hef)|].
  split; [apply _get_gcode_position_run;
            [exact Hlast | reflexivity | exact Hef]|].
  cbn [homing_position set_homing_position extrude_factor
       set_base_position].
  rewrite Hhoming. split.
  - intros i a v Hin Hf.
    cases_enum Hin; cbn [lookup list_lookup]; unfold new_offset;
      rewrite Hf; reflexivity.
  - intros i a h h' p p' Hin H1 H2 H3 H4.
    cases_enum Hin; cbn [lookup list_lookup] in H1, H2, H3, H4;
      injection H1 as <-; injection H2 as <-;
      injection H3 as <-; injection H4 as <-; cbn [Nat.eqb];
      match goal with |- context [new_offset g ?a ?h] =>
        destruct (new_offset g a h)
      end; field; lra.
Qed.

(** The part of [cmd_SET_GCODE_OFFSET] after the loop moves the toolhead
    at most: it leaves the offsets alone. *)
Lemma offset_tail_keeps (g : gcmd) (st st1 : state) (md : list Q) :
  fold_M (offset_axis g) [0; 0; 0; 0]%Q (enumerate ["X"; "Y"; "Z"; "E"]) st
    = (Ok md, st1) ->
  homing_position (snd (cmd_SET_GCODE_OFFSET g st)) = homing_position st1.
Proof.
  intros Hloop. unfold cmd_SET_GCODE_OFFSET.
  rewrite (bind_ok _ _ _ _ _ Hloop). cbv beta.
  match goal with |- homing_position (snd (?m st1)) = _ =>
    enough (H : keeps homing_position m) by apply H
  end.
  unfold add_delta, last_item, set_last_item. keeps_tac.
Qed.

Lemma get_float_without_adjust (g : gcmd) (a name : string) (d : option Q)
    (above : bool) :
  name <> a +:+ "_ADJUST" ->
  get_float (without_adjust g a) name d above = get_float g name d above.
Proof.
  intros Hne. unfold get_float, without_adjust, unable_to_parse,
    must_be_above. cbn [params commandline].
  now rewrite lookup_delete_ne.
Qed.

Lemma get_int_without_adjust (g : gcmd) (a name : string) (d : Z) :
  name <> a +:+ "_ADJUST" ->
  get_int (without_adjust g a) name d = get_int g name d.
Proof.
  intros Hne. unfold get_int, without_adjust, unable_to_parse.
  cbn [params commandline]. now rewrite lookup_delete_ne.
Qed.

Lemma offset_axis_without_adjust (g : gcmd) (a : string) (md : list Q)
    (pb : nat * string) (st : state) :
  a ∈ ["X"; "Y"; "Z"; "E"] ->
  pb ∈ enumerate ["X"; "Y"; "Z"; "E"] ->
  is_Some (params g !! a) ->
  offset_axis (without_adjust g a) md pb st = offset_axis g md pb st.
Proof.
  intros Ha Hb [s Hs]. destruct pb as [pos b].
  unfold offset_axis, offset_value, bind.
  cases_elem Ha; subst a; cases_enum Hb;
    rewrite get_float_without_adjust by discriminate;
    cbv [String.append];
    try (rewrite get_float_without_adjust by discriminate; reflexivity);
    unfold get_float; rewrite Hs; destruct (pyfloat s); reflexivity.
Qed.

Lemma fold_M_ext {A B} (f f' : B -> A -> M B) (l : list A) :
  (forall acc x st, x ∈ l -> f acc x st = f' acc x st) ->
  forall acc st, fold_M f acc l st = fold_M f' acc l st.
Proof.
  induction l as [|x l IH]; intros Hf acc st; cbn [fold_M]; [reflexivity|].
  unfold bind. rewrite Hf by apply list_elem_of_here.
  destruct (f' acc x st) as [[acc'|e] st1]; [|reflexivity].
  apply IH. intros acc0 y st0 Hy. apply Hf. now apply list_elem_of_further.
Qed.

(** C10. When an axis has an explicit value, [cmd_SET_GCODE_OFFSET] never
    looks at its [_ADJUST] parameter: the command runs exactly as if that
    parameter were not there, and (the consulted parameters being numeric)
    [homing_position[axis]] becomes the explicit value.  The [_ADJUST]
    value is used only when the explicit one is absent, and then it is
    added to the current [homing_position[axis]]. *)
Theorem C10_explicit_offset_overrides_adjust (g : gcmd) (st : state)
    (i : nat) (a : string) :
  (i, a) ∈ enumerate ["X"; "Y"; "Z"; "E"] ->
  (is_Some (params g !! a) ->
   cmd_SET_GCODE_OFFSET g st
     = cmd_SET_GCODE_OFFSET (without_adjust g a) st) /\
  (wf st ->
   forallb (offset_param_ok g) ["X"; "Y"; "Z"; "E"] = true ->
   let st' := snd (cmd_SET_GCODE_OFFSET g st) in
   (forall v, float_param g a = Some v ->
              homing_position st' !! i = Some v) /\
   (forall d h, params g !! a = None ->
                float_param g (a +:+ "_ADJUST") = Some d ->
                homing_position st !! i = Some h ->
                homing_position st' !! i = Some (d + h)%Q)).
Proof.
  intros Hin. split.
  - intros Hsome.
    assert (Ha : a ∈ ["X"; "Y"; "Z"; "E"])
      by (cases_enum Hin; set_solver).
    unfold cmd_SET_GCODE_OFFSET, bind.
    rewrite (fold_M_ext (offset_axis g) (offset_axis (without_adjust g a)))
      by (intros; symmetry; now apply offset_axis_without_adjust).
    destruct (fold_M _ _ _ st) as [[md|e] st1]; [|reflexivity].
    assert (Hmove : "MOVE" <> a +:+ "_ADJUST")
      by (cases_elem Ha; subst a; discriminate).
    assert (Hspeed : "MOVE_SPEED" <> a +:+ "_ADJUST")
      by (cases_elem Ha; subst a; discriminate).
    rewrite (get_int_without_adjust _ _ _ _ Hmove).
    unfold get_float_above, bind.
    destruct (get_int g "MOVE" 0 st1) as [[mv|e] st2]; [|reflexivity].
    destruct (negb (mv =? 0)%Z); [|reflexivity].
    unfold gets.
    now rewrite (get_float_without_adjust _ _ _ _ _ Hspeed).
  - intros Hwf Hok st'. subst st'. name_positions st Hwf.
    pose proof (offsets_loop_run g st _ _ _ _ _ _ _ _ Hbase Hhoming Hok)
      as Hloop.
    cbv zeta in Hloop. rewrite (offset_tail_keeps _ _ _ _ Hloop).
    cbn [homing_position set_homing_position]. rewrite Hhoming. split.
    + intros v Hf.
      cases_enum Hin; cbn [lookup list_lookup]; unfold new_offset;
        rewrite Hf; reflexivity.
    + intros d h Hnone Hd Hh. apply float_param_absent in Hnone.
      cases_enum Hin; cbn [lookup list_lookup] in *; injection Hh as <-;
        unfold new_offset; rewrite Hnone; cbv [String.append] in Hd |- *;
        rewrite Hd; reflexivity.
Qed.

(** *** [cmd_SAVE_GCODE_STATE] and [cmd_RESTORE_GCODE_STATE] *)

Lemma get_name (g : gcmd) (st : state) :
  get g "NAME" "default" st = (Ok (state_name g), st).
Proof. unfold get, state_name. now destruct (params g !! "NAME"). Qed.

Lemma cmd_SAVE_GCODE_STATE_run (g : gcmd) (st : state) :
  cmd_SAVE_GCODE_STATE g st =
    (Ok tt,
     set_saved_states (<[state_name g := snapshot st]> (saved_states st)) st).
Proof.
  unfold cmd_SAVE_GCODE_STATE. now rewrite (bind_ok _ _ _ _ _ (get_name g st)).
Qed.

Lemma cmd_RESTORE_GCODE_STATE_run (g : gcmd) (st : state) (sv : saved_state)
    (cur_e old_e sb : Q) :
  saved_states st !! state_name g = Some sv ->
  last_position st !! 3%nat = Some cur_e ->
  sv_last_position sv !! 3%nat = Some old_e ->
  sv_base_position sv !! 3%nat = Some sb ->
  cmd_RESTORE_GCODE_STATE g st =
    restore_move g sv
      (restored sv (<[3%nat := (sb + (cur_e - old_e))%Q]> (sv_base_position sv))
         st).
Proof.
  intros Hsv Hl Ho Hb. unfold cmd_RESTORE_GCODE_STATE.
  rewrite (bind_ok _ _ _ _ _ (get_name g st)).
  unfold_M. rewrite Hsv. cbn.
  rewrite (getitem_Some _ _ _ Hl), (getitem_Some _ _ _ Ho),
    (getitem_Some _ _ _ Hb).
  rewrite setitem_lt by (eapply lookup_lt_Some; eassumption).
  reflexivity.
Qed.

Lemma restore_move_keeps (g : gcmd) (sv : saved_state) :
  keeps (fun s => (modes_and_offsets s, saved_states s)) (restore_move g sv).
Proof. unfold restore_move. keeps_tac. Qed.


(** [restore_move] leaves [last_position] alone or replaces its first three
    entries by the saved ones. *)
Lemma restore_move_last_position (g : gcmd) (sv : saved_state) (st : state) :
  let l' := last_position (snd (restore_move g sv st)) in
  l' = last_position st \/
  l' = (take 3 (sv_last_position sv) ++ drop 3 (last_position st))%list.
Proof.
  unfold restore_move, get_int, get_float_above, get_float,
    call_move_with_transform.
  unfold_M. cbv zeta.
  destruct (params g !! "MOVE") as [s|]; [|now left].
  destruct (pyint s) as [mv|]; [|now left].
  destruct (negb (mv =? 0)%Z); [|now left].
  destruct (params g !! "MOVE_SPEED") as [s'|].
  - destruct (pyfloat s') as [v|]; [|now left].
    cbn [andb]. destruct (Qle_bool v 0); [now left|]. cbn.
    destruct (move_with_transform st); now right.
  - cbn. destruct (move_with_transform st); now right.
Qed.



(** *** The invariant and the recovery after a command error *)


Lemma wf_handle_ready (vsd : v_sd_attr) (st : state) :
  wf st -> length (executor_position st) = 4%nat ->
  wf (snd (_handle_ready vsd st)).
Proof.
  intros (Hb & Hl & Hh & Hsf & Hef) He.
  unfold _handle_ready, reset_last_position, call_position_with_transform.
  unfold_M. cbn.
  destruct (move_transform st); cbn;
    [destruct (position_with_transform st); cbn|]; repeat split; assumption.
Qed.




(** The handler of the [gcode:command_error] event: once the printer is
    ready, [last_position] is read back from the bound provider, which
    discards what a failed move had already written. *)
Lemma reset_last_position_resyncs (st : state) (p : provider) :
  is_printer_ready st = true ->
  position_with_transform st = Some p ->
  reset_last_position st =
    (Ok tt, set_last_position (executor_position st) st).
Proof.
  intros Hr Hp. unfold reset_last_position, call_position_with_transform.
  unfold_M. now rewrite Hr, Hp.
Qed.

(** *** [cmd_SET_GCODE_OFFSET] with [MOVE]: the toolhead follows the offset *)

Lemma get_int_Some (g : gcmd) (name s : string) (d v : Z) (st : state) :
  params g !! name = Some s -> pyint s = Some v ->
  get_int g name d st = (Ok v, st).
Proof. intros Hp Hv. unfold get_int. now rewrite Hp, Hv. Qed.

Lemma get_float_above_absent (g : gcmd) (name : string) (d : Q) (st : state) :
  params g !! name = None -> get_float_above g name d st = (Ok d, st).
Proof.
  intros Hp. unfold get_float_above, get_float, bind. now rewrite Hp.
Qed.

Lemma add_delta_ok (pos : nat) (d l : Q) (st : state) :
  last_position st !! pos = Some l ->
  add_delta (pos, d) st =
    (Ok tt, set_last_position (<[pos := (l + d)%Q]> (last_position st)) st).
Proof.
  intros Hl. unfold add_delta. unfold_M. cbn.
  rewrite (getitem_Some _ _ _ Hl).
  rewrite setitem_lt by (eapply lookup_lt_Some; eassumption).
  reflexivity.
Qed.

Lemma call_move_bound (pos : list Q) (spd : Q) (st : state) (p : provider) :
  move_with_transform st = Some p ->
  call_move_with_transform pos spd st =
    (Ok tt, set_issued_moves (issued_moves st ++ [(p, pos, spd)])%list st).
Proof.
  intros Hp. unfold call_move_with_transform. unfold_M. now rewrite Hp.
Qed.

(** With the MOVE flag (and the default speed) the deltas are added to
    [last_position] as well, one move is issued, and
    [_get_gcode_position()] is what it was: this is the case in which
    setting an offset keeps the g-code position. *)
Lemma SET_GCODE_OFFSET_with_move_keeps_gcode_position (g : gcmd) (st : state)
    (sm : string) (mv : Z) (p : provider) :
  wf st ->
  forallb (offset_param_ok g) ["X"; "Y"; "Z"; "E"] = true ->
  params g !! "MOVE" = Some sm -> pyint sm = Some mv -> mv <> 0%Z ->
  params g !! "MOVE_SPEED" = None ->
  move_with_transform st = Some p ->
  exists st' before after,
    cmd_SET_GCODE_OFFSET g st = (Ok tt, st') /\
    issued_moves st'
      = (issued_moves st ++ [(p, last_position st', speed st)])%list /\
    _get_gcode_position st = (Ok before, st) /\
    _get_gcode_position st' = (Ok after, st') /\
    Forall2 Qeq after before.
Proof.
  intros Hwf Hok Hsm Hmv Hne Hspd Hp. name_positions st Hwf.
  pose proof (offsets_loop_run g st _ _ _ _ _ _ _ _ Hbase Hhoming Hok)
    as Hloop.
  cbv zeta in Hloop.
  set (ox := new_offset g "X" h0) in *. set (oy := new_offset g "Y" h1) in *.
  set (oz := new_offset g "Z" h2) in *. set (oe := new_offset g "E" h3) in *.
  match type of Hloop with _ = (Ok ?md, ?s) =>
    set (s0 := s) in *;
    assert (Hrun : cmd_SET_GCODE_OFFSET g st =
      (Ok tt,
       set_issued_moves
         (issued_moves st ++
          [(p, [l0 + match ox with Some x => x - h0 | None => 0 end;
                l1 + match oy with Some x => x - h1 | None => 0 end;
                l2 + match oz with Some x => x - h2 | None => 0 end;
                l3 + match oe with Some x => x - h3 | None => 0 end]%Q,
            speed st)])%list
         (set_last_position
            [l0 + match ox with Some x => x - h0 | None => 0 end;
             l1 + match oy with Some x => x - h1 | None => 0 end;
             l2 + match oz with Some x => x - h2 | None => 0 end;
             l3 + match oe with Some x => x - h3 | None => 0 end]%Q s0)))
  end.
  { unfold cmd_SET_GCODE_OFFSET.
    rewrite (bind_ok _ _ _ _ _ Hloop). cbv beta.
    rewrite (bind_ok _ _ _ _ _ (get_int_Some g "MOVE" sm 0 mv s0 Hsm Hmv)).
    rewrite (proj2 (Z.eqb_neq mv 0) Hne). cbn [negb].
    rewrite (bind_ok (gets speed) _ s0 s0 (speed st) eq_refl).
    rewrite (bind_ok _ _ _ _ _ (get_float_above_absent g _ _ s0 Hspd)).
    cbn [enumerate enumerate_from for_each].
    erewrite bind_ok.
    2:{ erewrite bind_ok by (apply (add_delta_ok 0 _ l0); subst s0;
                             cbn [last_position set_homing_position
                                  set_base_position]; now rewrite Hlast).
        erewrite bind_ok by (apply (add_delta_ok 1 _ l1); subst s0;
                             cbn [last_position set_homing_position
                                  set_base_position set_last_position];
                             now rewrite Hlast).
        erewrite bind_ok by (apply (add_delta_ok 2 _ l2); subst s0;
                             cbn [last_position set_homing_position
                                  set_base_position set_last_position];
                             now rewrite Hlast).
        erewrite bind_ok by (apply (add_delta_ok 3 _ l3); subst s0;
                             cbn [last_position set_homing_position
                                  set_base_position set_last_position];
                             now rewrite Hlast).
        reflexivity. }
    erewrite bind_ok by reflexivity.
    subst s0.
    cbn [last_position speed set_last_position set_homing_position
         set_base_position].
    rewrite Hlast. cbn [insert list_insert].
    erewrite call_move_bound by exact Hp. reflexivity. }
  eexists _, _, _. split; [exact Hrun|].
  split; [reflexivity|].
  split; [exact (_get_gcode_position_run st _ _ _ _ _ _ _ _
                   Hlast Hbase Hef)|].
  split; [apply _get_gcode_position_run;
            [reflexivity | reflexivity | exact Hef]|].
  cbn [extrude_factor set_issued_moves set_last_position
       set_homing_position set_base_position s0].
  destruct ox, oy, oz, oe; repeat constructor; field; lra.
Qed.
(** *** [cmd_G1]: frames, the successful move, repetition *)

Lemma keeps_try {A B} (p : state -> B) (m h : M A) :
  keeps p m -> keeps p h -> keeps p (try_except_ValueError m h).
Proof.
  intros Hm Hh st. unfold try_except_ValueError. specialize (Hm st).
  destruct (m st) as [[a|e] st1]; cbn [snd] in *; [exact Hm|].
  destruct e; try exact Hm. now rewrite Hh.
Qed.

Lemma keeps_py_float {B} (p : state -> B) (s : string) : keeps p (py_float s).
Proof. unfold py_float. destruct (pyfloat s); keeps_tac. Qed.

Ltac keeps_more :=
  repeat first [ progress keeps_tac | apply keeps_try | apply keeps_py_float ].

Lemma g1_power_loss_hook_keeps {B} (p : state -> B) (g : gcmd) :
  (forall v h st, p (set_files v h st) = p st) ->
  keeps p (g1_power_loss_hook g).
Proof.
  intros Hp. unfold g1_power_loss_hook, cfg_get, modify_cfg_value.
  repeat first [ progress keeps_more
               | apply keeps_modify; intros ?; apply Hp ].
Qed.

Lemma g1_parse_and_move_keeps (g : gcmd) :
  keeps apart_from_the_move (g1_parse_and_move g).
Proof.
  unfold g1_parse_and_move, g1_try_body, g1_axis, g1_extrude, g1_feed,
    set_last_item, last_item, base_item.
  keeps_more.
Qed.

Lemma cmd_G1_keeps (g : gcmd) : keeps apart_from_the_move (cmd_G1 g).
Proof.
  unfold cmd_G1.
  apply keeps_bind; [|intros _; apply g1_parse_and_move_keeps].
  apply g1_power_loss_hook_keeps. reflexivity.
Qed.

(** X4. Whatever a move command does - return, fail on a parameter, or
    raise out of the power-loss bookkeeping - it leaves the mode flags,
    [base_position], [homing_position], both factors, the saved states, the
    ready flag and the bound providers exactly as they were: [cmd_G1] only
    ever writes [last_position], [speed], the two files and the move it
    hands over. *)
Theorem X4_G1_touches_only_position_and_speed (g : gcmd) (st : state) :
  apart_from_the_move (snd (cmd_G1 g st)) = apart_from_the_move st.
Proof. apply cmd_G1_keeps. Qed.

Lemma g1_feed_run (g : gcmd) (st : state) :
  positive_or_absent g "F" = true ->
  g1_feed g st =
    (Ok tt, match float_param g "F" with
            | Some f => set_speed (f * speed_factor st)%Q st
            | None => st
            end).
Proof.
  unfold positive_or_absent, g1_feed, float_param, py_float.
  destruct (params g !! "F") as [s|]; [|reflexivity].
  destruct (pyfloat s) as [f|]; [|discriminate].
  unfold_M. now destruct (Qle_bool f 0).
Qed.

(** After the hook, with numeric axis parameters, the [try] body has
    written the four targets and is about to look at F. *)
Lemma cmd_G1_axes_run (g : gcmd) (st : state) (l0 l1 l2 l3 b0 b1 b2 b3 : Q) :
  last_position st = [l0; l1; l2; l3] ->
  base_position st = [b0; b1; b2; b3] ->
  fst (g1_power_loss_hook g st) = Ok tt ->
  forallb (numeric_or_absent g) ["X"; "Y"; "Z"; "E"] = true ->
  exists v h,
    let s0 := set_files v h st in
    snd (g1_power_loss_hook g st) = s0 /\
    cmd_G1 g st = g1_parse_and_move g s0 /\
    g1_try_body g s0 =
      g1_feed g (set_last_position
                   [axis_value g "X" st l0 b0; axis_value g "Y" st l1 b1;
                    axis_value g "Z" st l2 b2; extrude_value g st l3 b3] s0).
Proof.
  intros Hl Hb Hhook Hnum.
  destruct (g1_power_loss_hook_frame g st) as (v & h & E).
  exists v, h. cbv zeta. split; [exact E|]. split.
  - unfold cmd_G1, bind.
    destruct (g1_power_loss_hook g st) as [r st1]. simpl in *. now subst.
  - cbn [forallb] in Hnum.
    apply andb_prop in Hnum as [HX Hnum].
    apply andb_prop in Hnum as [HY Hnum].
    apply andb_prop in Hnum as [HZ Hnum].
    apply andb_prop in Hnum as [HE _].
    pose proof (g1_try_body_run g (set_files v h st) _ _ _ _ _ _ _ _ Hl Hb)
      as Hbody.
    cbv zeta in Hbody. rewrite HX, HY, HZ, HE in Hbody. exact Hbody.
Qed.

(** The rest of [cmd_G1] after F was looked at can only hand the move
    over: a projection that ignores the issued moves is what [g1_feed]
    left. *)
Lemma g1_parse_and_move_after_body {B} (p : state -> B) (g : gcmd)
    (st st1 : state) :
  (forall l s, p (set_issued_moves l s) = p s) ->
  g1_try_body g st = g1_feed g st1 ->
  p (snd (g1_parse_and_move g st)) = p (snd (g1_feed g st1)).
Proof.
  intros Hp H. rewrite <- H.
  destruct (g1_try_body g st) as [[[]|e] st2] eqn:Hbody; cbn [snd].
  - rewrite (g1_parse_and_move_ok _ _ _ Hbody).
    apply (keeps_call_move p). exact Hp.
  - unfold g1_parse_and_move, bind, try_except_ValueError.
    rewrite Hbody. now destruct e.
Qed.

(** X1. A move whose axis parameters are absent or numeric and whose F is
    absent or positive, on a well-formed state with a bound mover (the
    power-loss bookkeeping not raising), succeeds and hands exactly one
    move to the bound provider: the new [last_position] at the new
    [speed].  The speed is [F * speed_factor] when F is given and the old
    speed otherwise; each of X, Y, Z given a value [v] is [v +
    base_position[i]] in absolute mode and [last_position[i] + v] in
    relative mode; an axis that is not named keeps its entry. *)
Theorem X1_G1_hands_over_one_move (g : gcmd) (st : state) (p : provider) :
  wf st ->
  fst (g1_power_loss_hook g st) = Ok tt ->
  forallb (numeric_or_absent g) ["X"; "Y"; "Z"; "E"] = true ->
  positive_or_absent g "F" = true ->
  move_with_transform st = Some p ->
  exists st',
    cmd_G1 g st = (Ok tt, st') /\
    issued_moves st'
      = (issued_moves st ++ [(p, last_position st', speed st')])%list /\
    speed st' = match float_param g "F" with
                | Some f => (f * speed_factor st)%Q
                | None => speed st
                end /\
    length (last_position st') = 4%nat /\
    (forall i a l b,
       (i, a) ∈ enumerate ["X"; "Y"; "Z"] ->
       last_position st !! i = Some l ->
       base_position st !! i = Some b ->
       last_position st' !! i =
         Some match float_param g a with
              | Some v => if absolute_coord st then (v + b)%Q else (l + v)%Q
              | None => l
              end).
Proof.
  intros Hwf Hhook Hnum HF Hp. name_positions st Hwf.
  destruct (cmd_G1_axes_run g st _ _ _ _ _ _ _ _ Hlast Hbase Hhook Hnum)
    as (v & h & _ & -> & Hbody).
  rewrite (g1_feed_run _ _ HF) in Hbody.
  rewrite (g1_parse_and_move_ok _ _ _ Hbody).
  destruct (float_param g "F") as [f|];
    (erewrite call_move_bound by exact Hp);
    (eexists; split; [reflexivity|]);
    read_positions; (do 3 (split; [reflexivity|]));
    intros i a l b Hin Hl Hb; rewrite Hlast in Hl; rewrite Hbase in Hb;
    cases_enum Hin; cbn [lookup list_lookup] in *;
    injection Hl as <-; injection Hb as <-; reflexivity.
Qed.

(** X2. In g-code coordinates a move does what it says: with the axis
    parameters absent or numeric (whatever F and the mover then do), an
    axis given the value [v] has the g-code position [v] afterwards when
    it is taken as absolute - X, Y, Z under [absolute_coord], E under
    [absolute_coord] and [absolute_extrude] together - and the old g-code
    position plus [v] when it is taken as relative; an axis that is not
    named keeps its g-code position. *)
Theorem X2_G1_reaches_the_gcode_target (g : gcmd) (st : state) :
  wf st ->
  fst (g1_power_loss_hook g st) = Ok tt ->
  forallb (numeric_or_absent g) ["X"; "Y"; "Z"; "E"] = true ->
  exists before after,
    let st' := snd (cmd_G1 g st) in
    _get_gcode_position st = (Ok before, st) /\
    _get_gcode_position st' = (Ok after, st') /\
    forall i a p p',
      (i, a) ∈ enumerate ["X"; "Y"; "Z"; "E"] ->
      before !! i = Some p -> after !! i = Some p' ->
      match float_param g a with
      | Some v =>
          if absolute_coord st && ((i <? 3)%nat || absolute_extrude st)
          then (p' == v)%Q else (p' == p + v)%Q
      | None => p' = p
      end.
Proof.
  intros Hwf Hhook Hnum. name_positions st Hwf.
  destruct (cmd_G1_axes_run g st _ _ _ _ _ _ _ _ Hlast Hbase Hhook Hnum)
    as (v & h & _ & Hrun & Hbody).
  pose proof (g1_parse_and_move_last_position _ _ _ Hbody) as Hl'.
  pose proof (g1_parse_and_move_keeps g (set_files v h st)) as Hk.
  rewrite <- Hrun in Hl', Hk. unfold apart_from_the_move in Hk.
  injection Hk as _ _ Hb' _ _ Hef' _ _ _ _ _ _.
  read_positions. rewrite Hbase in Hb'.
  eexists _, _. cbv zeta.
  split; [exact (_get_gcode_position_run st _ _ _ _ _ _ _ _
                   Hlast Hbase Hef)|].
  split; [apply _get_gcode_position_run;
            [exact Hl' | exact Hb' | now rewrite Hef']|].
  rewrite Hef'.
  intros i a p p' Hin Hp Hp'.
  cases_enum Hin; cbn [lookup list_lookup Nat.ltb Nat.leb orb] in *;
    injection Hp as <-; injection Hp' as <-;
    unfold axis_value, extrude_value;
    destruct (float_param g _) as [w|]; try reflexivity;
    destruct (absolute_coord st), (absolute_extrude st);
    cbn [andb negb orb]; field; lra.
Qed.

(** *** The power-loss bookkeeping of [cmd_G1] *)

Lemma names_GXYZ_Z (g : gcmd) :
  names_GXYZ g = true -> exists zs, params g !! "Z" = Some zs.
Proof.
  unfold names_GXYZ, has_key. intros H.
  destruct (params g !! "Z") as [zs|]; [eauto|].
  now rewrite andb_false_r in H.
Qed.

Lemma g1_power_loss_hook_skipped (g : gcmd) (st : state) :
  names_GXYZ g = false -> g1_power_loss_hook g st = (Ok tt, st).
Proof. unfold names_GXYZ, g1_power_loss_hook. now intros ->. Qed.

Lemma g1_power_loss_hook_not_sd (g : gcmd) (st : state) :
  v_sd st = VsdObject false -> g1_power_loss_hook g st = (Ok tt, st).
Proof.
  intros Hv. unfold g1_power_loss_hook.
  destruct (_ && _); [|reflexivity]. unfold_M. now rewrite Hv.
Qed.

(** The hook during a print from the SD card. *)
Lemma g1_power_loss_hook_sd (g : gcmd) (st : state)
    (vars : gmap string string) (w f zs : string) (z : Q) :
  names_GXYZ g = true ->
  v_sd st = VsdObject true ->
  saved_variables st = Some vars ->
  vars !! "was_interrupted" = Some w -> vars !! "last_file" = Some f ->
  params g !! "Z" = Some zs -> pyfloat zs = Some z ->
  g1_power_loss_hook g st =
    (Ok tt,
     set_files
       (Some (if negb (Qle_bool z (2 # 10)) && bool_decide (w = "False")
                 && negb (str_contains "zoffset_test.gcode" f)
              then <["was_interrupted" := "True"]> vars else vars))
       (Some (mk_plr (commandline g) zs
                (if absolute_extrude st then "M82" else "M83"))) st).
Proof.
  intros Hk Hv Hs Hw Hf Hz Hzf.
  unfold g1_power_loss_hook, names_GXYZ, cfg_get, modify_cfg_value,
    py_float in *.
  rewrite Hk, Hz. unfold_M. rewrite Hv, Hs, Hw.
  cbn [default from_option id]. rewrite Hs, Hf, Hzf.
  destruct (negb (Qle_bool z (2 # 10)) && bool_decide (w = "False")
            && negb (str_contains "zoffset_test.gcode" f)).
  - rewrite Hs. reflexivity.
  - rewrite Hs. reflexivity.
Qed.

Lemma g1_power_loss_hook_no_sd_object (g : gcmd) (st : state) :
  names_GXYZ g = true ->
  v_sd st = VsdUnset \/ v_sd st = VsdNone ->
  g1_power_loss_hook g st = (Raise AttributeError, st).
Proof.
  intros Hk Hv. unfold g1_power_loss_hook, names_GXYZ in *. rewrite Hk.
  unfold_M. now destruct Hv as [-> | ->].
Qed.

Lemma g1_power_loss_hook_no_option (g : gcmd) (st : state) :
  names_GXYZ g = true ->
  v_sd st = VsdObject true ->
  match saved_variables st with
  | Some vars => vars !! "was_interrupted" = None \/ vars !! "last_file" = None
  | None => True
  end ->
  g1_power_loss_hook g st = (Raise ConfigParserError, st).
Proof.
  intros Hk Hv Hs. unfold g1_power_loss_hook, names_GXYZ, cfg_get in *.
  rewrite Hk. unfold_M. rewrite Hv.
  destruct (saved_variables st) as [vars|] eqn:E; [|reflexivity].
  destruct (vars !! "was_interrupted"); [|reflexivity].
  destruct Hs as [Hs|Hs]; [discriminate|]. cbv beta iota.
  now rewrite E, Hs.
Qed.

Lemma g1_power_loss_hook_bad_Z (g : gcmd) (st : state)
    (vars : gmap string string) (w f zs : string) :
  names_GXYZ g = true ->
  v_sd st = VsdObject true ->
  saved_variables st = Some vars ->
  vars !! "was_interrupted" = Some w -> vars !! "last_file" = Some f ->
  params g !! "Z" = Some zs -> pyfloat zs = None ->
  g1_power_loss_hook g st = (Raise ValueError, st).
Proof.
  intros Hk Hv Hs Hw Hf Hz Hzf.
  unfold g1_power_loss_hook, names_GXYZ, cfg_get, py_float in *.
  rewrite Hk, Hz. unfold_M. rewrite Hv, Hs, Hw.
  cbn [default from_option id]. now rewrite Hs, Hf, Hzf.
Qed.

(** When the hook returns, it was skipped, or no SD print is going on, or
    it found all it reads. *)
Lemma g1_power_loss_hook_ok_inv (g : gcmd) (st : state) :
  fst (g1_power_loss_hook g st) = Ok tt ->
  names_GXYZ g = false \/
  v_sd st = VsdObject false \/
  (names_GXYZ g = true /\ v_sd st = VsdObject true /\
   exists vars w f zs z,
     saved_variables st = Some vars /\
     vars !! "was_interrupted" = Some w /\ vars !! "last_file" = Some f /\
     params g !! "Z" = Some zs /\ pyfloat zs = Some z).
Proof.
  intros Hok. destruct (names_GXYZ g) eqn:Hk; [|now left]. right.
  destruct (names_GXYZ_Z g Hk) as [zs Hz].
  destruct (v_sd st) as [| |[|]] eqn:Hv; [| | |now left].
  1,2: rewrite g1_power_loss_hook_no_sd_object in Hok by auto;
       discriminate Hok.
  right. do 2 (split; [reflexivity|]).
  destruct (saved_variables st) as [vars|] eqn:Hs.
  2:{ rewrite g1_power_loss_hook_no_option in Hok
        by (try rewrite Hs; auto). discriminate Hok. }
  destruct (vars !! "was_interrupted") as [w|] eqn:Hw.
  2:{ rewrite g1_power_loss_hook_no_option in Hok
        by (try rewrite Hs; auto). discriminate Hok. }
  destruct (vars !! "last_file") as [f|] eqn:Hf.
  2:{ rewrite g1_power_loss_hook_no_option in Hok
        by (try rewrite Hs; auto). discriminate Hok. }
  destruct (pyfloat zs) as [z|] eqn:Hzf.
  2:{ rewrite (g1_power_loss_hook_bad_Z g st vars w f zs) in Hok
        by assumption. discriminate Hok. }
  exists vars, w, f, zs, z. auto.
Qed.

(** Once the hook has returned for a command it returns for it again, as
    long as the SD-card object and the variables file are what it left. *)
Lemma g1_power_loss_hook_again (g : gcmd) (st s' : state) :
  fst (g1_power_loss_hook g st) = Ok tt ->
  v_sd s' = v_sd st ->
  saved_variables s' = saved_variables (snd (g1_power_loss_hook g st)) ->
  fst (g1_power_loss_hook g s') = Ok tt.
Proof.
  intros Hok Hv Hs.
  destruct (g1_power_loss_hook_ok_inv g st Hok)
    as [Hk | [Hn | (Hk & Hsd & vars & w & f & zs & z & Hvars & Hw & Hf & Hz
                    & Hzf)]].
  - now rewrite g1_power_loss_hook_skipped.
  - rewrite g1_power_loss_hook_not_sd; [reflexivity|congruence].
  - rewrite (g1_power_loss_hook_sd g st vars w f zs z) in Hs by assumption.
    cbn [snd saved_variables set_files] in Hs.
    destruct (negb (Qle_bool z (2 # 10)) && bool_decide (w = "False")
              && negb (str_contains "zoffset_test.gcode" f)).
    + erewrite (g1_power_loss_hook_sd g s' _ "True" f zs z);
        [reflexivity | assumption | congruence | exact Hs
        | apply lookup_insert_eq
        | now rewrite lookup_insert_ne by discriminate
        | assumption | assumption].
    + now rewrite (g1_power_loss_hook_sd g s' vars w f zs z)
        by (assumption || congruence).
Qed.

Lemma g1_parse_and_move_keeps_files (g : gcmd) :
  keeps (fun s => (saved_variables s, sovol_plr_height s))
    (g1_parse_and_move g).
Proof.
  unfold g1_parse_and_move, g1_try_body, g1_axis, g1_extrude, g1_feed,
    set_last_item, last_item, base_item.
  keeps_more.
Qed.



(** *** Repeating a move, and recovering from a failed one *)

Lemma g1_feed_speed (g : gcmd) (st : state) :
  speed (snd (g1_feed g st)) =
    match params g !! "F" with
    | Some s =>
        match pyfloat s with
        | Some f => if Qle_bool f 0 then speed st else (f * speed_factor st)%Q
        | None => speed st
        end
    | None => speed st
    end.
Proof.
  unfold g1_feed, py_float. unfold_M.
  destruct (params g !! "F") as [s|]; [|reflexivity].
  destruct (pyfloat s) as [f|]; [|reflexivity].
  now destruct (Qle_bool f 0).
Qed.

Lemma g1_feed_outcome (g : gcmd) (st st' : state) :
  fst (g1_feed g st) = fst (g1_feed g st').
Proof.
  unfold g1_feed, py_float. unfold_M.
  destruct (params g !! "F") as [s|]; [|reflexivity].
  destruct (pyfloat s) as [f|]; [|reflexivity].
  now destruct (Qle_bool f 0).
Qed.

Lemma g1_feed_keeps_mover (g : gcmd) : keeps move_with_transform (g1_feed g).
Proof. unfold g1_feed. keeps_more. Qed.

(** How [cmd_G1] ends once the axes are written: with what F says, and
    with [TypeError] when F is fine but no mover is bound. *)
Lemma g1_parse_and_move_outcome (g : gcmd) (st st1 : state) :
  g1_try_body g st = g1_feed g st1 ->
  fst (g1_parse_and_move g st) =
    match fst (g1_feed g st1) with
    | Ok _ =>
        match move_with_transform st1 with
        | Some _ => Ok tt
        | None => Raise TypeError
        end
    | Raise ValueError => Raise (unable_to_parse_move g)
    | Raise e => Raise e
    end.
Proof.
  intros H. pose proof (g1_feed_keeps_mover g st1) as Hm. rewrite <- H in *.
  destruct (g1_try_body g st) as [[[]|e] st2] eqn:Hbody; cbn [fst snd] in *.
  - rewrite (g1_parse_and_move_ok _ _ _ Hbody).
    unfold call_move_with_transform. unfold_M. rewrite Hm.
    now destruct (move_with_transform st1).
  - unfold g1_parse_and_move, bind, try_except_ValueError.
    rewrite Hbody. now destruct e.
Qed.

(** X3. In absolute mode (both flags set) a move command is idempotent on
    the tracked position: running the same command a second time, right
    after the first, ends in the same way and leaves [last_position] and
    [speed] exactly as the first run left them.  (The second run hands the
    same move over once more.) *)
Theorem X3_G1_absolute_is_idempotent (g : gcmd) (st : state) :
  wf st ->
  absolute_coord st = true -> absolute_extrude st = true ->
  fst (g1_power_loss_hook g st) = Ok tt ->
  forallb (numeric_or_absent g) ["X"; "Y"; "Z"; "E"] = true ->
  let st1 := snd (cmd_G1 g st) in
  let st2 := snd (cmd_G1 g st1) in
  fst (cmd_G1 g st1) = fst (cmd_G1 g st) /\
  last_position st2 = last_position st1 /\
  speed st2 = speed st1.
Proof.
  intros Hwf Hac Hae Hhook Hnum st1 st2. name_positions st Hwf.
  destruct (cmd_G1_axes_run g st _ _ _ _ _ _ _ _ Hlast Hbase Hhook Hnum)
    as (v & h & Hs0 & Hrun & Hbody).
  pose proof (cmd_G1_keeps g st) as Hk1. fold st1 in Hk1.
  unfold apart_from_the_move in Hk1.
  injection Hk1 as Hac1 Hae1 Hb1 _ Hsf1 Hef1 _ _ _ Hmv1 _ Hv1.
  assert (Hl1 : last_position st1 =
            [axis_value g "X" st l0 b0; axis_value g "Y" st l1 b1;
             axis_value g "Z" st l2 b2; extrude_value g st l3 b3])
    by (subst st1; rewrite Hrun;
        exact (g1_parse_and_move_last_position _ _ _ Hbody)).
  assert (Hsp1 : speed st1 = speed (snd (g1_feed g st)))
    by (subst st1; rewrite Hrun;
        rewrite (g1_parse_and_move_after_body speed _ _ _
                   (fun _ _ => eq_refl) Hbody);
        now rewrite !g1_feed_speed).
  assert (Hfiles : saved_variables st1
                   = saved_variables (snd (g1_power_loss_hook g st))).
  { pose proof (g1_parse_and_move_keeps_files g (set_files v h st)) as Hf.
    cbv beta in Hf. injection Hf as Hf _.
    subst st1. now rewrite Hrun, Hs0. }
  pose proof (g1_power_loss_hook_again g st st1 Hhook Hv1 Hfiles) as Hhook1.
  rewrite Hbase in Hb1.
  destruct (cmd_G1_axes_run g st1 _ _ _ _ _ _ _ _ Hl1 Hb1 Hhook1 Hnum)
    as (v' & h' & _ & Hrun' & Hbody').
  assert (Htargets :
            [axis_value g "X" st1 (axis_value g "X" st l0 b0) b0;
             axis_value g "Y" st1 (axis_value g "Y" st l1 b1) b1;
             axis_value g "Z" st1 (axis_value g "Z" st l2 b2) b2;
             extrude_value g st1 (extrude_value g st l3 b3) b3]
            = last_position st1).
  { rewrite Hl1. unfold axis_value, extrude_value.
    rewrite Hac1, Hae1, Hef1, Hac, Hae. cbn [negb orb].
    destruct (float_param g "X"), (float_param g "Y"), (float_param g "Z"),
      (float_param g "E"); reflexivity. }
  rewrite Htargets in Hbody'.
  split; [|split].
  - rewrite Hrun', Hrun.
    rewrite (g1_parse_and_move_outcome _ _ _ Hbody'),
      (g1_parse_and_move_outcome _ _ _ Hbody).
    read_positions. cbn [move_with_transform set_last_position set_files].
    rewrite Hmv1.
    now rewrite (g1_feed_outcome g _
                   (set_last_position
                      [axis_value g "X" st l0 b0; axis_value g "Y" st l1 b1;
                       axis_value g "Z" st l2 b2; extrude_value g st l3 b3]
                      (set_files v h st))).
  - subst st2. rewrite Hrun'.
    now rewrite (g1_parse_and_move_last_position _ _ _ Hbody').
  - subst st2. rewrite Hrun'.
    rewrite (g1_parse_and_move_after_body speed _ _ _
               (fun _ _ => eq_refl) Hbody').
    rewrite g1_feed_speed. read_positions.
    cbn [speed speed_factor set_last_position set_files].
    rewrite Hsf1, Hsp1, g1_feed_speed.
    destruct (params g !! "F") as [s|]; [|reflexivity].
    destruct (pyfloat s) as [f|]; [|reflexivity].
    now destruct (Qle_bool f 0).
Qed.

(** What the hook raises is never a command error. *)
Lemma g1_power_loss_hook_outcome (g : gcmd) (st : state) :
  fst (g1_power_loss_hook g st) = Ok tt \/
  exists e, g1_power_loss_hook g st = (Raise e, st) /\
            (e = AttributeError \/ e = ConfigParserError \/ e = ValueError).
Proof.
  destruct (names_GXYZ g) eqn:Hk;
    [|left; now rewrite g1_power_loss_hook_skipped].
  destruct (names_GXYZ_Z g Hk) as [zs Hz].
  destruct (v_sd st) as [| |[|]] eqn:Hv.
  1,2: right; exists AttributeError; split; [|auto];
       apply g1_power_loss_hook_no_sd_object; auto.
  2: left; now rewrite g1_power_loss_hook_not_sd.
  destruct (saved_variables st) as [vars|] eqn:Hs.
  2:{ right. exists ConfigParserError. split; [|auto].
      apply g1_power_loss_hook_no_option; try assumption. now rewrite Hs. }
  destruct (vars !! "was_interrupted") as [w|] eqn:Hw.
  2:{ right. exists ConfigParserError. split; [|auto].
      apply g1_power_loss_hook_no_option; try assumption.
      rewrite Hs. auto. }
  destruct (vars !! "last_file") as [f|] eqn:Hf.
  2:{ right. exists ConfigParserError. split; [|auto].
      apply g1_power_loss_hook_no_option; try assumption.
      rewrite Hs. auto. }
  destruct (pyfloat zs) as [z|] eqn:Hzf.
  - left. now rewrite (g1_power_loss_hook_sd g st vars w f zs z).
  - right. exists ValueError. split; [|auto].
    now apply (g1_power_loss_hook_bad_Z g st vars w f zs).
Qed.

(** When the [try] body raises, it has written [last_position] at most. *)
Lemma g1_try_body_raise (g : gcmd) (st st' : state) (e : exn) :
  length (last_position st) = 4%nat -> length (base_position st) = 4%nat ->
  g1_try_body g st = (Raise e, st') ->
  exists L, length L = 4%nat /\ st' = set_last_position L st.
Proof.
  intros Hl Hb.
  apply length4 in Hl as (l0 & l1 & l2 & l3 & Hl).
  apply length4 in Hb as (b0 & b1 & b2 & b3 & Hb).
  rewrite (g1_try_body_run g st _ _ _ _ _ _ _ _ Hl Hb).
  destruct (numeric_or_absent g "X"); cbn [negb].
  2:{ intros [= <- <-]. exists (last_position st).
      rewrite set_last_position_id, Hl. now split. }
  destruct (numeric_or_absent g "Y"); cbn [negb];
    [|intros [= <- <-]; eexists; split; [|reflexivity]; reflexivity].
  destruct (numeric_or_absent g "Z"); cbn [negb];
    [|intros [= <- <-]; eexists; split; [|reflexivity]; reflexivity].
  destruct (numeric_or_absent g "E"); cbn [negb];
    [|intros [= <- <-]; eexists; split; [|reflexivity]; reflexivity].
  unfold g1_feed, py_float. unfold_M.
  destruct (params g !! "F") as [s|]; [|discriminate].
  destruct (pyfloat s) as [f|];
    [|intros [= <- <-]; eexists; split; [|reflexivity]; reflexivity].
  destruct (Qle_bool f 0); [|discriminate].
  intros [= <- <-]. eexists. split; [|reflexivity]. reflexivity.
Qed.

(** A command error out of [cmd_G1] has changed [last_position] and the
    files of the bookkeeping at most. *)
Lemma cmd_G1_command_error_state (g : gcmd) (st : state) (msg : string) :
  wf st ->
  fst (cmd_G1 g st) = Raise (CommandError msg) ->
  exists v h L,
    length L = 4%nat /\
    snd (cmd_G1 g st) = set_last_position L (set_files v h st).
Proof.
  intros (Hb & Hl & _) Herr.
  destruct (g1_power_loss_hook_outcome g st) as [Hok | (e & He & Hcase)].
  2:{ unfold cmd_G1 in Herr. rewrite (bind_raise _ _ _ _ _ He) in Herr.
      cbn [fst] in Herr.
      destruct Hcase as [-> | [-> | ->]]; discriminate Herr. }
  destruct (cmd_G1_after_hook g st Hok) as (v & h & Hrun).
  rewrite Hrun in *. exists v, h.
  destruct (g1_try_body g (set_files v h st)) as [[[]|e] st2] eqn:Hbody.
  - rewrite (g1_parse_and_move_ok _ _ _ Hbody) in Herr.
    unfold call_move_with_transform in Herr. unfold_M.
    destruct (move_with_transform st2); discriminate Herr.
  - destruct (g1_try_body_raise g (set_files v h st) st2 e Hl Hb Hbody)
      as (L & HL & ->).
    exists L. split; [exact HL|].
    unfold g1_parse_and_move, bind, try_except_ValueError.
    rewrite Hbody. now destruct e.
Qed.

(** X7. Recovery from a failed move.  When [cmd_G1] fails with a command
    error - a parameter that does not parse, or a speed that is not
    positive - on a ready, well-formed object, the handler of the
    [gcode:command_error] event ([reset_last_position]) brings the object
    back to what it was before the command, but for [last_position], which
    is now the position the bound provider reports, and for the files of
    the power-loss bookkeeping: whatever the failed command had written to
    [last_position] is discarded. *)
Theorem X7_command_error_then_resync (g : gcmd) (st : state) (p : provider)
    (msg : string) :
  wf st ->
  is_printer_ready st = true ->
  position_with_transform st = Some p ->
  fst (cmd_G1 g st) = Raise (CommandError msg) ->
  exists v h,
    reset_last_position (snd (cmd_G1 g st))
      = (Ok tt, set_last_position (executor_position st) (set_files v h st)).
Proof.
  intros Hwf Hr Hp Herr.
  destruct (cmd_G1_command_error_state g st msg Hwf Herr)
    as (v & h & L & _ & ->).
  exists v, h.
  now rewrite (reset_last_position_resyncs _ p) by assumption.
Qed.

(** *** The event handlers and [set_move_transform] *)

Lemma reset_last_position_run (st : state) :
  reset_last_position st = (Ok tt, set_last_position (resynced st) st).
Proof.
  unfold reset_last_position, call_position_with_transform, resynced.
  unfold_M. destruct (is_printer_ready st).
  - now destruct (position_with_transform st).
  - now rewrite set_last_position_id.
Qed.

Lemma resynced_length (st : state) :
  length (last_position st) = 4%nat ->
  length (executor_position st) = 4%nat ->
  length (resynced st) = 4%nat.
Proof.
  intros Hl He. unfold resynced.
  destruct (is_printer_ready st); [|exact Hl].
  now destruct (position_with_transform st).
Qed.

Lemma set_move_transform_run (t : nat) (force : bool) (st : state) :
  move_transform st = None \/ force = true ->
  set_move_transform t force st =
    (Ok (move_transform st),
     set_providers (Some t) (Some (Transform t)) (Some (Transform t)) st).
Proof.
  intros H. unfold set_move_transform. unfold_M.
  destruct H as [H | ->].
  - rewrite H. now rewrite bool_decide_false by (intros E; now apply E).
  - now rewrite andb_false_r.
Qed.

Lemma set_move_transform_refused (t t0 : nat) (st : state) :
  move_transform st = Some t0 ->
  set_move_transform t false st =
    (Raise (ConfigError "G-Code move transform already specified"), st).
Proof.
  intros H. unfold set_move_transform. unfold_M. rewrite H.
  now rewrite bool_decide_true by discriminate.
Qed.

(** X9. [set_move_transform] gives the move path to one transform at a
    time.  It succeeds when no transform is installed or when [force] is
    given: the new transform then receives both the moves and the position
    queries, nothing else of the object changes, and the result is the
    transform installed before ([None], for the toolhead, when there was
    none).  Afterwards a further call without [force] is refused with the
    config error and changes nothing, while a call with [force] replaces
    the transform and returns it. *)
Theorem X9_set_move_transform_single_owner (t t' : nat) (force : bool)
    (st : state) :
  move_transform st = None \/ force = true ->
  let st1 :=
    set_providers (Some t) (Some (Transform t)) (Some (Transform t)) st in
  set_move_transform t force st = (Ok (move_transform st), st1) /\
  set_move_transform t' false st1 =
    (Raise (ConfigError "G-Code move transform already specified"), st1) /\
  set_move_transform t' true st1 =
    (Ok (Some t),
     set_providers (Some t') (Some (Transform t')) (Some (Transform t')) st).
Proof.
  intros H st1. split; [now apply set_move_transform_run|]. split.
  - now apply (set_move_transform_refused t' t).
  - now rewrite set_move_transform_run by (now right).
Qed.

(** X8. The [klippy:ready] handler always returns; it sets the ready flag
    and [self.v_sd], and reads [last_position] back from the provider.
    With no transform installed it binds the toolhead for moves and for
    position queries; a transform installed before (through
    [set_move_transform]) keeps both bindings.  Modes, offsets, factors and
    saved states are not touched. *)
Theorem X8_ready_binds_the_toolhead_unless_transformed (vsd : v_sd_attr)
    (st : state) :
  exists st',
    _handle_ready vsd st = (Ok tt, st') /\
    is_printer_ready st' = true /\ v_sd st' = vsd /\
    modes_and_offsets st' = modes_and_offsets st /\
    saved_states st' = saved_states st /\
    match move_transform st with
    | None =>
        move_with_transform st' = Some Toolhead /\
        position_with_transform st' = Some Toolhead /\
        last_position st' = executor_position st
    | Some _ =>
        move_with_transform st' = move_with_transform st /\
        position_with_transform st' = position_with_transform st /\
        last_position st' =
          match position_with_transform st with
          | Some _ => executor_position st
          | None => [0; 0; 0; 0]%Q
          end
    end.
Proof.
  unfold _handle_ready, reset_last_position, call_position_with_transform.
  unfold_M. cbn.
  destruct (move_transform st); cbn;
    [destruct (position_with_transform st) eqn:Hq; cbn|];
    (eexists; split; [reflexivity|]); repeat split; exact Hq.
Qed.

(** X12. The [klippy:shutdown] handler clears the ready flag and nothing
    else; from then on [reset_last_position] - the handler of the
    set_position, manual_move and command_error events - returns without
    touching the object, so [last_position] is no longer read back from
    the provider. *)
Theorem X12_shutdown_disables_resync (st : state) :
  let st' := snd (_handle_shutdown st) in
  _handle_shutdown st = (Ok tt, st') /\
  st' = set_is_printer_ready false st /\
  reset_last_position st' = (Ok tt, st').
Proof.
  unfold _handle_shutdown, reset_last_position. unfold_M.
  destruct st as [[|] ? ? ? ? ? ? ? ? ? ? ? ? ? ? ? ? ?]; cbn; repeat split.
Qed.

(** X10. The [extruder:activate_extruder] handler, on a well-formed object
    whose provider reports four components, returns with [extrude_factor]
    reset to 1 and [base_position[3]] set to the freshly read
    [last_position[3]]: the g-code E position is 0 afterwards.  The X, Y, Z
    entries of [base_position] and [homing_position] are as before. *)
Theorem X10_activate_extruder_restarts_E (st : state) :
  wf st ->
  length (executor_position st) = 4%nat ->
  exists st' p e ge,
    _handle_activate_extruder st = (Ok tt, st') /\
    extrude_factor st' = 1%Q /\
    last_position st' = resynced st /\
    base_position st' = <[3%nat := e]> (base_position st) /\
    last_position st' !! 3%nat = Some e /\
    homing_position st' = homing_position st /\
    _get_gcode_position st' = (Ok p, st') /\
    p !! 3%nat = Some ge /\ (ge == 0)%Q.
Proof.
  intros Hwf He. pose proof Hwf as Hwf'. name_positions st Hwf'.
  destruct (length4 _ (resynced_length st (proj1 (proj2 Hwf)) He))
    as (r0 & r1 & r2 & r3 & Hr).
  unfold _handle_activate_extruder.
  rewrite (bind_ok _ _ _ _ _ (reset_last_position_run st)).
  unfold last_item, set_base_item. unfold_M.
  cbn [last_position base_position set_last_position set_extrude_factor].
  rewrite Hr, Hbase. cbn [getitem lookup list_lookup setitem length Nat.ltb
                          Nat.leb insert list_insert].
  eexists _, _, r3, _. split; [reflexivity|].
  read_positions. do 5 (split; [reflexivity|]).
  split; [|split].
  - apply _get_gcode_position_run; [reflexivity | reflexivity |].
    cbn. reflexivity.
  - reflexivity.
  - cbn [extrude_factor set_base_position set_extrude_factor]. field.
Qed.

(** The loop of [_handle_home_rails_end], by induction on the homed axes. *)
Lemma home_rails_loop (axes : list nat) :
  forall st,
    length (base_position st) = 4%nat ->
    length (homing_position st) = 4%nat ->
    Forall (fun a => (a < 4)%nat) axes ->
    exists B,
      for_each axes (fun axis =>
        let! h := homing_item axis in set_base_item axis h) st
        = (Ok tt, set_base_position B st) /\
      length B = 4%nat /\
      forall i, B !! i = if bool_decide (i ∈ axes)
                         then homing_position st !! i
                         else base_position st !! i.
Proof.
  induction axes as [|a axes IH]; intros st Hb Hh Hax.
  - exists (base_position st). cbn [for_each].
    rewrite set_base_position_id.
    split; [reflexivity|]. split; [exact Hb|].
    intros i. now rewrite bool_decide_false by apply not_elem_of_nil.
  - apply Forall_cons in Hax as [Ha Hax].
    destruct (lookup_lt_is_Some_2 (homing_position st) a) as [h Hha];
      [lia|].
    assert (Hstep : (let! h := homing_item a in set_base_item a h) st
              = (Ok tt, set_base_position (<[a:=h]> (base_position st)) st)).
    { unfold homing_item, set_base_item. unfold_M.
      rewrite (getitem_Some _ _ _ Hha).
      now rewrite setitem_lt by lia. }
    destruct (IH (set_base_position (<[a:=h]> (base_position st)) st))
      as (B & Hrun & HB & Hlook);
      [cbn [base_position set_base_position]; now rewrite length_insert
      | exact Hh | exact Hax |].
    exists B. cbn [for_each]. rewrite (bind_ok _ _ _ _ _ Hstep).
    split; [exact Hrun|]. split; [exact HB|].
    intros i. rewrite Hlook.
    cbn [homing_position base_position set_base_position].
    destruct (decide (i ∈ axes)) as [Hin|Hin].
    + rewrite !bool_decide_true; [reflexivity | | exact Hin].
      now apply list_elem_of_further.
    + rewrite (bool_decide_false _ Hin).
      destruct (decide (i = a)) as [->|Hne].
      * rewrite bool_decide_true by apply list_elem_of_here.
        rewrite Hha. apply list_lookup_insert_eq. lia.
      * rewrite bool_decide_false
          by (intros [?|?]%elem_of_cons; [now apply Hne | now apply Hin]).
        now apply list_lookup_insert_ne.
Qed.

(** X11. The [homing:home_rails_end] handler, on a well-formed object
    whose provider reports four components and for homed axes among the
    four, returns with [last_position] read back from the provider and
    with [base_position[axis] = homing_position[axis]] on every homed
    axis: there the g-code origin is the g-code offset again, so any G92
    origin on that axis is forgotten.  The base of the axes that were not
    homed, and [homing_position], are as before. *)
Theorem X11_home_rails_end_resets_homed_axes (axes : list nat) (st : state) :
  wf st ->
  length (executor_position st) = 4%nat ->
  Forall (fun a => (a < 4)%nat) axes ->
  exists st',
    _handle_home_rails_end axes st = (Ok tt, st') /\
    last_position st' = resynced st /\
    homing_position st' = homing_position st /\
    extrude_factor st' = extrude_factor st /\
    length (base_position st') = 4%nat /\
    forall i, base_position st' !! i =
                if bool_decide (i ∈ axes)
                then homing_position st !! i
                else base_position st !! i.
Proof.
  intros (Hb & Hl & Hh & _ & _) He Hax.
  unfold _handle_home_rails_end.
  rewrite (bind_ok _ _ _ _ _ (reset_last_position_run st)).
  destruct (home_rails_loop axes (set_last_position (resynced st) st)
              Hb Hh Hax) as (B & Hrun & HB & Hlook).
  rewrite Hrun. eexists. split; [reflexivity|].
  cbn [last_position homing_position extrude_factor base_position
       set_base_position set_last_position].
  do 3 (split; [reflexivity|]). split; [exact HB | exact Hlook].
Qed.

(** *** Saving and restoring: beyond the extrusion axis *)


(** X13. [cmd_SAVE_GCODE_STATE] always returns.  It stores the current
    modes, positions, speed and factors under the given name - "default"
    when NAME is absent - replacing what that name held; every other name
    keeps its snapshot, and nothing but [saved_states] changes. *)
Theorem X13_save_replaces_one_name (g : gcmd) (st : state) :
  exists st',
    cmd_SAVE_GCODE_STATE g st = (Ok tt, st') /\
    saved_states st' !! state_name g = Some (snapshot st) /\
    (forall n, n <> state_name g ->
               saved_states st' !! n = saved_states st !! n) /\
    (params g !! "NAME" = None -> state_name g = "default") /\
    st' = set_saved_states (saved_states st') st.
Proof.
  rewrite cmd_SAVE_GCODE_STATE_run. eexists. split; [reflexivity|].
  cbn [saved_states set_saved_states].
  split; [apply lookup_insert_eq|].
  split; [intros n Hn; now apply lookup_insert_ne|].
  split; [|reflexivity].
  intros Hn. unfold state_name. now rewrite Hn.
Qed.

(** X14. Restoring a name that was never saved fails with the command
    error "Unknown g-code state: <name>" and leaves the object exactly as
    it was; in particular every restore fails on a freshly constructed
    object. *)
Theorem X14_restore_unknown_name (g : gcmd) (st : state) :
  saved_states st !! state_name g = None ->
  cmd_RESTORE_GCODE_STATE g st = (Raise (unknown_state (state_name g)), st).
Proof.
  intros Hn. unfold cmd_RESTORE_GCODE_STATE.
  rewrite (bind_ok _ _ _ _ _ (get_name g st)). unfold_M. now rewrite Hn.
Qed.

Lemma get_float_above_run (g : gcmd) (name : string) (d : Q) (st : state) :
  positive_or_absent g name = true ->
  get_float_above g name d st = (Ok (default d (float_param g name)), st).
Proof.
  unfold positive_or_absent, get_float_above, get_float, float_param, bind.
  destruct (params g !! name) as [s|]; [|reflexivity].
  destruct (pyfloat s) as [v|]; [|discriminate].
  cbn [andb]. now destruct (Qle_bool v 0).
Qed.

Lemma restore_move_run (g : gcmd) (sv : saved_state) (st : state)
    (sm : string) (mv : Z) (p : provider) :
  params g !! "MOVE" = Some sm -> pyint sm = Some mv -> mv <> 0%Z ->
  positive_or_absent g "MOVE_SPEED" = true ->
  move_with_transform st = Some p ->
  let L := (take 3 (sv_last_position sv) ++ drop 3 (last_position st))%list in
  restore_move g sv st =
    (Ok tt,
     set_issued_moves
       (issued_moves st
        ++ [(p, L, default (speed st) (float_param g "MOVE_SPEED"))])%list
       (set_last_position L st)).
Proof.
  intros Hsm Hmv Hne Hspd Hp L. unfold restore_move.
  rewrite (bind_ok _ _ _ _ _ (get_int_Some g "MOVE" sm 0 mv st Hsm Hmv)).
  rewrite (proj2 (Z.eqb_neq mv 0) Hne). cbn [negb].
  rewrite (bind_ok (gets speed) _ st st (speed st) eq_refl).
  rewrite (bind_ok _ _ _ _ _ (get_float_above_run g _ _ st Hspd)).
  unfold_M. fold L.
  now rewrite (call_move_bound _ _ _ p) by exact Hp.
Qed.

(** The restore of a well-formed snapshot on a well-formed object, up to
    the MOVE part. *)
Lemma cmd_RESTORE_GCODE_STATE_wf_run (g : gcmd) (st s0 : state)
    (l0 l1 l2 l3 a0 a1 a2 a3 c0 c1 c2 c3 : Q) :
  saved_states st !! state_name g = Some (snapshot s0) ->
  last_position st = [l0; l1; l2; l3] ->
  last_position s0 = [a0; a1; a2; a3] ->
  base_position s0 = [c0; c1; c2; c3] ->
  cmd_RESTORE_GCODE_STATE g st =
    restore_move g (snapshot s0)
      (restored (snapshot s0) [c0; c1; c2; (c3 + (l3 - a3))%Q] st).
Proof.
  intros Hsv Hl Ha Hc.
  rewrite (cmd_RESTORE_GCODE_STATE_run g st (snapshot s0) l3 a3 c3 Hsv).
  - cbn [snapshot sv_base_position]. now rewrite Hc.
  - now rewrite Hl.
  - cbn [snapshot sv_last_position]. now rewrite Ha.
  - cbn [snapshot sv_base_position]. now rewrite Hc.
Qed.

(** X15. Restoring a snapshot taken from a well-formed state [s0], on a
    well-formed object, whatever happened in between and whatever the MOVE
    part of the command does: the mode flags, [homing_position], [speed]
    and both factors are those of [s0] again, [base_position] is that of
    [s0] on X, Y, Z, the g-code E position is that of [s0], and the
    snapshot stays in [saved_states], so that it can be restored again. *)
Theorem X15_restore_brings_back_the_saved_frame (g : gcmd) (st s0 : state) :
  wf st -> wf s0 ->
  saved_states st !! state_name g = Some (snapshot s0) ->
  exists saved after es ea,
    let st' := snd (cmd_RESTORE_GCODE_STATE g st) in
    absolute_coord st' = absolute_coord s0 /\
    absolute_extrude st' = absolute_extrude s0 /\
    homing_position st' = homing_position s0 /\
    speed st' = speed s0 /\
    speed_factor st' = speed_factor s0 /\
    extrude_factor st' = extrude_factor s0 /\
    take 3 (base_position st') = take 3 (base_position s0) /\
    saved_states st' = saved_states st /\
    _get_gcode_position s0 = (Ok saved, s0) /\
    _get_gcode_position st' = (Ok after, st') /\
    saved !! 3%nat = Some es /\ after !! 3%nat = Some ea /\ (ea == es)%Q.
Proof.
  intros Hwf Hwf0 Hsv. name_positions st Hwf.
  destruct Hwf0 as (Hc & Ha & _ & _ & Hef0).
  apply length4 in Hc as (c0 & c1 & c2 & c3 & Hc).
  apply length4 in Ha as (a0 & a1 & a2 & a3 & Ha).
  rewrite (cmd_RESTORE_GCODE_STATE_wf_run g st s0 _ _ _ _ _ _ _ _ _ _ _ _
             Hsv Hlast Ha Hc).
  match goal with |- context [restore_move g ?sv ?s] =>
    pose proof (restore_move_keeps g sv s) as Hk;
    pose proof (restore_move_last_position g sv s) as Hl';
    set (st' := snd (restore_move g sv s)) in *
  end.
  cbv beta zeta in Hk, Hl'. unfold modes_and_offsets in Hk.
  injection Hk as Hac' Hae' Hb' Hh' Hsp' Hsf' Hef' Hss'.
  cbn [absolute_coord absolute_extrude base_position homing_position speed
       speed_factor extrude_factor saved_states last_position
       restored snapshot sv_absolute_coord sv_absolute_extrude
       sv_homing_position sv_speed sv_speed_factor sv_extrude_factor
       sv_last_position
       set_base_position set_extrude_factor set_speed_factor set_speed
       set_homing_position set_absolute_extrude set_absolute_coord]
    in Hac', Hae', Hb', Hh', Hsp', Hsf', Hef', Hss', Hl'.
  rewrite Hlast, Ha in Hl'. cbn [take drop app] in Hl'.
  assert (Hlast' : exists x0 x1 x2, last_position st' = [x0; x1; x2; l3])
    by (destruct Hl' as [-> | ->]; eauto).
  destruct Hlast' as (x0 & x1 & x2 & Hlast').
  eexists _, _, _, _. cbv zeta.
  do 6 (split; [assumption|]).
  split; [now rewrite Hb', Hc|].
  split; [exact Hss'|].
  split; [exact (_get_gcode_position_run s0 _ _ _ _ _ _ _ _ Ha Hc Hef0)|].
  split; [apply _get_gcode_position_run;
            [exact Hlast' | exact Hb' | now rewrite Hef']|].
  do 2 (split; [reflexivity|]).
  rewrite Hef'. field. lra.
Qed.

(** X16. Restoring with the MOVE flag a snapshot taken from a well-formed
    state [s0] (MOVE_SPEED absent or positive, a mover bound) returns and
    hands over exactly one move: to the X, Y, Z of [s0] with the current E,
    at MOVE_SPEED or else at the restored speed.  Afterwards
    [_get_gcode_position()] is what it was in [s0], on all four axes. *)
Theorem X16_restore_with_move_returns_to_the_saved_position (g : gcmd)
    (st s0 : state) (sm : string) (mv : Z) (p : provider) :
  wf st -> wf s0 ->
  saved_states st !! state_name g = Some (snapshot s0) ->
  params g !! "MOVE" = Some sm -> pyint sm = Some mv -> mv <> 0%Z ->
  positive_or_absent g "MOVE_SPEED" = true ->
  move_with_transform st = Some p ->
  exists st' saved after,
    cmd_RESTORE_GCODE_STATE g st = (Ok tt, st') /\
    last_position st'
      = (take 3 (last_position s0) ++ drop 3 (last_position st))%list /\
    issued_moves st'
      = (issued_moves st
         ++ [(p, last_position st',
              default (speed s0) (float_param g "MOVE_SPEED"))])%list /\
    _get_gcode_position s0 = (Ok saved, s0) /\
    _get_gcode_position st' = (Ok after, st') /\
    Forall2 Qeq after saved.
Proof.
  intros Hwf Hwf0 Hsv Hsm Hmv Hne Hspd Hp. name_positions st Hwf.
  destruct Hwf0 as (Hc & Ha & _ & _ & Hef0).
  apply length4 in Hc as (c0 & c1 & c2 & c3 & Hc).
  apply length4 in Ha as (a0 & a1 & a2 & a3 & Ha).
  rewrite (cmd_RESTORE_GCODE_STATE_wf_run g st s0 _ _ _ _ _ _ _ _ _ _ _ _
             Hsv Hlast Ha Hc).
  rewrite (restore_move_run g _ _ sm mv p Hsm Hmv Hne Hspd) by exact Hp.
  cbn [absolute_coord absolute_extrude base_position homing_position speed
       speed_factor extrude_factor saved_states last_position issued_moves
       restored snapshot sv_absolute_coord sv_absolute_extrude
       sv_homing_position sv_speed sv_speed_factor sv_extrude_factor
       sv_last_position
       set_base_position set_extrude_factor set_speed_factor set_speed
       set_homing_position set_absolute_extrude set_absolute_coord].
  rewrite Hlast, Ha. cbn [take drop app].
  eexists _, _, _. split; [reflexivity|].
  cbn [last_position issued_moves set_issued_moves set_last_position].
  do 2 (split; [reflexivity|]).
  split; [exact (_get_gcode_position_run s0 _ _ _ _ _ _ _ _ Ha Hc Hef0)|].
  split; [apply _get_gcode_position_run;
            [reflexivity | reflexivity | exact Hef0]|].
  cbn [extrude_factor set_issued_moves set_last_position restored
       set_base_position set_extrude_factor].
  repeat constructor. cbn [sv_extrude_factor snapshot]. field. lra.
Qed.

(** *** The overrides without a value, and what [get_status] reports *)

Lemma cmd_M220_run (g : gcmd) (st : state) (s : Q) :
  (0 < speed_factor st)%Q ->
  get_float_above g "S" 100 st = (Ok s, st) ->
  cmd_M220 g st =
    (Ok tt,
     set_speed_factor (s / (60 * 100))
       (set_speed (speed st / speed_factor st * (s / (60 * 100))) st)).
Proof.
  intros Hsf Hs. unfold cmd_M220.
  rewrite (bind_ok _ _ _ _ _ Hs). unfold _get_gcode_speed. unfold_M.
  now rewrite (truediv_pos _ _ Hsf).
Qed.

Lemma cmd_M221_run (g : gcmd) (st : state) (s l0 l1 l2 l3 b0 b1 b2 b3 : Q) :
  last_position st = [l0; l1; l2; l3] ->
  base_position st = [b0; b1; b2; b3] ->
  (0 < extrude_factor st)%Q ->
  get_float_above g "S" 100 st = (Ok s, st) ->
  cmd_M221 g st =
    (Ok tt,
     set_extrude_factor (s / 100)
       (set_base_position
          [b0; b1; b2; (l3 - (l3 - b3) / extrude_factor st * (s / 100))%Q]
          st)).
Proof.
  intros Hl Hb Hef Hs. unfold cmd_M221.
  rewrite (bind_ok _ _ _ _ _ Hs).
  unfold last_item, base_item, set_base_item. unfold_M.
  cbn -[Qplus Qminus Qmult Qdiv truediv].
  rewrite Hl, Hb. cbn -[Qplus Qminus Qmult Qdiv truediv].
  rewrite (truediv_pos _ _ Hef). reflexivity.
Qed.

(** X17. Without an S parameter both overrides go back to 100 percent:
    [cmd_M220] sets [speed_factor] to [100 / (60 * 100)], that is 1/60, and
    keeps the g-code feedrate [_get_gcode_speed()]; [cmd_M221] sets
    [extrude_factor] to [100 / 100], that is 1, and keeps
    [_get_gcode_position()] on all four axes. *)
Theorem X17_override_without_S_is_100_percent (g : gcmd) (st : state) :
  wf st ->
  params g !! "S" = None ->
  (exists st' before after,
     cmd_M220 g st = (Ok tt, st') /\
     speed_factor st' = (100 / (60 * 100))%Q /\
     (speed_factor st' == 1 / 60)%Q /\
     _get_gcode_speed st = (Ok before, st) /\
     _get_gcode_speed st' = (Ok after, st') /\
     (after == before)%Q) /\
  (exists st' before after,
     cmd_M221 g st = (Ok tt, st') /\
     extrude_factor st' = (100 / 100)%Q /\
     (extrude_factor st' == 1)%Q /\
     last_position st' = last_position st /\
     _get_gcode_position st = (Ok before, st) /\
     _get_gcode_position st' = (Ok after, st') /\
     Forall2 Qeq after before).
Proof.
  intros Hwf HS. name_positions st Hwf.
  pose proof (get_float_above_absent g "S" 100 st HS) as Hs.
  split.
  - rewrite (cmd_M220_run g st 100 Hsf Hs).
    eexists _, _, _. split; [reflexivity|].
    cbn [speed speed_factor set_speed_factor set_speed].
    split; [reflexivity|]. split; [reflexivity|].
    unfold _get_gcode_speed. unfold_M.
    cbn [speed speed_factor set_speed_factor set_speed].
    rewrite (truediv_pos _ _ Hsf).
    rewrite truediv_pos by reflexivity.
    do 2 (split; [reflexivity|]). field. lra.
  - rewrite (cmd_M221_run g st 100 _ _ _ _ _ _ _ _ Hlast Hbase Hef Hs).
    eexists _, _, _. split; [reflexivity|].
    cbn [extrude_factor last_position set_extrude_factor set_base_position].
    do 3 (split; [reflexivity|]).
    split; [exact (_get_gcode_position_run st _ _ _ _ _ _ _ _
                     Hlast Hbase Hef)|].
    split; [apply _get_gcode_position_run;
              [exact Hlast | reflexivity | reflexivity]|].
    cbn [extrude_factor set_extrude_factor].
    repeat constructor. field. lra.
Qed.



(** X19. The queries only read: [_get_gcode_position],
    [_get_gcode_speed], [_get_gcode_speed_override] and [get_status] hand
    the object back exactly as they found it, whether they return or
    raise (as they do on a zero factor or on a list that is too short). *)
Theorem X19_queries_only_read (st : state) :
  snd (_get_gcode_position st) = st /\
  snd (_get_gcode_speed st) = st /\
  snd (_get_gcode_speed_override st) = st /\
  snd (get_status st) = st.
Proof.
  assert (H1 : keeps (fun s => s) _get_gcode_position)
    by (unfold _get_gcode_position; keeps_tac).
  assert (H2 : keeps (fun s => s) _get_gcode_speed)
    by (unfold _get_gcode_speed; keeps_tac).
  assert (H3 : keeps (fun s => s) _get_gcode_speed_override)
    by (unfold _get_gcode_speed_override; keeps_tac).
  split; [apply H1|]. split; [apply H2|]. split; [apply H3|].
  revert st. change (keeps (fun s : state => s) get_status).
  unfold get_status.
  repeat first [ exact H1 | exact H2 | exact H3
               | apply keeps_bind; [|intros ?]
               | apply keeps_gets | apply keeps_lift | apply keeps_ret ].
Qed.

(** *** [cmd_G92] in g-code coordinates, and on a value that does not parse *)

(** X20. After a [G92] with numeric parameters on a well-formed object,
    every axis that was given a value [v] has the g-code position [v] (on
    E as well, where the value is scaled by [extrude_factor] and scaled
    back by the query); while some axis has a value, the axes without one
    keep their g-code position. *)
Theorem X20_G92_sets_the_gcode_position (g : gcmd) (st : state) :
  wf st ->
  forallb (numeric_or_absent g) ["X"; "Y"; "Z"; "E"] = true ->
  exists st' before after,
    cmd_G92 g st = (Ok tt, st') /\
    _get_gcode_position st = (Ok before, st) /\
    _get_gcode_position st' = (Ok after, st') /\
    forall i a p p',
      (i, a) ∈ enumerate ["X"; "Y"; "Z"; "E"] ->
      before !! i = Some p -> after !! i = Some p' ->
      match float_param g a with
      | Some v => (p' == v)%Q
      | None =>
          (exists b, b ∈ ["X"; "Y"; "Z"; "E"] /\ is_Some (float_param g b)) ->
          p' = p
      end.
Proof.
  intros Hwf Hnum. name_positions st Hwf.
  rewrite (cmd_G92_run g st _ _ _ _ _ _ _ _ Hlast Hbase Hnum).
  destruct (float_param g "X") as [vx|] eqn:HX,
           (float_param g "Y") as [vy|] eqn:HY,
           (float_param g "Z") as [vz|] eqn:HZ,
           (float_param g "E") as [ve|] eqn:HE;
    (eexists _, _, _; split; [reflexivity|]);
    (split; [exact (_get_gcode_position_run st _ _ _ _ _ _ _ _
                      Hlast Hbase Hef)|]);
    (split; [apply _get_gcode_position_run;
               [exact Hlast | reflexivity | exact Hef]|]);
    cbn [extrude_factor set_base_position];
    intros i a p p' Hin Hp Hp';
    cases_enum Hin; cbn [lookup list_lookup] in Hp, Hp';
    injection Hp as <-; injection Hp' as <-;
    rewrite ?HX, ?HY, ?HZ, ?HE;
    try (field; lra); try (intros _; reflexivity).
  all: intros (b & Hb & [w Hw]); cases_elem Hb; subst b; congruence.
Qed.

Lemma get_float_bad (g : gcmd) (a : string) (d : option Q) (st : state) :
  numeric_or_absent g a = false ->
  exists s, params g !! a = Some s /\ pyfloat s = None /\
            get_float g a d false st = (Raise (unable_to_parse g s), st).
Proof.
  unfold numeric_or_absent, get_float.
  destruct (params g !! a) as [s|]; [|discriminate].
  destruct (pyfloat s) eqn:E; [discriminate|]. intros _. now exists s.
Qed.

(** X21. [cmd_G92] reads all four parameters before it writes anything: a
    present X, Y, Z or E value that does not parse makes the command fail
    with the command error of [get_float] and leaves the object exactly
    as it was - also when axes in front of it had proper values. *)
Theorem X21_G92_fails_before_writing (g : gcmd) (st : state) :
  forallb (numeric_or_absent g) ["X"; "Y"; "Z"; "E"] = false ->
  exists a s,
    a ∈ ["X"; "Y"; "Z"; "E"] /\
    params g !! a = Some s /\ pyfloat s = None /\
    cmd_G92 g st = (Raise (unable_to_parse g s), st).
Proof.
  clear pyint. intros Hbad. unfold cmd_G92. cbn [map_M].
  destruct (numeric_or_absent g "X") eqn:HX.
  2:{ destruct (get_float_bad g "X" None st HX) as (s & Hs & Hf & Hrun).
      exists "X", s. repeat split; [set_solver | assumption..|].
      now rewrite (bind_raise _ _ _ _ _ (bind_raise _ _ _ _ _ Hrun)). }
  destruct (numeric_or_absent g "Y") eqn:HY.
  2:{ destruct (get_float_bad g "Y" None st HY) as (s & Hs & Hf & Hrun).
      exists "Y", s. repeat split; [set_solver | assumption..|].
      apply bind_raise. rewrite (bind_ok _ _ _ _ _ (get_float_ok g "X" st HX)).
      now rewrite (bind_raise _ _ _ _ _ (bind_raise _ _ _ _ _ Hrun)). }
  destruct (numeric_or_absent g "Z") eqn:HZ.
  2:{ destruct (get_float_bad g "Z" None st HZ) as (s & Hs & Hf & Hrun).
      exists "Z", s. repeat split; [set_solver | assumption..|].
      apply bind_raise. rewrite (bind_ok _ _ _ _ _ (get_float_ok g "X" st HX)).
      apply bind_raise. rewrite (bind_ok _ _ _ _ _ (get_float_ok g "Y" st HY)).
      now rewrite (bind_raise _ _ _ _ _ (bind_raise _ _ _ _ _ Hrun)). }
  destruct (numeric_or_absent g "E") eqn:HE.
  { know_params Hbad. discriminate Hbad. }
  destruct (get_float_bad g "E" None st HE) as (s & Hs & Hf & Hrun).
  exists "E", s. repeat split; [set_solver | assumption..|].
  apply bind_raise. rewrite (bind_ok _ _ _ _ _ (get_float_ok g "X" st HX)).
  apply bind_raise. rewrite (bind_ok _ _ _ _ _ (get_float_ok g "Y" st HY)).
  apply bind_raise. rewrite (bind_ok _ _ _ _ _ (get_float_ok g "Z" st HZ)).
  now rewrite (bind_raise _ _ _ _ _ (bind_raise _ _ _ _ _ Hrun)).
Qed.

(** *** [cmd_SET_GCODE_OFFSET]: the MOVE part *)

(** [cmd_SET_GCODE_OFFSET] with the MOVE flag, on named components. *)
Lemma cmd_SET_GCODE_OFFSET_move_run (g : gcmd) (st : state)
    (sm : string) (mv : Z) (p : provider)
    (l0 l1 l2 l3 b0 b1 b2 b3 h0 h1 h2 h3 : Q) :
  last_position st = [l0; l1; l2; l3] ->
  base_position st = [b0; b1; b2; b3] ->
  homing_position st = [h0; h1; h2; h3] ->
  forallb (offset_param_ok g) ["X"; "Y"; "Z"; "E"] = true ->
  params g !! "MOVE" = Some sm -> pyint sm = Some mv -> mv <> 0%Z ->
  positive_or_absent g "MOVE_SPEED" = true ->
  move_with_transform st = Some p ->
  let ox := new_offset g "X" h0 in
  let oy := new_offset g "Y" h1 in
  let oz := new_offset g "Z" h2 in
  let oe := new_offset g "E" h3 in
  let L := [l0 + match ox with Some x => x - h0 | None => 0 end;
            l1 + match oy with Some x => x - h1 | None => 0 end;
            l2 + match oz with Some x => x - h2 | None => 0 end;
            l3 + match oe with Some x => x - h3 | None => 0 end]%Q in
  cmd_SET_GCODE_OFFSET g st =
    (Ok tt,
     set_issued_moves
       (issued_moves st
        ++ [(p, L, default (speed st) (float_param g "MOVE_SPEED"))])%list
       (set_last_position L
          (set_homing_position
             [match ox with Some x => x | None => h0 end;
              match oy with Some x => x | None => h1 end;
              match oz with Some x => x | None => h2 end;
              match oe with Some x => x | None => h3 end]
             (set_base_position
                [match ox with Some x => b0 + (x - h0) | None => b0 end;
                 match oy with Some x => b1 + (x - h1) | None => b1 end;
                 match oz with Some x => b2 + (x - h2) | None => b2 end;
                 match oe with Some x => b3 + (x - h3) | None => b3 end]%Q
                st)))).
Proof.
  intros Hlast Hbase Hhoming Hok Hsm Hmv Hne Hspd Hp ox oy oz oe L.
  pose proof (offsets_loop_run g st _ _ _ _ _ _ _ _ Hbase Hhoming Hok)
    as Hloop.
  cbv zeta in Hloop. fold ox oy oz oe in Hloop.
  match type of Hloop with _ = (Ok ?md, ?s) => set (s0 := s) in * end.
  unfold cmd_SET_GCODE_OFFSET.
  rewrite (bind_ok _ _ _ _ _ Hloop). cbv beta.
  rewrite (bind_ok _ _ _ _ _ (get_int_Some g "MOVE" sm 0 mv s0 Hsm Hmv)).
  rewrite (proj2 (Z.eqb_neq mv 0) Hne). cbn [negb].
  rewrite (bind_ok (gets speed) _ s0 s0 (speed st) eq_refl).
  rewrite (bind_ok _ _ _ _ _ (get_float_above_run g _ _ s0 Hspd)).
  cbn [enumerate enumerate_from for_each].
  erewrite bind_ok.
  2:{ erewrite bind_ok by (apply (add_delta_ok 0 _ l0); subst s0;
                           cbn [last_position set_homing_position
                                set_base_position]; now rewrite Hlast).
      erewrite bind_ok by (apply (add_delta_ok 1 _ l1); subst s0;
                           cbn [last_position set_homing_position
                                set_base_position set_last_position];
                           now rewrite Hlast).
      erewrite bind_ok by (apply (add_delta_ok 2 _ l2); subst s0;
                           cbn [last_position set_homing_position
                                set_base_position set_last_position];
                           now rewrite Hlast).
      erewrite bind_ok by (apply (add_delta_ok 3 _ l3); subst s0;
                           cbn [last_position set_homing_position
                                set_base_position set_last_position];
                           now rewrite Hlast).
      reflexivity. }
  erewrite bind_ok by reflexivity.
  subst s0.
  cbn [last_position speed set_last_position set_homing_position
       set_base_position].
  rewrite Hlast. cbn [insert list_insert].
  erewrite call_move_bound by exact Hp. reflexivity.
Qed.

(** X22. [cmd_SET_GCODE_OFFSET] with the MOVE flag (numeric offsets,
    MOVE_SPEED absent or positive, a mover bound): the change of each
    offset is added to [last_position] as well as to [base_position], so
    [_get_gcode_position()] is what it was; exactly one move is handed
    over, to the shifted [last_position], at MOVE_SPEED or else at the
    current speed; and [self.speed] itself is not changed by MOVE_SPEED. *)
Theorem X22_offset_with_move_keeps_the_gcode_position (g : gcmd) (st : state)
    (sm : string) (mv : Z) (p : provider) :
  wf st ->
  forallb (offset_param_ok g) ["X"; "Y"; "Z"; "E"] = true ->
  params g !! "MOVE" = Some sm -> pyint sm = Some mv -> mv <> 0%Z ->
  positive_or_absent g "MOVE_SPEED" = true ->
  move_with_transform st = Some p ->
  exists st' before after,
    cmd_SET_GCODE_OFFSET g st = (Ok tt, st') /\
    issued_moves st'
      = (issued_moves st
         ++ [(p, last_position st',
              default (speed st) (float_param g "MOVE_SPEED"))])%list /\
    speed st' = speed st /\
    _get_gcode_position st = (Ok before, st) /\
    _get_gcode_position st' = (Ok after, st') /\
    Forall2 Qeq after before /\
    (forall i l h,
       (i < 4)%nat ->
       last_position st !! i = Some l -> homing_position st !! i = Some h ->
       exists l' h',
         last_position st' !! i = Some l' /\
         homing_position st' !! i = Some h' /\
         (l' - l == h' - h)%Q).
Proof.
  intros Hwf Hok Hsm Hmv Hne Hspd Hp. name_positions st Hwf.
  rewrite (cmd_SET_GCODE_OFFSET_move_run g st sm mv p _ _ _ _ _ _ _ _ _ _ _ _
             Hlast Hbase Hhoming Hok Hsm Hmv Hne Hspd Hp).
  cbv zeta.
  set (ox := new_offset g "X" h0). set (oy := new_offset g "Y" h1).
  set (oz := new_offset g "Z" h2). set (oe := new_offset g "E" h3).
  eexists _, _, _. split; [reflexivity|].
  do 2 (split; [reflexivity|]).
  split; [exact (_get_gcode_position_run st _ _ _ _ _ _ _ _
                   Hlast Hbase Hef)|].
  split; [apply _get_gcode_position_run;
            [reflexivity | reflexivity | exact Hef]|].
  cbn [extrude_factor last_position homing_position set_issued_moves
       set_last_position set_homing_position set_base_position].
  split.
  - destruct ox, oy, oz, oe; repeat constructor; field; lra.
  - intros i l h Hi Hl Hh. rewrite Hlast in Hl. rewrite Hhoming in Hh.
    destruct i as [|[|[|[|i]]]]; [| | | |lia];
      cbn [lookup list_lookup] in *;
      injection Hl as <-; injection Hh as <-;
      eexists _, _; (do 2 (split; [reflexivity|]));
      [destruct ox | destruct oy | destruct oz | destruct oe]; ring.
Qed.

Lemma get_int_bad (g : gcmd) (name s : string) (d : Z) (st : state) :
  params g !! name = Some s -> pyint s = None ->
  get_int g name d st = (Raise (unable_to_parse g s), st).
Proof. intros Hp Hv. unfold get_int. now rewrite Hp, Hv. Qed.

(** X23. The offsets are written before MOVE is looked at: a
    [SET_GCODE_OFFSET] whose offsets are numeric but whose MOVE value is
    not an integer fails with the command error of [get_int], issues no
    move and leaves [last_position] alone - yet [homing_position] and
    [base_position] have been changed on every axis that was given an
    offset, exactly as by the same command without MOVE. *)
Theorem X23_offset_is_set_before_MOVE_is_read (g : gcmd) (st : state)
    (sm : string) :
  wf st ->
  forallb (offset_param_ok g) ["X"; "Y"; "Z"; "E"] = true ->
  params g !! "MOVE" = Some sm -> pyint sm = None ->
  exists st',
    cmd_SET_GCODE_OFFSET g st = (Raise (unable_to_parse g sm), st') /\
    last_position st' = last_position st /\
    issued_moves st' = issued_moves st /\
    forall i a h b,
      (i, a) ∈ enumerate ["X"; "Y"; "Z"; "E"] ->
      homing_position st !! i = Some h -> base_position st !! i = Some b ->
      homing_position st' !! i
        = Some match new_offset g a h with Some x => x | None => h end /\
      base_position st' !! i
        = Some match new_offset g a h with
               | Some x => (b + (x - h))%Q
               | None => b
               end.
Proof.
  intros Hwf Hok Hsm Hmv. name_positions st Hwf.
  pose proof (offsets_loop_run g st _ _ _ _ _ _ _ _ Hbase Hhoming Hok)
    as Hloop.
  cbv zeta in Hloop. unfold cmd_SET_GCODE_OFFSET.
  rewrite (bind_ok _ _ _ _ _ Hloop). cbv beta.
  rewrite (bind_raise _ _ _ _ _ (get_int_bad g "MOVE" sm 0 _ Hsm Hmv)).
  eexists. split; [reflexivity|].
  cbn [last_position issued_moves homing_position base_position
       set_homing_position set_base_position].
  do 2 (split; [reflexivity|]).
  intros i a h b Hin Hh Hb. rewrite Hhoming in Hh. rewrite Hbase in Hb.
  cases_enum Hin; cbn [lookup list_lookup] in *;
    injection Hh as <-; injection Hb as <-; split; reflexivity.
Qed.

(** *** Invariants of the reachable states *)











Lemma keeps_fold_M {A B C} (p : state -> C) (f : B -> A -> M B)
    (l : list A) :
  (forall acc x, keeps p (f acc x)) -> forall acc, keeps p (fold_M f acc l).
Proof.
  intros Hf. induction l as [|x l IH]; intros acc; cbn [fold_M].
  - apply keeps_ret.
  - apply keeps_bind; [apply Hf | intros acc'; apply IH].
Qed.

Lemma keeps_map_M {A B C} (p : state -> C) (f : A -> M B) (l : list A) :
  (forall x, keeps p (f x)) -> keeps p (map_M f l).
Proof.
  intros Hf. induction l as [|x l IH]; cbn [map_M].
  - apply keeps_ret.
  - apply keeps_bind; [apply Hf | intros y].
    apply keeps_bind; [exact IH | intros ys; apply keeps_ret].
Qed.

(** What is kept is preserved, for a property that only looks at the kept
    part. *)
Lemma keeps_preserves {A B} (p : state -> B) (I : state -> Prop) (m : M A) :
  (forall s s', p s' = p s -> I s -> I s') ->
  keeps p m -> preserves I m.
Proof. intros Hext Hk st HI. exact (Hext _ _ (Hk st) HI). Qed.


Lemma bound_ok_ext (s s' : state) :
  binding s' = binding s -> bound_ok s -> bound_ok s'.
Proof.
  unfold binding, bound_ok. intros [= -> -> -> ->]. exact id.
Qed.



















Lemma handler_keeps_binding (c : gcode_command) (g : gcmd) :
  keeps binding (handler c g).
Proof.
  destruct c; cbn [handler];
    unfold cmd_G1, g1_power_loss_hook, cfg_get, modify_cfg_value,
      g1_parse_and_move, g1_try_body, g1_axis, g1_extrude, g1_feed,
      cmd_G20, cmd_G21, cmd_M82, cmd_M83, cmd_G90, cmd_G91,
      cmd_G92, g92_axis, cmd_M220, _get_gcode_speed, cmd_M221,
      cmd_SET_GCODE_OFFSET, offset_axis, offset_value, add_delta,
      cmd_SAVE_GCODE_STATE, cmd_RESTORE_GCODE_STATE, restore_move, get,
      set_last_item, set_base_item, set_homing_item,
      last_item, base_item, homing_item;
    repeat first [ progress keeps_more
                 | apply keeps_fold_M; intros ? ?
                 | apply keeps_map_M; intros ? ].
Qed.

Lemma bound_ok_event_handler (e : event) :
  preserves bound_ok (event_handler e).
Proof.
  destruct e; cbn [event_handler];
    try solve [ apply (keeps_preserves binding); [apply bound_ok_ext|];
                unfold reset_last_position, call_position_with_transform,
                  _handle_activate_extruder, _handle_home_rails_end,
                  set_base_item, last_item, homing_item;
                keeps_tac ].
  - intros st. unfold _handle_ready, reset_last_position,
      call_position_with_transform, bound_ok. unfold_M. cbn.
    destruct (move_transform st) eqn:Hmt; cbn;
      [destruct (position_with_transform st) eqn:Hq; cbn;
       rewrite Hmt, Hq; exact id|].
    intros _. now right.
  - intros st HI. unfold _handle_shutdown. unfold_M.
    destruct (is_printer_ready st) eqn:Hr; cbn [negb snd]; [|exact HI].
    unfold bound_ok in *. cbn.
    destruct (move_transform st); [exact HI|].
    destruct HI as [(_ & _ & H) | H]; [congruence | now right].
Qed.

Lemma bound_ok_step (st st' : state) :
  step st st' -> bound_ok st -> bound_ok st'.
Proof.
  intros Hstep HI.
  destruct Hstep as [c g st|e st|t force st|pos st Hpos|v h st].
  - exact (bound_ok_ext _ _ (handler_keeps_binding c g st) HI).
  - now apply bound_ok_event_handler.
  - unfold set_move_transform, bound_ok. unfold_M.
    destruct (_ && _); cbn; [exact HI|]. now split.
  - exact HI.
  - exact HI.
Qed.

(** X25. In every reachable state the mover and the position query are
    bound to the same provider: the installed transform if there is one,
    else the toolhead - or nothing at all, and that only while the printer
    is not ready.  So on a ready object [move_with_transform] is bound: the
    [TypeError] of the constructed object cannot occur after
    [klippy:ready]. *)
Theorem X25_reachable_states_are_bound_consistently (st : state) :
  reachable st ->
  bound_ok st /\
  (is_printer_ready st = true ->
   exists p, move_with_transform st = Some p /\
             position_with_transform st = Some p).
Proof.
  intros Hr.
  assert (Hb : bound_ok st).
  { induction Hr as [e v p He|st st' _ IH Hstep].
    - left. now repeat split.
    - exact (bound_ok_step _ _ Hstep IH). }
  split; [exact Hb|]. intros Hready. unfold bound_ok in Hb.
  destruct (move_transform st) as [t|].
  - exists (Transform t). exact Hb.
  - destruct Hb as [(_ & _ & H) | H]; [congruence|].
    exists Toolhead. exact H.
Qed.

(** *** The commands never crash *)



















































End GCodeMove.

(** ** The theorems on concrete commands

    The handlers are run with [decimal_float] and [decimal_int] on the ready
    object; each lemma states the hypotheses of a theorem at that input and
    what the theorem then gives. *)

Lemma wf_ready_object : wf ready_object.
Proof. vm_compute. repeat split. Defined.

Lemma C1_witness :
  wf ready_object /\
  fst (g1_power_loss_hook decimal_float G1_X10_Yabc ready_object) = Ok tt /\
  forallb (numeric_or_absent decimal_float G1_X10_Yabc)
    ["X"; "Y"; "Z"; "E"; "F"] = false /\
  exists st',
    cmd_G1 decimal_float G1_X10_Yabc ready_object
      = (Raise (unable_to_parse_move G1_X10_Yabc), st') /\
    modes_and_offsets st' = modes_and_offsets ready_object /\
    issued_moves st' = issued_moves ready_object /\
    last_position st' !! 1%nat = last_position ready_object !! 1%nat.
Proof.
  assert (H1 : wf ready_object) by exact wf_ready_object.
  assert (H2 : fst (g1_power_loss_hook decimal_float G1_X10_Yabc ready_object)
               = Ok tt) by (vm_compute; reflexivity).
  assert (H3 : forallb (numeric_or_absent decimal_float G1_X10_Yabc)
                 ["X"; "Y"; "Z"; "E"; "F"] = false)
    by (vm_compute; reflexivity).
  do 3 (split; [assumption|]).
  destruct (C1_parse_failure_touches_only_last_position
              decimal_float G1_X10_Yabc ready_object H1 H2 H3)
    as (st' & E & Hm & _ & Hi & _ & Hl & _).
  exists st'. repeat split; try assumption.
  apply (Hl 1%nat "Y").
  - apply list_elem_of_further, list_elem_of_here.
  - right. vm_compute. reflexivity.
Defined.

(** C1 as the spec states it fails: [G1 X10 Yabc] is rejected with the
    parse error, but X has been written by then, so the object is not what
    it was before the call. *)
Lemma C1_counterexample :
  params G1_X10_Yabc !! "Y" = Some "abc" /\
  decimal_float "abc" = None /\
  last_position ready_object !! 0%nat = Some 0%Q /\
  last_position (snd (cmd_G1 decimal_float G1_X10_Yabc ready_object)) !! 0%nat
    = Some (10 + 0)%Q /\
  cmd_G1 decimal_float G1_X10_Yabc ready_object
    <> (Raise (unable_to_parse_move G1_X10_Yabc), ready_object).
Proof.
  repeat split; try (vm_compute; reflexivity).
  intros H.
  apply (f_equal (fun r => last_position (snd r) !! 0%nat)) in H.
  vm_compute in H. discriminate H.
Qed.

Lemma C2_witness :
  wf relative_extrude_object /\
  fst (g1_power_loss_hook decimal_float G1_E5 relative_extrude_object)
    = Ok tt /\
  forallb (numeric_or_absent decimal_float G1_E5) ["X"; "Y"; "Z"] = true /\
  params G1_E5 !! "E" = Some "5" /\
  decimal_float "5" = Some 5%Q /\
  last_position relative_extrude_object !! 3%nat = Some 0%Q /\
  base_position relative_extrude_object !! 3%nat = Some 0%Q /\
  absolute_coord relative_extrude_object = true /\
  absolute_extrude relative_extrude_object = false /\
  last_position (snd (cmd_G1 decimal_float G1_E5 relative_extrude_object))
    !! 3%nat
    = Some (0 + 5 * extrude_factor relative_extrude_object)%Q.
Proof.
  assert (H1 : wf relative_extrude_object) by (vm_compute; repeat split).
  assert (H2 : fst (g1_power_loss_hook decimal_float G1_E5
                      relative_extrude_object) = Ok tt)
    by (vm_compute; reflexivity).
  assert (H3 : forallb (numeric_or_absent decimal_float G1_E5)
                 ["X"; "Y"; "Z"] = true) by (vm_compute; reflexivity).
  assert (H4 : params G1_E5 !! "E" = Some "5") by (vm_compute; reflexivity).
  assert (H5 : decimal_float "5" = Some 5%Q) by (vm_compute; reflexivity).
  assert (H6 : last_position relative_extrude_object !! 3%nat = Some 0%Q)
    by (vm_compute; reflexivity).
  assert (H7 : base_position relative_extrude_object !! 3%nat = Some 0%Q)
    by (vm_compute; reflexivity).
  assert (H8 : absolute_coord relative_extrude_object = true)
    by reflexivity.
  assert (H9 : absolute_extrude relative_extrude_object = false)
    by reflexivity.
  do 9 (split; [assumption|]).
  exact (proj2 (proj2 (C2_extrude_relative_unless_both_absolute
                         decimal_float G1_E5 relative_extrude_object
                         "5" 5 0 0 H1 H2 H3 H4 H5 H6 H7)) H8 H9).
Defined.

Lemma C3_witness :
  wf ready_object /\
  forallb (offset_param_ok decimal_float SET_GCODE_OFFSET_X1)
    ["X"; "Y"; "Z"; "E"] = true /\
  no_move decimal_int SET_GCODE_OFFSET_X1 = true /\
  exists st',
    cmd_SET_GCODE_OFFSET decimal_float decimal_int SET_GCODE_OFFSET_X1
      ready_object = (Ok tt, st') /\
    last_position st' = last_position ready_object /\
    homing_position st' !! 0%nat = Some 1%Q.
Proof.
  assert (H1 : wf ready_object) by exact wf_ready_object.
  assert (H2 : forallb (offset_param_ok decimal_float SET_GCODE_OFFSET_X1)
                 ["X"; "Y"; "Z"; "E"] = true) by (vm_compute; reflexivity).
  assert (H3 : no_move decimal_int SET_GCODE_OFFSET_X1 = true)
    by (vm_compute; reflexivity).
  do 3 (split; [assumption|]).
  destruct (C3_offset_without_move_shifts_gcode_position
              decimal_float decimal_int SET_GCODE_OFFSET_X1 ready_object
              H1 H2 H3)
    as (st' & before & after & E & Hl & _ & _ & Hh & _).
  exists st'. repeat split; try assumption.
  apply (Hh 0%nat "X").
  - apply list_elem_of_here.
  - vm_compute. reflexivity.
Defined.

(** C3 as the spec states it fails: after [SET_GCODE_OFFSET X=1] without
    MOVE the g-code position is no longer what it was (X went from 0 to
    -1). *)
Lemma C3_counterexample :
  exists st' before after,
    cmd_SET_GCODE_OFFSET decimal_float decimal_int SET_GCODE_OFFSET_X1
      ready_object = (Ok tt, st') /\
    _get_gcode_position ready_object = (Ok before, ready_object) /\
    _get_gcode_position st' = (Ok after, st') /\
    ~ Forall2 Qeq after before.
Proof.
  eexists _, _, _.
  split; [vm_compute; reflexivity|].
  split; [vm_compute; reflexivity|].
  split; [vm_compute; reflexivity|].
  intros H. inversion H as [|a b la lb Hab _]; subst.
  vm_compute in Hab. discriminate Hab.
Qed.





(** C7 as the spec states it fails: on the freshly constructed object the
    move callable is [None]; invoking it raises and is not a silent
    no-op. *)
Lemma C7_counterexample :
  move_with_transform fresh_object = None /\
  fst (call_move_with_transform [0; 0; 0; 0]%Q 25 fresh_object)
    = Raise TypeError /\
  call_move_with_transform [0; 0; 0; 0]%Q 25 fresh_object
    <> (Ok tt, fresh_object).
Proof. repeat split. intros H. vm_compute in H. discriminate H. Qed.

Lemma C8_witness :
  wf ready_object /\
  forallb (numeric_or_absent decimal_float G92) ["X"; "Y"; "Z"; "E"] = true /\
  exists st' p,
    cmd_G92 decimal_float G92 ready_object = (Ok tt, st') /\
    base_position st' = last_position ready_object /\
    _get_gcode_position st' = (Ok p, st') /\
    Forall2 Qeq p [0; 0; 0; 0]%Q.
Proof.
  assert (H1 : wf ready_object) by exact wf_ready_object.
  assert (H2 : forallb (numeric_or_absent decimal_float G92)
                 ["X"; "Y"; "Z"; "E"] = true) by (vm_compute; reflexivity).
  do 2 (split; [assumption|]).
  destruct (C8_G92_sets_origin decimal_float G92 ready_object H1 H2)
    as (st' & E & _ & _ & _ & _ & Hnone).
  destruct Hnone as (Hb & p & Hp & Hz).
  { intros a Ha. revert a Ha. apply Forall_forall.
    repeat constructor; vm_compute; reflexivity. }
  exists st', p. repeat split; assumption.
Defined.


Lemma C10_witness :
  (0%nat, "X") ∈ enumerate ["X"; "Y"; "Z"; "E"] /\
  is_Some (params SET_GCODE_OFFSET_X1_ADJUST !! "X") /\
  wf ready_object /\
  forallb (offset_param_ok decimal_float SET_GCODE_OFFSET_X1_ADJUST)
    ["X"; "Y"; "Z"; "E"] = true /\
  float_param decimal_float SET_GCODE_OFFSET_X1_ADJUST "X" = Some 1%Q /\
  cmd_SET_GCODE_OFFSET decimal_float decimal_int SET_GCODE_OFFSET_X1_ADJUST
    ready_object
    = cmd_SET_GCODE_OFFSET decimal_float decimal_int
        (without_adjust SET_GCODE_OFFSET_X1_ADJUST "X") ready_object /\
  homing_position
    (snd (cmd_SET_GCODE_OFFSET decimal_float decimal_int
            SET_GCODE_OFFSET_X1_ADJUST ready_object)) !! 0%nat = Some 1%Q.
Proof.
  assert (H1 : (0%nat, "X") ∈ enumerate ["X"; "Y"; "Z"; "E"])
    by apply list_elem_of_here.
  assert (H2 : is_Some (params SET_GCODE_OFFSET_X1_ADJUST !! "X"))
    by (exists "1"; vm_compute; reflexivity).
  assert (H3 : wf ready_object) by exact wf_ready_object.
  assert (H4 : forallb (offset_param_ok decimal_float
                          SET_GCODE_OFFSET_X1_ADJUST)
                 ["X"; "Y"; "Z"; "E"] = true) by (vm_compute; reflexivity).
  assert (H5 : float_param decimal_float SET_GCODE_OFFSET_X1_ADJUST "X"
               = Some 1%Q) by (vm_compute; reflexivity).
  do 5 (split; [assumption|]).
  destruct (C10_explicit_offset_overrides_adjust decimal_float decimal_int
              SET_GCODE_OFFSET_X1_ADJUST ready_object 0 "X" H1)
    as (Hsame & Hhoming).
  split; [exact (Hsame H2)|].
  exact (proj1 (Hhoming H3 H4) 1%Q H5).
Defined.

(** The scenario of a first move followed by a redefinition of the origin:
    [G1 X10 Y5 F1200] on the ready object, then [G92]. *)
Example move_then_origin :
  let g1 := command "G1 X10 Y5 F1200"
              [("G", "1"); ("X", "10"); ("Y", "5"); ("F", "1200")] in
  let st1 := snd (cmd_G1 decimal_float g1 ready_object) in
  let st2 := snd (cmd_G92 decimal_float G92 st1) in
  fst (cmd_G1 decimal_float g1 ready_object) = Ok tt /\
  last_position st1 = [10 + 0; 5 + 0; 0; 0]%Q /\
  speed st1 = (1200 * (1 / 60))%Q /\
  issued_moves st1 = [(Toolhead, last_position st1, speed st1)] /\
  base_position st2 = last_position st1 /\
  fst (_get_gcode_position st2)
    = Ok [10 + 0 - (10 + 0); 5 + 0 - (5 + 0); 0 - 0; (0 - 0) / 1]%Q.
Proof. repeat split; vm_compute; reflexivity. Qed.

(** ** The further theorems on concrete commands *)

Lemma wf_sd_print_object : wf sd_print_object.
Proof. vm_compute. repeat split. Defined.

Lemma wf_saved_object : wf saved_object.
Proof. vm_compute. repeat split. Defined.

Lemma reachable_ready_object :
  reachable decimal_float decimal_int ready_object.
Proof.
  apply (reachable_step decimal_float decimal_int fresh_object).
  - now apply reachable_init.
  - apply (step_event decimal_float decimal_int (Klippy_ready (VsdObject false))).
Defined.

Lemma X1_witness :
  wf ready_object /\
  fst (g1_power_loss_hook decimal_float G1_X10_F600 ready_object) = Ok tt /\
  forallb (numeric_or_absent decimal_float G1_X10_F600)
    ["X"; "Y"; "Z"; "E"] = true /\
  positive_or_absent decimal_float G1_X10_F600 "F" = true /\
  move_with_transform ready_object = Some Toolhead /\
  exists st',
    cmd_G1 decimal_float G1_X10_F600 ready_object = (Ok tt, st') /\
    issued_moves st' = [(Toolhead, last_position st', speed st')] /\
    speed st' = (600 * (1 / 60))%Q /\
    last_position st' !! 0%nat = Some (10 + 0)%Q.
Proof.
  assert (H1 : wf ready_object) by exact wf_ready_object.
  assert (H2 : fst (g1_power_loss_hook decimal_float G1_X10_F600 ready_object)
               = Ok tt) by (vm_compute; reflexivity).
  assert (H3 : forallb (numeric_or_absent decimal_float G1_X10_F600)
                 ["X"; "Y"; "Z"; "E"] = true) by (vm_compute; reflexivity).
  assert (H4 : positive_or_absent decimal_float G1_X10_F600 "F" = true)
    by (vm_compute; reflexivity).
  assert (H5 : move_with_transform ready_object = Some Toolhead)
    by reflexivity.
  do 5 (split; [assumption|]).
  destruct (X1_G1_hands_over_one_move decimal_float G1_X10_F600 ready_object
              Toolhead H1 H2 H3 H4 H5)
    as (st' & E & Hm & Hs & _ & Hl).
  exists st'. split; [exact E|]. split; [exact Hm|]. split; [exact Hs|].
  apply (Hl 0%nat "X" 0%Q 0%Q).
  - apply list_elem_of_here.
  - reflexivity.
  - reflexivity.
Defined.

Lemma X2_witness :
  wf ready_object /\
  fst (g1_power_loss_hook decimal_float G1_X10_F600 ready_object) = Ok tt /\
  forallb (numeric_or_absent decimal_float G1_X10_F600)
    ["X"; "Y"; "Z"; "E"] = true /\
  exists after x,
    let st' := snd (cmd_G1 decimal_float G1_X10_F600 ready_object) in
    _get_gcode_position st' = (Ok after, st') /\
    after !! 0%nat = Some x /\ (x == 10)%Q.
Proof.
  assert (H1 : wf ready_object) by exact wf_ready_object.
  assert (H2 : fst (g1_power_loss_hook decimal_float G1_X10_F600 ready_object)
               = Ok tt) by (vm_compute; reflexivity).
  assert (H3 : forallb (numeric_or_absent decimal_float G1_X10_F600)
                 ["X"; "Y"; "Z"; "E"] = true) by (vm_compute; reflexivity).
  do 3 (split; [assumption|]).
  destruct (X2_G1_reaches_the_gcode_target decimal_float G1_X10_F600
              ready_object H1 H2 H3)
    as (before & after & Hb & Ha & Hall).
  assert (Hlen : exists x, after !! 0%nat = Some x).
  { revert Ha. vm_compute. intros [= <-]. eauto. }
  destruct Hlen as (x & Hx).
  exists after, x. split; [exact Ha|]. split; [exact Hx|].
  assert (Hb0 : before !! 0%nat = Some 0%Q).
  { revert Hb. vm_compute. now intros [= <-]. }
  exact (Hall 0%nat "X" 0%Q x (list_elem_of_here _ _) Hb0 Hx).
Defined.

Lemma X3_witness :
  wf ready_object /\
  absolute_coord ready_object = true /\
  absolute_extrude ready_object = true /\
  fst (g1_power_loss_hook decimal_float G1_X10_F600 ready_object) = Ok tt /\
  forallb (numeric_or_absent decimal_float G1_X10_F600)
    ["X"; "Y"; "Z"; "E"] = true /\
  let st1 := snd (cmd_G1 decimal_float G1_X10_F600 ready_object) in
  let st2 := snd (cmd_G1 decimal_float G1_X10_F600 st1) in
  fst (cmd_G1 decimal_float G1_X10_F600 st1)
    = fst (cmd_G1 decimal_float G1_X10_F600 ready_object) /\
  last_position st2 = last_position st1 /\
  speed st2 = speed st1.
Proof.
  assert (H1 : wf ready_object) by exact wf_ready_object.
  assert (H2 : absolute_coord ready_object = true) by reflexivity.
  assert (H3 : absolute_extrude ready_object = true) by reflexivity.
  assert (H4 : fst (g1_power_loss_hook decimal_float G1_X10_F600 ready_object)
               = Ok tt) by (vm_compute; reflexivity).
  assert (H5 : forallb (numeric_or_absent decimal_float G1_X10_F600)
                 ["X"; "Y"; "Z"; "E"] = true) by (vm_compute; reflexivity).
  do 5 (split; [assumption|]).
  exact (X3_G1_absolute_is_idempotent decimal_float G1_X10_F600 ready_object
           H1 H2 H3 H4 H5).
Defined.



Lemma X7_witness :
  wf ready_object /\
  is_printer_ready ready_object = true /\
  position_with_transform ready_object = Some Toolhead /\
  fst (cmd_G1 decimal_float G1_X10_Yabc ready_object)
    = Raise (CommandError "Unable to parse move 'G1 X10 Yabc'") /\
  last_position (snd (cmd_G1 decimal_float G1_X10_Yabc ready_object))
    = [10 + 0; 0; 0; 0]%Q /\
  exists v h,
    reset_last_position (snd (cmd_G1 decimal_float G1_X10_Yabc ready_object))
      = (Ok tt, set_last_position [0; 0; 0; 0]%Q (set_files v h ready_object)).
Proof.
  assert (H1 : wf ready_object) by exact wf_ready_object.
  assert (H2 : is_printer_ready ready_object = true) by reflexivity.
  assert (H3 : position_with_transform ready_object = Some Toolhead)
    by reflexivity.
  assert (H4 : fst (cmd_G1 decimal_float G1_X10_Yabc ready_object)
               = Raise (CommandError "Unable to parse move 'G1 X10 Yabc'"))
    by (vm_compute; reflexivity).
  do 4 (split; [assumption|]).
  split; [vm_compute; reflexivity|].
  exact (X7_command_error_then_resync decimal_float G1_X10_Yabc ready_object
           Toolhead _ H1 H2 H3 H4).
Defined.

Lemma X9_witness :
  (move_transform fresh_object = None \/ false = true) /\
  let st1 :=
    set_providers (Some 1%nat) (Some (Transform 1)) (Some (Transform 1))
      fresh_object in
  set_move_transform 1 false fresh_object = (Ok None, st1) /\
  set_move_transform 2 false st1 =
    (Raise (ConfigError "G-Code move transform already specified"), st1) /\
  set_move_transform 2 true st1 =
    (Ok (Some 1%nat),
     set_providers (Some 2%nat) (Some (Transform 2)) (Some (Transform 2))
       fresh_object).
Proof.
  assert (H1 : move_transform fresh_object = None \/ false = true)
    by (left; reflexivity).
  split; [assumption|].
  exact (X9_set_move_transform_single_owner 1 2 false fresh_object H1).
Defined.

Lemma X10_witness :
  wf ready_object /\
  length (executor_position ready_object) = 4%nat /\
  exists st' p ge,
    _handle_activate_extruder ready_object = (Ok tt, st') /\
    extrude_factor st' = 1%Q /\
    _get_gcode_position st' = (Ok p, st') /\
    p !! 3%nat = Some ge /\ (ge == 0)%Q.
Proof.
  assert (H1 : wf ready_object) by exact wf_ready_object.
  assert (H2 : length (executor_position ready_object) = 4%nat)
    by reflexivity.
  do 2 (split; [assumption|]).
  destruct (X10_activate_extruder_restarts_E ready_object H1 H2)
    as (st' & p & e & ge & E & Hef & _ & _ & _ & _ & Hp & Hge & H0).
  exists st', p, ge. repeat split; assumption.
Defined.

Lemma X11_witness :
  wf ready_object /\
  length (executor_position ready_object) = 4%nat /\
  Forall (fun a => (a < 4)%nat) [0%nat; 1%nat] /\
  exists st',
    _handle_home_rails_end [0%nat; 1%nat] ready_object = (Ok tt, st') /\
    base_position st' !! 0%nat = homing_position ready_object !! 0%nat /\
    base_position st' !! 2%nat = base_position ready_object !! 2%nat.
Proof.
  assert (H1 : wf ready_object) by exact wf_ready_object.
  assert (H2 : length (executor_position ready_object) = 4%nat)
    by reflexivity.
  assert (H3 : Forall (fun a => (a < 4)%nat) [0%nat; 1%nat])
    by (repeat constructor).
  do 3 (split; [assumption|]).
  destruct (X11_home_rails_end_resets_homed_axes [0%nat; 1%nat] ready_object
              H1 H2 H3)
    as (st' & E & _ & _ & _ & _ & Hb).
  exists st'. split; [exact E|]. split.
  - exact (Hb 0%nat).
  - exact (Hb 2%nat).
Defined.

Lemma X14_witness :
  saved_states ready_object !! state_name RESTORE_GCODE_STATE_T = None /\
  cmd_RESTORE_GCODE_STATE decimal_float decimal_int RESTORE_GCODE_STATE_T
    ready_object
  = (Raise (CommandError "Unknown g-code state: T"), ready_object).
Proof.
  assert (H1 : saved_states ready_object !! state_name RESTORE_GCODE_STATE_T
               = None) by (vm_compute; reflexivity).
  split; [assumption|].
  exact (X14_restore_unknown_name decimal_float decimal_int
           RESTORE_GCODE_STATE_T ready_object H1).
Defined.

Lemma X15_witness :
  wf saved_object /\ wf ready_object /\
  saved_states saved_object !! state_name RESTORE_GCODE_STATE_T
    = Some (snapshot ready_object) /\
  let st' := snd (cmd_RESTORE_GCODE_STATE decimal_float decimal_int
                    RESTORE_GCODE_STATE_T saved_object) in
  speed st' = speed ready_object /\
  homing_position st' = homing_position ready_object /\
  saved_states st' = saved_states saved_object.
Proof.
  assert (H1 : wf saved_object) by exact wf_saved_object.
  assert (H2 : wf ready_object) by exact wf_ready_object.
  assert (H3 : saved_states saved_object !! state_name RESTORE_GCODE_STATE_T
               = Some (snapshot ready_object)) by (vm_compute; reflexivity).
  do 3 (split; [assumption|]).
  destruct (X15_restore_brings_back_the_saved_frame decimal_float decimal_int
              RESTORE_GCODE_STATE_T saved_object ready_object H1 H2 H3)
    as (saved & after & es & ea & _ & _ & Hh & Hsp & _ & _ & _ & Hs & _).
  split; [exact Hsp|]. split; [exact Hh | exact Hs].
Defined.

Lemma X16_witness :
  wf saved_object /\ wf ready_object /\
  saved_states saved_object !! state_name RESTORE_GCODE_STATE_T_MOVE
    = Some (snapshot ready_object) /\
  params RESTORE_GCODE_STATE_T_MOVE !! "MOVE" = Some "1" /\
  decimal_int "1" = Some 1%Z /\ 1%Z <> 0%Z /\
  positive_or_absent decimal_float RESTORE_GCODE_STATE_T_MOVE "MOVE_SPEED"
    = true /\
  move_with_transform saved_object = Some Toolhead /\
  exists st',
    cmd_RESTORE_GCODE_STATE decimal_float decimal_int
      RESTORE_GCODE_STATE_T_MOVE saved_object = (Ok tt, st') /\
    issued_moves st'
      = (issued_moves saved_object
         ++ [(Toolhead, last_position st',
              default (speed ready_object)
                (float_param decimal_float RESTORE_GCODE_STATE_T_MOVE
                   "MOVE_SPEED"))])%list.
Proof.
  assert (H1 : wf saved_object) by exact wf_saved_object.
  assert (H2 : wf ready_object) by exact wf_ready_object.
  assert (H3 : saved_states saved_object
                 !! state_name RESTORE_GCODE_STATE_T_MOVE
               = Some (snapshot ready_object)) by (vm_compute; reflexivity).
  assert (H4 : params RESTORE_GCODE_STATE_T_MOVE !! "MOVE" = Some "1")
    by (vm_compute; reflexivity).
  assert (H5 : decimal_int "1" = Some 1%Z) by (vm_compute; reflexivity).
  assert (H6 : 1%Z <> 0%Z) by lia.
  assert (H7 : positive_or_absent decimal_float RESTORE_GCODE_STATE_T_MOVE
                 "MOVE_SPEED" = true) by (vm_compute; reflexivity).
  assert (H8 : move_with_transform saved_object = Some Toolhead)
    by reflexivity.
  do 8 (split; [assumption|]).
  destruct (X16_restore_with_move_returns_to_the_saved_position
              decimal_float decimal_int RESTORE_GCODE_STATE_T_MOVE
              saved_object ready_object "1" 1 Toolhead
              H1 H2 H3 H4 H5 H6 H7 H8)
    as (st' & saved & after & E & _ & Hm & _).
  exists st'. split; [exact E | exact Hm].
Defined.

Lemma X17_witness :
  wf ready_object /\
  params M220_plain !! "S" = None /\
  exists st',
    cmd_M220 decimal_float M220_plain ready_object = (Ok tt, st') /\
    (speed_factor st' == 1 / 60)%Q.
Proof.
  assert (H1 : wf ready_object) by exact wf_ready_object.
  assert (H2 : params M220_plain !! "S" = None) by (vm_compute; reflexivity).
  do 2 (split; [assumption|]).
  destruct (X17_override_without_S_is_100_percent decimal_float M220_plain
              ready_object H1 H2)
    as ((st' & before & after & E & _ & Hsf & _) & _).
  exists st'. split; [exact E | exact Hsf].
Defined.


Lemma X20_witness :
  wf ready_object /\
  forallb (numeric_or_absent decimal_float G92_X5) ["X"; "Y"; "Z"; "E"]
    = true /\
  exists st' after x,
    cmd_G92 decimal_float G92_X5 ready_object = (Ok tt, st') /\
    _get_gcode_position st' = (Ok after, st') /\
    after !! 0%nat = Some x /\ (x == 5)%Q.
Proof.
  assert (H1 : wf ready_object) by exact wf_ready_object.
  assert (H2 : forallb (numeric_or_absent decimal_float G92_X5)
                 ["X"; "Y"; "Z"; "E"] = true) by (vm_compute; reflexivity).
  do 2 (split; [assumption|]).
  destruct (X20_G92_sets_the_gcode_position decimal_float G92_X5 ready_object
              H1 H2)
    as (st' & before & after & E & Hb & Ha & Hall).
  assert (Hb0 : before !! 0%nat = Some 0%Q).
  { revert Hb. vm_compute. now intros [= <-]. }
  assert (Hlen : exists x, after !! 0%nat = Some x).
  { pose proof E as E'. revert E' Ha. vm_compute.
    intros [= <-]. vm_compute. intros [= <-]. eauto. }
  destruct Hlen as (x & Hx).
  exists st', after, x. do 3 (split; [assumption|]).
  exact (Hall 0%nat "X" 0%Q x (list_elem_of_here _ _) Hb0 Hx).
Defined.

Lemma X21_witness :
  forallb (numeric_or_absent decimal_float G92_X5_Yabc) ["X"; "Y"; "Z"; "E"]
    = false /\
  exists a s,
    a ∈ ["X"; "Y"; "Z"; "E"] /\
    params G92_X5_Yabc !! a = Some s /\ decimal_float s = None /\
    cmd_G92 decimal_float G92_X5_Yabc ready_object
      = (Raise (unable_to_parse G92_X5_Yabc s), ready_object).
Proof.
  assert (H1 : forallb (numeric_or_absent decimal_float G92_X5_Yabc)
                 ["X"; "Y"; "Z"; "E"] = false) by (vm_compute; reflexivity).
  split; [assumption|].
  exact (X21_G92_fails_before_writing decimal_float G92_X5_Yabc ready_object
           H1).
Defined.

Lemma X22_witness :
  wf ready_object /\
  forallb (offset_param_ok decimal_float SET_GCODE_OFFSET_X1_MOVE)
    ["X"; "Y"; "Z"; "E"] = true /\
  params SET_GCODE_OFFSET_X1_MOVE !! "MOVE" = Some "1" /\
  decimal_int "1" = Some 1%Z /\ 1%Z <> 0%Z /\
  positive_or_absent decimal_float SET_GCODE_OFFSET_X1_MOVE "MOVE_SPEED"
    = true /\
  move_with_transform ready_object = Some Toolhead /\
  exists st' before after,
    cmd_SET_GCODE_OFFSET decimal_float decimal_int SET_GCODE_OFFSET_X1_MOVE
      ready_object = (Ok tt, st') /\
    _get_gcode_position ready_object = (Ok before, ready_object) /\
    _get_gcode_position st' = (Ok after, st') /\
    Forall2 Qeq after before.
Proof.
  assert (H1 : wf ready_object) by exact wf_ready_object.
  assert (H2 : forallb (offset_param_ok decimal_float SET_GCODE_OFFSET_X1_MOVE)
                 ["X"; "Y"; "Z"; "E"] = true) by (vm_compute; reflexivity).
  assert (H3 : params SET_GCODE_OFFSET_X1_MOVE !! "MOVE" = Some "1")
    by (vm_compute; reflexivity).
  assert (H4 : decimal_int "1" = Some 1%Z) by (vm_compute; reflexivity).
  assert (H5 : 1%Z <> 0%Z) by lia.
  assert (H6 : positive_or_absent decimal_float SET_GCODE_OFFSET_X1_MOVE
                 "MOVE_SPEED" = true) by (vm_compute; reflexivity).
  assert (H7 : move_with_transform ready_object = Some Toolhead)
    by reflexivity.
  do 7 (split; [assumption|]).
  destruct (X22_offset_with_move_keeps_the_gcode_position decimal_float
              decimal_int SET_GCODE_OFFSET_X1_MOVE ready_object "1" 1 Toolhead
              H1 H2 H3 H4 H5 H6 H7)
    as (st' & before & after & E & _ & _ & Hb & Ha & Heq & _).
  exists st', before, after. repeat split; assumption.
Defined.

Lemma X23_witness :
  wf ready_object /\
  forallb (offset_param_ok decimal_float SET_GCODE_OFFSET_X1_MOVE_yes)
    ["X"; "Y"; "Z"; "E"] = true /\
  params SET_GCODE_OFFSET_X1_MOVE_yes !! "MOVE" = Some "yes" /\
  decimal_int "yes" = None /\
  exists st',
    cmd_SET_GCODE_OFFSET decimal_float decimal_int
      SET_GCODE_OFFSET_X1_MOVE_yes ready_object
      = (Raise (unable_to_parse SET_GCODE_OFFSET_X1_MOVE_yes "yes"), st') /\
    last_position st' = last_position ready_object /\
    homing_position st' !! 0%nat = Some 1%Q.
Proof.
  assert (H1 : wf ready_object) by exact wf_ready_object.
  assert (H2 : forallb (offset_param_ok decimal_float
                          SET_GCODE_OFFSET_X1_MOVE_yes)
                 ["X"; "Y"; "Z"; "E"] = true) by (vm_compute; reflexivity).
  assert (H3 : params SET_GCODE_OFFSET_X1_MOVE_yes !! "MOVE" = Some "yes")
    by (vm_compute; reflexivity).
  assert (H4 : decimal_int "yes" = None) by (vm_compute; reflexivity).
  do 4 (split; [assumption|]).
  destruct (X23_offset_is_set_before_MOVE_is_read decimal_float decimal_int
              SET_GCODE_OFFSET_X1_MOVE_yes ready_object "yes" H1 H2 H3 H4)
    as (st' & E & Hl & _ & Hall).
  exists st'. split; [exact E|]. split; [exact Hl|].
  destruct (Hall 0%nat "X" 0%Q 0%Q (list_elem_of_here _ _) eq_refl eq_refl)
    as [Hh _].
  exact Hh.
Defined.


Lemma X25_witness :
  reachable decimal_float decimal_int ready_object /\
  is_printer_ready ready_object = true /\
  exists p, move_with_transform ready_object = Some p /\
            position_with_transform ready_object = Some p.
Proof.
  assert (H1 : reachable decimal_float decimal_int ready_object)
    by exact reachable_ready_object.
  assert (H2 : is_printer_ready ready_object = true) by reflexivity.
  do 2 (split; [assumption|]).
  exact (proj2 (X25_reachable_states_are_bound_consistently decimal_float
                  decimal_int ready_object H1) H2).
Defined.

